(** * Order service of the billing platform (server/polar/order/service.py)

    A shallow embedding of [OrderService]: the order aggregate, the objects it
    reads from the payment processor, the stores and outboxes its methods
    touch, and the methods themselves written in a state-and-exception monad.
    The theorems at the end settle the properties the specification states
    about these methods. *)

From Stdlib Require Import ZArith List Ascii String Bool Lia.
Import ListNotations.

Open Scope string_scope.
Open Scope list_scope.
Open Scope Z_scope.

(** ** Identifiers, dictionaries and Python truthiness *)

(** A [uuid.UUID]; compared by its canonical text. *)
Definition uuid := string.

(** A [dict[str, str]]: Stripe metadata, user metadata, custom field data. *)
Definition metadata := list (string * string).

(** [d.get(k)] *)
Fixpoint dict_get (k : string) (d : metadata) : option string :=
  match d with
  | [] => None
  | (k', v) :: d' => if String.eqb k k' then Some v else dict_get k d'
  end.

(** Truth value of an optional string: [None] and [""] are false. *)
Definition truthy_str (o : option string) : bool :=
  match o with
  | Some s => negb (String.eqb s "")
  | None => false
  end.

(** Truth value of an optional dict: [None] and [{}] are false. *)
Definition truthy_dict (o : option metadata) : bool :=
  match o with
  | Some (_ :: _) => true
  | _ => false
  end.

(** [a or b] on optional strings. *)
Definition py_or (a b : option string) : option string :=
  if truthy_str a then a else b.

(** [m or {}] *)
Definition or_empty (m : option metadata) : metadata :=
  match m with
  | Some d => d
  | None => []
  end.

Definition option_eqb {A} (eqb : A -> A -> bool) (a b : option A) : bool :=
  match a, b with
  | Some x, Some y => eqb x y
  | None, None => true
  | _, _ => false
  end.

Definition isSome {A} (o : option A) : bool :=
  match o with Some _ => true | None => false end.

Definition isNone {A} (o : option A) : bool := negb (isSome o).

(** ** Enumerations *)

Module OrderStatus.
Inductive t := pending | paid.
Definition eqb (a b : t) : bool :=
  match a, b with
  | pending, pending | paid, paid => true
  | _, _ => false
  end.
End OrderStatus.

Module OrderBillingReason.
Inductive t := purchase | subscription_create | subscription_cycle | subscription_update.
Definition eqb (a b : t) : bool :=
  match a, b with
  | purchase, purchase | subscription_create, subscription_create
  | subscription_cycle, subscription_cycle | subscription_update, subscription_update => true
  | _, _ => false
  end.
(** Modelled from the spec: the enum lives in polar.models.order, which is
    not among the sources; the spec lists its members (purchase,
    subscription_cycle, subscription_create, subscription_update).
    [OrderBillingReason(s)] looks a member up by value; [None] stands for
    the [ValueError] of an unknown value. *)
Definition of_value (s : string) : option t :=
  if String.eqb s "purchase" then Some purchase
  else if String.eqb s "subscription_create" then Some subscription_create
  else if String.eqb s "subscription_cycle" then Some subscription_cycle
  else if String.eqb s "subscription_update" then Some subscription_update
  else None.
End OrderBillingReason.

Module TransactionType.
Inductive t := payment | balance | other.
Definition eqb (a b : t) : bool :=
  match a, b with
  | payment, payment | balance, balance | other, other => true
  | _, _ => false
  end.
End TransactionType.

Module WebhookEventType.
Inductive t := order_created | order_updated | order_paid.
Definition eqb (a b : t) : bool :=
  match a, b with
  | order_created, order_created | order_updated, order_updated
  | order_paid, order_paid => true
  | _, _ => false
  end.
End WebhookEventType.

Module SystemEvent.
Inductive t := meter_reset | meter_credited.
Definition eqb (a b : t) : bool :=
  match a, b with
  | meter_reset, meter_reset | meter_credited, meter_credited => true
  | _, _ => false
  end.
End SystemEvent.

Module CheckoutEvent.
Inductive t := order_created.
End CheckoutEvent.

(** [ProductType.pledge], the tag of an invoice that is not an order. *)
Definition ProductType_pledge : string := "pledge".

(** ** The data model *)

Record Address := {
  address_line1 : option string;
  address_postal_code : option string;
  address_city : option string;
  address_country : string
}.

Definition option_string_dec (a b : option string) : {a = b} + {a <> b}.
Proof. decide equality. apply string_dec. Defined.

Definition Address_eq_dec (a b : Address) : {a = b} + {a <> b}.
Proof. decide equality; first [ apply string_dec | apply option_string_dec ]. Defined.

Definition option_Address_dec (a b : option Address) : {a = b} + {a <> b}.
Proof. decide equality. apply Address_eq_dec. Defined.

Definition TaxabilityReason := string.

Record TaxRate := {
  tax_rate_display_name : string;
  tax_rate_basis_points : option Z;
  tax_rate_country : option string;
  tax_rate_state : option string
}.

Record Organization := {
  organization_id : uuid;
  organization_slug : string;
  organization_name : string;
  organization_account_url : string;
  organization_customer_invoice_prefix : string;
  organization_customer_invoice_next_number : Z
}.

Record Account := {
  account_id : uuid;
  account_organization_id : uuid
}.

Inductive ProductPriceAmountType :=
| ProductPriceFixed (price_amount : Z)
| ProductPriceCustom
| ProductPriceFree.

Record ProductPrice := {
  product_price_id : uuid;
  product_price_stripe_price_id : option string;
  product_price_amount_type : ProductPriceAmountType
}.

Record Product := {
  product_id : uuid;
  product_name : string;
  product_organization : Organization;
  product_is_recurring : bool;
  product_prices : list ProductPrice
}.

Definition product_organization_id (p : Product) : uuid :=
  organization_id (product_organization p).

Record Customer := {
  customer_id : uuid;
  customer_email : string;
  customer_billing_name : option string;
  customer_billing_address : option Address;
  customer_tax_id : option string;
  customer_stripe_customer_id : option string
}.

Record Discount := {
  discount_id : uuid;
  discount_name : string
}.

Record Meter := {
  meter_id : uuid;
  meter_name : string
}.

Record SubscriptionMeter := {
  subscription_meter_meter_id : uuid;
  subscription_meter_meter : Meter
}.

Record Subscription := {
  subscription_id : uuid;
  subscription_stripe_subscription_id : option string;
  subscription_product : Product;
  subscription_customer : Customer;
  subscription_meters : list SubscriptionMeter;
  subscription_user_metadata : metadata;
  subscription_custom_field_data : metadata
}.

Definition subscription_organization (s : Subscription) : Organization :=
  product_organization (subscription_product s).

Record Checkout := {
  checkout_id : uuid;
  checkout_client_secret : string;
  checkout_product : Product;
  checkout_customer : option Customer;
  checkout_organization : Organization;
  checkout_amount : Z;
  checkout_currency : string;
  checkout_discount : option Discount;
  checkout_tax_amount : option Z;
  checkout_tax_processor_id : option string;
  checkout_user_metadata : metadata;
  checkout_custom_field_data : metadata
}.

Record Payment := {
  payment_id : uuid;
  payment_amount : Z;
  payment_processor_id : string;
  payment_order_id : option uuid
}.

Record OrderItem := {
  order_item_label : string;
  order_item_amount : Z;
  order_item_tax_amount : Z;
  order_item_proration : bool;
  order_item_product_price : option ProductPrice
}.

Record Order := {
  order_id : uuid;
  order_status : OrderStatus.t;
  order_subtotal_amount : Z;
  order_discount_amount : Z;
  order_tax_amount : Z;
  order_currency : string;
  order_billing_reason : OrderBillingReason.t;
  order_billing_name : option string;
  order_billing_address : option Address;
  order_stripe_invoice_id : option string;
  order_taxability_reason : option TaxabilityReason;
  order_tax_id : option string;
  order_tax_rate : option TaxRate;
  order_invoice_number : string * Z;
  order_customer : Customer;
  order_product : Product;
  order_discount : option Discount;
  order_subscription : option Subscription;
  order_checkout : option Checkout;
  order_user_metadata : metadata;
  order_custom_field_data : metadata;
  order_items : list OrderItem;
  order_created_at : option Z;
  order_invoice_path : option string;
  order_tax_transaction_processor_id : option string
}.

(** Modelled from the spec: the properties [paid], [net_amount] and
    [total_amount] of the [Order] model, whose class (polar.models.order) is
    not among the sources.  The spec gives the status as pending or paid, an
    order that is not paid as unpaid, and the amounts as subtotal, discount,
    tax and net/total. *)
Definition order_paid (o : Order) : bool :=
  OrderStatus.eqb (order_status o) OrderStatus.paid.

Definition order_net_amount (o : Order) : Z :=
  order_subtotal_amount o - order_discount_amount o.

Definition order_total_amount (o : Order) : Z :=
  order_net_amount o + order_tax_amount o.

Definition order_subscription_id (o : Order) : option uuid :=
  option_map subscription_id (order_subscription o).

Definition order_organization (o : Order) : Organization :=
  product_organization (order_product o).

Definition set_order_id (v : uuid) (o : Order) : Order :=
  {| order_id := v; order_status := order_status o; order_subtotal_amount :=
     order_subtotal_amount o; order_discount_amount := order_discount_amount o;
     order_tax_amount := order_tax_amount o; order_currency := order_currency o;
     order_billing_reason := order_billing_reason o; order_billing_name :=
     order_billing_name o; order_billing_address := order_billing_address o;
     order_stripe_invoice_id := order_stripe_invoice_id o; order_taxability_reason :=
     order_taxability_reason o; order_tax_id := order_tax_id o; order_tax_rate :=
     order_tax_rate o; order_invoice_number := order_invoice_number o; order_customer :=
     order_customer o; order_product := order_product o; order_discount := order_discount o;
     order_subscription := order_subscription o; order_checkout := order_checkout o;
     order_user_metadata := order_user_metadata o; order_custom_field_data :=
     order_custom_field_data o; order_items := order_items o; order_created_at :=
     order_created_at o; order_invoice_path := order_invoice_path o;
     order_tax_transaction_processor_id := order_tax_transaction_processor_id o |}.

Definition set_order_status (v : OrderStatus.t) (o : Order) : Order :=
  {| order_id := order_id o; order_status := v; order_subtotal_amount :=
     order_subtotal_amount o; order_discount_amount := order_discount_amount o;
     order_tax_amount := order_tax_amount o; order_currency := order_currency o;
     order_billing_reason := order_billing_reason o; order_billing_name :=
     order_billing_name o; order_billing_address := order_billing_address o;
     order_stripe_invoice_id := order_stripe_invoice_id o; order_taxability_reason :=
     order_taxability_reason o; order_tax_id := order_tax_id o; order_tax_rate :=
     order_tax_rate o; order_invoice_number := order_invoice_number o; order_customer :=
     order_customer o; order_product := order_product o; order_discount := order_discount o;
     order_subscription := order_subscription o; order_checkout := order_checkout o;
     order_user_metadata := order_user_metadata o; order_custom_field_data :=
     order_custom_field_data o; order_items := order_items o; order_created_at :=
     order_created_at o; order_invoice_path := order_invoice_path o;
     order_tax_transaction_processor_id := order_tax_transaction_processor_id o |}.

Definition set_order_billing_name (v : option string) (o : Order) : Order :=
  {| order_id := order_id o; order_status := order_status o; order_subtotal_amount :=
     order_subtotal_amount o; order_discount_amount := order_discount_amount o;
     order_tax_amount := order_tax_amount o; order_currency := order_currency o;
     order_billing_reason := order_billing_reason o; order_billing_name := v;
     order_billing_address := order_billing_address o; order_stripe_invoice_id :=
     order_stripe_invoice_id o; order_taxability_reason := order_taxability_reason o;
     order_tax_id := order_tax_id o; order_tax_rate := order_tax_rate o;
     order_invoice_number := order_invoice_number o; order_customer := order_customer o;
     order_product := order_product o; order_discount := order_discount o;
     order_subscription := order_subscription o; order_checkout := order_checkout o;
     order_user_metadata := order_user_metadata o; order_custom_field_data :=
     order_custom_field_data o; order_items := order_items o; order_created_at :=
     order_created_at o; order_invoice_path := order_invoice_path o;
     order_tax_transaction_processor_id := order_tax_transaction_processor_id o |}.

Definition set_order_billing_address (v : option Address) (o : Order) : Order :=
  {| order_id := order_id o; order_status := order_status o; order_subtotal_amount :=
     order_subtotal_amount o; order_discount_amount := order_discount_amount o;
     order_tax_amount := order_tax_amount o; order_currency := order_currency o;
     order_billing_reason := order_billing_reason o; order_billing_name :=
     order_billing_name o; order_billing_address := v; order_stripe_invoice_id :=
     order_stripe_invoice_id o; order_taxability_reason := order_taxability_reason o;
     order_tax_id := order_tax_id o; order_tax_rate := order_tax_rate o;
     order_invoice_number := order_invoice_number o; order_customer := order_customer o;
     order_product := order_product o; order_discount := order_discount o;
     order_subscription := order_subscription o; order_checkout := order_checkout o;
     order_user_metadata := order_user_metadata o; order_custom_field_data :=
     order_custom_field_data o; order_items := order_items o; order_created_at :=
     order_created_at o; order_invoice_path := order_invoice_path o;
     order_tax_transaction_processor_id := order_tax_transaction_processor_id o |}.

Definition set_order_tax_transaction_processor_id (v : option string) (o : Order) : Order :=
  {| order_id := order_id o; order_status := order_status o; order_subtotal_amount :=
     order_subtotal_amount o; order_discount_amount := order_discount_amount o;
     order_tax_amount := order_tax_amount o; order_currency := order_currency o;
     order_billing_reason := order_billing_reason o; order_billing_name :=
     order_billing_name o; order_billing_address := order_billing_address o;
     order_stripe_invoice_id := order_stripe_invoice_id o; order_taxability_reason :=
     order_taxability_reason o; order_tax_id := order_tax_id o; order_tax_rate :=
     order_tax_rate o; order_invoice_number := order_invoice_number o; order_customer :=
     order_customer o; order_product := order_product o; order_discount := order_discount o;
     order_subscription := order_subscription o; order_checkout := order_checkout o;
     order_user_metadata := order_user_metadata o; order_custom_field_data :=
     order_custom_field_data o; order_items := order_items o; order_created_at :=
     order_created_at o; order_invoice_path := order_invoice_path o;
     order_tax_transaction_processor_id := v |}.

Record Transaction := {
  transaction_id : uuid;
  transaction_type : TransactionType.t;
  transaction_charge_id : option string;
  transaction_amount : Z;
  transaction_account_id : option uuid;
  transaction_order_id : option uuid;
  transaction_payment_customer_id : option uuid;
  transaction_payment_transaction_id : option uuid
}.

Definition set_transaction_order_id (v : option uuid) (t : Transaction) : Transaction :=
  {| transaction_id := transaction_id t; transaction_type := transaction_type t;
     transaction_charge_id := transaction_charge_id t; transaction_amount :=
     transaction_amount t; transaction_account_id := transaction_account_id t;
     transaction_order_id := v; transaction_payment_customer_id :=
     transaction_payment_customer_id t; transaction_payment_transaction_id :=
     transaction_payment_transaction_id t |}.

Definition set_transaction_payment_customer_id (v : option uuid) (t : Transaction) : Transaction :=
  {| transaction_id := transaction_id t; transaction_type := transaction_type t;
     transaction_charge_id := transaction_charge_id t; transaction_amount :=
     transaction_amount t; transaction_account_id := transaction_account_id t;
     transaction_order_id := transaction_order_id t; transaction_payment_customer_id := v;
     transaction_payment_transaction_id := transaction_payment_transaction_id t |}.

Record HeldBalance := {
  held_balance_amount : Z;
  held_balance_order_id : uuid;
  held_balance_payment_transaction_id : uuid;
  held_balance_organization_id : option uuid
}.

(** ** Objects of the payment processor *)

Record Coupon := {
  coupon_id : string;
  coupon_metadata : option metadata
}.

Record StripeDiscount := {
  stripe_discount_coupon : Coupon
}.

Record StripePrice := {
  stripe_price_id : string;
  stripe_price_metadata : option metadata
}.

Record InvoiceLine := {
  line_description : option string;
  line_amount : Z;
  line_tax_amounts : list Z;
  line_proration : bool;
  line_price : option StripePrice
}.

Record TotalTaxAmount := {
  total_tax_amount_taxability_reason : option string;
  total_tax_amount_tax_rate : string
}.

Record SubscriptionDetails := {
  subscription_details_metadata : option metadata
}.

(** [invoice.customer_address]: a dict whose ["country"] may be null. *)
Record CustomerAddress := {
  customer_address_line1 : option string;
  customer_address_postal_code : option string;
  customer_address_city : option string;
  customer_address_country : option string
}.

(** A [stripe.Invoice].  Expandable references ([subscription], [charge],
    [tax_rate]) are held by the id [get_expandable_id] extracts. *)
Record Invoice := {
  invoice_id : option string;
  invoice_metadata : option metadata;
  invoice_subscription : option string;
  invoice_customer_address : option CustomerAddress;
  invoice_charge : option string;
  invoice_discount : option StripeDiscount;
  invoice_subscription_details : option SubscriptionDetails;
  invoice_lines : list InvoiceLine;
  invoice_status : option string;
  invoice_billing_reason : option string;
  invoice_total_discount_amounts : option (list Z);
  invoice_tax : option Z;
  invoice_total_tax_amounts : list TotalTaxAmount;
  invoice_subtotal : Z;
  invoice_currency : string;
  invoice_created : Z
}.

Record Card := { card_country : option string }.
Record PaymentMethodDetails := { payment_method_details_card : option Card }.
Record Charge := { charge_payment_method_details : option PaymentMethodDetails }.
Record PaymentIntent := { payment_intent_latest_charge : option string }.

Definition StripeTaxRate := metadata.
Definition StripeTaxRateDetails := metadata.

Record TaxBreakdown := {
  tax_breakdown_taxability_reason : string;
  tax_breakdown_tax_rate_details : StripeTaxRateDetails
}.

Record TaxCalculation := {
  tax_calculation_id : string;
  tax_calculation_tax_amount_exclusive : Z;
  tax_calculation_tax_breakdown : list TaxBreakdown
}.

(** The processor client ([stripe_service]).  Its reads are functions of the
    processor's state and leave no trace; its two writes, [update_invoice]
    and [create_tax_transaction], are logged as [StripeCall]s.  The processor
    answers every call: a call that fails at the processor, which the
    service lets through to its caller, is outside what is modelled. *)
Record StripeService := {
  stripe_get_tax_calculation : string -> TaxCalculation;
  stripe_get_charge : string -> Charge;
  stripe_get_payment_intent : string -> PaymentIntent;
  stripe_get_invoice : string -> Invoice;
  stripe_get_tax_rate : string -> StripeTaxRate;
  stripe_tax_transaction_id : string -> string -> string
}.

Inductive StripeCall :=
| update_invoice (id : string) (statement_descriptor : string)
| create_tax_transaction (calculation_id : string) (reference : string).

(** ** Outboxes: what the service hands to its collaborators *)

Record Job := {
  job_name : string;
  job_kwargs : list (string * string)
}.

Record Webhook := {
  webhook_organization_id : uuid;
  webhook_event_type : WebhookEventType.t;
  webhook_order : Order
}.

Record EventMetadata := {
  event_meter_id : string;
  event_units : option Z;
  event_rollover : option bool
}.

(** A system event as [build_system_event] makes it. *)
Record Event := {
  event_name : SystemEvent.t;
  event_customer_id : uuid;
  event_organization_id : uuid;
  event_metadata : EventMetadata
}.

Inductive NotificationPayload :=
| MaintainerNewProductSaleNotificationPayload
    (customer_name product_name : string) (product_price_amount : Z)
    (organization_name : string)
| MaintainerCreateAccountNotificationPayload (organization_name url : string).

Record Notification := {
  notification_org_id : uuid;
  notification_payload : NotificationPayload
}.

Record Email := {
  email_to_email_addr : string;
  email_subject : string;
  email_url : string
}.

(** ** The world: stores, outboxes and oracles *)

Record World := {
  w_orders : list Order;
  w_organizations : list Organization;
  w_accounts : list Account;
  w_subscriptions : list Subscription;
  w_discounts : list Discount;
  w_checkouts : list Checkout;
  w_product_prices : list ProductPrice;
  w_payments : list Payment;
  w_transactions : list Transaction;
  w_held_balances : list HeldBalance;
  w_events : list Event;
  w_jobs : list Job;
  w_webhooks : list Webhook;
  w_notifications : list Notification;
  w_emails : list Email;
  w_checkout_events : list (string * CheckoutEvent.t);
  w_fee_reversals : list (uuid * uuid);
  w_customer_sessions : list (string * uuid);
  w_stripe : StripeService;
  w_stripe_calls : list StripeCall;
  w_rollover_units : uuid -> uuid -> Z;
  w_pending_entries : uuid -> list OrderItem;
  w_next_uuid : nat;
  w_log : list string
}.

Definition upd_orders (f : list Order -> list Order) (w : World) : World :=
  {| w_orders := f (w_orders w); w_organizations := w_organizations w; w_accounts :=
     w_accounts w; w_subscriptions := w_subscriptions w; w_discounts := w_discounts w;
     w_checkouts := w_checkouts w; w_product_prices := w_product_prices w; w_payments :=
     w_payments w; w_transactions := w_transactions w; w_held_balances := w_held_balances w;
     w_events := w_events w; w_jobs := w_jobs w; w_webhooks := w_webhooks w; w_notifications
     := w_notifications w; w_emails := w_emails w; w_checkout_events := w_checkout_events w;
     w_fee_reversals := w_fee_reversals w; w_customer_sessions := w_customer_sessions w;
     w_stripe := w_stripe w; w_stripe_calls := w_stripe_calls w; w_rollover_units :=
     w_rollover_units w; w_pending_entries := w_pending_entries w; w_next_uuid :=
     w_next_uuid w; w_log := w_log w |}.

Definition upd_organizations (f : list Organization -> list Organization) (w : World) : World :=
  {| w_orders := w_orders w; w_organizations := f (w_organizations w); w_accounts :=
     w_accounts w; w_subscriptions := w_subscriptions w; w_discounts := w_discounts w;
     w_checkouts := w_checkouts w; w_product_prices := w_product_prices w; w_payments :=
     w_payments w; w_transactions := w_transactions w; w_held_balances := w_held_balances w;
     w_events := w_events w; w_jobs := w_jobs w; w_webhooks := w_webhooks w; w_notifications
     := w_notifications w; w_emails := w_emails w; w_checkout_events := w_checkout_events w;
     w_fee_reversals := w_fee_reversals w; w_customer_sessions := w_customer_sessions w;
     w_stripe := w_stripe w; w_stripe_calls := w_stripe_calls w; w_rollover_units :=
     w_rollover_units w; w_pending_entries := w_pending_entries w; w_next_uuid :=
     w_next_uuid w; w_log := w_log w |}.

Definition upd_payments (f : list Payment -> list Payment) (w : World) : World :=
  {| w_orders := w_orders w; w_organizations := w_organizations w; w_accounts := w_accounts
     w; w_subscriptions := w_subscriptions w; w_discounts := w_discounts w; w_checkouts :=
     w_checkouts w; w_product_prices := w_product_prices w; w_payments := f (w_payments w);
     w_transactions := w_transactions w; w_held_balances := w_held_balances w; w_events :=
     w_events w; w_jobs := w_jobs w; w_webhooks := w_webhooks w; w_notifications :=
     w_notifications w; w_emails := w_emails w; w_checkout_events := w_checkout_events w;
     w_fee_reversals := w_fee_reversals w; w_customer_sessions := w_customer_sessions w;
     w_stripe := w_stripe w; w_stripe_calls := w_stripe_calls w; w_rollover_units :=
     w_rollover_units w; w_pending_entries := w_pending_entries w; w_next_uuid :=
     w_next_uuid w; w_log := w_log w |}.

Definition upd_transactions (f : list Transaction -> list Transaction) (w : World) : World :=
  {| w_orders := w_orders w; w_organizations := w_organizations w; w_accounts := w_accounts
     w; w_subscriptions := w_subscriptions w; w_discounts := w_discounts w; w_checkouts :=
     w_checkouts w; w_product_prices := w_product_prices w; w_payments := w_payments w;
     w_transactions := f (w_transactions w); w_held_balances := w_held_balances w; w_events
     := w_events w; w_jobs := w_jobs w; w_webhooks := w_webhooks w; w_notifications :=
     w_notifications w; w_emails := w_emails w; w_checkout_events := w_checkout_events w;
     w_fee_reversals := w_fee_reversals w; w_customer_sessions := w_customer_sessions w;
     w_stripe := w_stripe w; w_stripe_calls := w_stripe_calls w; w_rollover_units :=
     w_rollover_units w; w_pending_entries := w_pending_entries w; w_next_uuid :=
     w_next_uuid w; w_log := w_log w |}.

Definition upd_held_balances (f : list HeldBalance -> list HeldBalance) (w : World) : World :=
  {| w_orders := w_orders w; w_organizations := w_organizations w; w_accounts := w_accounts
     w; w_subscriptions := w_subscriptions w; w_discounts := w_discounts w; w_checkouts :=
     w_checkouts w; w_product_prices := w_product_prices w; w_payments := w_payments w;
     w_transactions := w_transactions w; w_held_balances := f (w_held_balances w); w_events
     := w_events w; w_jobs := w_jobs w; w_webhooks := w_webhooks w; w_notifications :=
     w_notifications w; w_emails := w_emails w; w_checkout_events := w_checkout_events w;
     w_fee_reversals := w_fee_reversals w; w_customer_sessions := w_customer_sessions w;
     w_stripe := w_stripe w; w_stripe_calls := w_stripe_calls w; w_rollover_units :=
     w_rollover_units w; w_pending_entries := w_pending_entries w; w_next_uuid :=
     w_next_uuid w; w_log := w_log w |}.

Definition upd_events (f : list Event -> list Event) (w : World) : World :=
  {| w_orders := w_orders w; w_organizations := w_organizations w; w_accounts := w_accounts
     w; w_subscriptions := w_subscriptions w; w_discounts := w_discounts w; w_checkouts :=
     w_checkouts w; w_product_prices := w_product_prices w; w_payments := w_payments w;
     w_transactions := w_transactions w; w_held_balances := w_held_balances w; w_events := f
     (w_events w); w_jobs := w_jobs w; w_webhooks := w_webhooks w; w_notifications :=
     w_notifications w; w_emails := w_emails w; w_checkout_events := w_checkout_events w;
     w_fee_reversals := w_fee_reversals w; w_customer_sessions := w_customer_sessions w;
     w_stripe := w_stripe w; w_stripe_calls := w_stripe_calls w; w_rollover_units :=
     w_rollover_units w; w_pending_entries := w_pending_entries w; w_next_uuid :=
     w_next_uuid w; w_log := w_log w |}.

Definition upd_jobs (f : list Job -> list Job) (w : World) : World :=
  {| w_orders := w_orders w; w_organizations := w_organizations w; w_accounts := w_accounts
     w; w_subscriptions := w_subscriptions w; w_discounts := w_discounts w; w_checkouts :=
     w_checkouts w; w_product_prices := w_product_prices w; w_payments := w_payments w;
     w_transactions := w_transactions w; w_held_balances := w_held_balances w; w_events :=
     w_events w; w_jobs := f (w_jobs w); w_webhooks := w_webhooks w; w_notifications :=
     w_notifications w; w_emails := w_emails w; w_checkout_events := w_checkout_events w;
     w_fee_reversals := w_fee_reversals w; w_customer_sessions := w_customer_sessions w;
     w_stripe := w_stripe w; w_stripe_calls := w_stripe_calls w; w_rollover_units :=
     w_rollover_units w; w_pending_entries := w_pending_entries w; w_next_uuid :=
     w_next_uuid w; w_log := w_log w |}.

Definition upd_webhooks (f : list Webhook -> list Webhook) (w : World) : World :=
  {| w_orders := w_orders w; w_organizations := w_organizations w; w_accounts := w_accounts
     w; w_subscriptions := w_subscriptions w; w_discounts := w_discounts w; w_checkouts :=
     w_checkouts w; w_product_prices := w_product_prices w; w_payments := w_payments w;
     w_transactions := w_transactions w; w_held_balances := w_held_balances w; w_events :=
     w_events w; w_jobs := w_jobs w; w_webhooks := f (w_webhooks w); w_notifications :=
     w_notifications w; w_emails := w_emails w; w_checkout_events := w_checkout_events w;
     w_fee_reversals := w_fee_reversals w; w_customer_sessions := w_customer_sessions w;
     w_stripe := w_stripe w; w_stripe_calls := w_stripe_calls w; w_rollover_units :=
     w_rollover_units w; w_pending_entries := w_pending_entries w; w_next_uuid :=
     w_next_uuid w; w_log := w_log w |}.

Definition upd_notifications (f : list Notification -> list Notification) (w : World) : World :=
  {| w_orders := w_orders w; w_organizations := w_organizations w; w_accounts := w_accounts
     w; w_subscriptions := w_subscriptions w; w_discounts := w_discounts w; w_checkouts :=
     w_checkouts w; w_product_prices := w_product_prices w; w_payments := w_payments w;
     w_transactions := w_transactions w; w_held_balances := w_held_balances w; w_events :=
     w_events w; w_jobs := w_jobs w; w_webhooks := w_webhooks w; w_notifications := f
     (w_notifications w); w_emails := w_emails w; w_checkout_events := w_checkout_events w;
     w_fee_reversals := w_fee_reversals w; w_customer_sessions := w_customer_sessions w;
     w_stripe := w_stripe w; w_stripe_calls := w_stripe_calls w; w_rollover_units :=
     w_rollover_units w; w_pending_entries := w_pending_entries w; w_next_uuid :=
     w_next_uuid w; w_log := w_log w |}.

Definition upd_emails (f : list Email -> list Email) (w : World) : World :=
  {| w_orders := w_orders w; w_organizations := w_organizations w; w_accounts := w_accounts
     w; w_subscriptions := w_subscriptions w; w_discounts := w_discounts w; w_checkouts :=
     w_checkouts w; w_product_prices := w_product_prices w; w_payments := w_payments w;
     w_transactions := w_transactions w; w_held_balances := w_held_balances w; w_events :=
     w_events w; w_jobs := w_jobs w; w_webhooks := w_webhooks w; w_notifications :=
     w_notifications w; w_emails := f (w_emails w); w_checkout_events := w_checkout_events
     w; w_fee_reversals := w_fee_reversals w; w_customer_sessions := w_customer_sessions w;
     w_stripe := w_stripe w; w_stripe_calls := w_stripe_calls w; w_rollover_units :=
     w_rollover_units w; w_pending_entries := w_pending_entries w; w_next_uuid :=
     w_next_uuid w; w_log := w_log w |}.

Definition upd_checkout_events (f : list (string * CheckoutEvent.t) -> list (string * CheckoutEvent.t)) (w : World) : World :=
  {| w_orders := w_orders w; w_organizations := w_organizations w; w_accounts := w_accounts
     w; w_subscriptions := w_subscriptions w; w_discounts := w_discounts w; w_checkouts :=
     w_checkouts w; w_product_prices := w_product_prices w; w_payments := w_payments w;
     w_transactions := w_transactions w; w_held_balances := w_held_balances w; w_events :=
     w_events w; w_jobs := w_jobs w; w_webhooks := w_webhooks w; w_notifications :=
     w_notifications w; w_emails := w_emails w; w_checkout_events := f (w_checkout_events
     w); w_fee_reversals := w_fee_reversals w; w_customer_sessions := w_customer_sessions w;
     w_stripe := w_stripe w; w_stripe_calls := w_stripe_calls w; w_rollover_units :=
     w_rollover_units w; w_pending_entries := w_pending_entries w; w_next_uuid :=
     w_next_uuid w; w_log := w_log w |}.

Definition upd_fee_reversals (f : list (uuid * uuid) -> list (uuid * uuid)) (w : World) : World :=
  {| w_orders := w_orders w; w_organizations := w_organizations w; w_accounts := w_accounts
     w; w_subscriptions := w_subscriptions w; w_discounts := w_discounts w; w_checkouts :=
     w_checkouts w; w_product_prices := w_product_prices w; w_payments := w_payments w;
     w_transactions := w_transactions w; w_held_balances := w_held_balances w; w_events :=
     w_events w; w_jobs := w_jobs w; w_webhooks := w_webhooks w; w_notifications :=
     w_notifications w; w_emails := w_emails w; w_checkout_events := w_checkout_events w;
     w_fee_reversals := f (w_fee_reversals w); w_customer_sessions := w_customer_sessions w;
     w_stripe := w_stripe w; w_stripe_calls := w_stripe_calls w; w_rollover_units :=
     w_rollover_units w; w_pending_entries := w_pending_entries w; w_next_uuid :=
     w_next_uuid w; w_log := w_log w |}.

Definition upd_customer_sessions (f : list (string * uuid) -> list (string * uuid)) (w : World) : World :=
  {| w_orders := w_orders w; w_organizations := w_organizations w; w_accounts := w_accounts
     w; w_subscriptions := w_subscriptions w; w_discounts := w_discounts w; w_checkouts :=
     w_checkouts w; w_product_prices := w_product_prices w; w_payments := w_payments w;
     w_transactions := w_transactions w; w_held_balances := w_held_balances w; w_events :=
     w_events w; w_jobs := w_jobs w; w_webhooks := w_webhooks w; w_notifications :=
     w_notifications w; w_emails := w_emails w; w_checkout_events := w_checkout_events w;
     w_fee_reversals := w_fee_reversals w; w_customer_sessions := f (w_customer_sessions w);
     w_stripe := w_stripe w; w_stripe_calls := w_stripe_calls w; w_rollover_units :=
     w_rollover_units w; w_pending_entries := w_pending_entries w; w_next_uuid :=
     w_next_uuid w; w_log := w_log w |}.

Definition upd_stripe_calls (f : list StripeCall -> list StripeCall) (w : World) : World :=
  {| w_orders := w_orders w; w_organizations := w_organizations w; w_accounts := w_accounts
     w; w_subscriptions := w_subscriptions w; w_discounts := w_discounts w; w_checkouts :=
     w_checkouts w; w_product_prices := w_product_prices w; w_payments := w_payments w;
     w_transactions := w_transactions w; w_held_balances := w_held_balances w; w_events :=
     w_events w; w_jobs := w_jobs w; w_webhooks := w_webhooks w; w_notifications :=
     w_notifications w; w_emails := w_emails w; w_checkout_events := w_checkout_events w;
     w_fee_reversals := w_fee_reversals w; w_customer_sessions := w_customer_sessions w;
     w_stripe := w_stripe w; w_stripe_calls := f (w_stripe_calls w); w_rollover_units :=
     w_rollover_units w; w_pending_entries := w_pending_entries w; w_next_uuid :=
     w_next_uuid w; w_log := w_log w |}.

Definition upd_pending_entries (f : (uuid -> list OrderItem) -> uuid -> list OrderItem) (w : World) : World :=
  {| w_orders := w_orders w; w_organizations := w_organizations w; w_accounts := w_accounts
     w; w_subscriptions := w_subscriptions w; w_discounts := w_discounts w; w_checkouts :=
     w_checkouts w; w_product_prices := w_product_prices w; w_payments := w_payments w;
     w_transactions := w_transactions w; w_held_balances := w_held_balances w; w_events :=
     w_events w; w_jobs := w_jobs w; w_webhooks := w_webhooks w; w_notifications :=
     w_notifications w; w_emails := w_emails w; w_checkout_events := w_checkout_events w;
     w_fee_reversals := w_fee_reversals w; w_customer_sessions := w_customer_sessions w;
     w_stripe := w_stripe w; w_stripe_calls := w_stripe_calls w; w_rollover_units :=
     w_rollover_units w; w_pending_entries := f (w_pending_entries w); w_next_uuid :=
     w_next_uuid w; w_log := w_log w |}.

Definition upd_next_uuid (f : nat -> nat) (w : World) : World :=
  {| w_orders := w_orders w; w_organizations := w_organizations w; w_accounts := w_accounts
     w; w_subscriptions := w_subscriptions w; w_discounts := w_discounts w; w_checkouts :=
     w_checkouts w; w_product_prices := w_product_prices w; w_payments := w_payments w;
     w_transactions := w_transactions w; w_held_balances := w_held_balances w; w_events :=
     w_events w; w_jobs := w_jobs w; w_webhooks := w_webhooks w; w_notifications :=
     w_notifications w; w_emails := w_emails w; w_checkout_events := w_checkout_events w;
     w_fee_reversals := w_fee_reversals w; w_customer_sessions := w_customer_sessions w;
     w_stripe := w_stripe w; w_stripe_calls := w_stripe_calls w; w_rollover_units :=
     w_rollover_units w; w_pending_entries := w_pending_entries w; w_next_uuid := f
     (w_next_uuid w); w_log := w_log w |}.

Definition upd_log (f : list string -> list string) (w : World) : World :=
  {| w_orders := w_orders w; w_organizations := w_organizations w; w_accounts := w_accounts
     w; w_subscriptions := w_subscriptions w; w_discounts := w_discounts w; w_checkouts :=
     w_checkouts w; w_product_prices := w_product_prices w; w_payments := w_payments w;
     w_transactions := w_transactions w; w_held_balances := w_held_balances w; w_events :=
     w_events w; w_jobs := w_jobs w; w_webhooks := w_webhooks w; w_notifications :=
     w_notifications w; w_emails := w_emails w; w_checkout_events := w_checkout_events w;
     w_fee_reversals := w_fee_reversals w; w_customer_sessions := w_customer_sessions w;
     w_stripe := w_stripe w; w_stripe_calls := w_stripe_calls w; w_rollover_units :=
     w_rollover_units w; w_pending_entries := w_pending_entries w; w_next_uuid :=
     w_next_uuid w; w_log := f (w_log w) |}.

(** ** Errors *)

Inductive FieldValue :=
| NameValue (v : option string)
| AddressValue (v : option Address).

Definition FieldValue_eq_dec (a b : FieldValue) : {a = b} + {a <> b}.
Proof. decide equality; first [ apply option_string_dec | apply option_Address_dec ]. Defined.

(** One entry of a request validation error. *)
Record ValidationError := {
  error_type : string;
  error_loc : string * string;
  error_msg : string;
  error_input : FieldValue
}.

Inductive Error :=
| RecurringProduct (checkout product : uuid)
| MissingCheckoutCustomer (checkout : uuid)
| NotAnOrderInvoice (invoice : string)
| NotASubscriptionInvoice (invoice : string)
| OrderDoesNotExist (invoice : string)
| DiscountDoesNotExist (invoice coupon : string)
| CheckoutDoesNotExist (invoice checkout : string)
| SubscriptionDoesNotExist (invoice stripe_subscription : string)
| AlreadyBalancedOrder (order payment_transaction : uuid)
| InvoiceAlreadyExists (order : uuid)
| NotPaidOrder (order : uuid)
| MissingInvoiceBillingDetails (order : uuid)
| InvoiceDoesNotExist (order : uuid)
| PaymentTransactionForChargeDoesNotExist (charge : string)
| PolarRequestValidationError (errors : list ValidationError)
| AssertionError
| KeyError (key : string)
| ValueError.

(** ** The monad of the service: state of the world, and exceptions

    A method takes the world and gives back a result, a value or the
    exception it raised, with the world as it stands at that point: what a
    method wrote before raising stays written, as in the source. *)

Inductive Result (A : Type) : Type :=
| Ok (a : A)
| Err (e : Error).
Arguments Ok {A} a.
Arguments Err {A} e.

Definition M (A : Type) : Type := World -> Result A * World.

Definition ret {A} (a : A) : M A := fun w => (Ok a, w).

Definition raise {A} (e : Error) : M A := fun w => (Err e, w).

Definition bind {A B} (m : M A) (k : A -> M B) : M B :=
  fun w =>
    match m w with
    | (Ok a, w') => k a w'
    | (Err e, w') => (Err e, w')
    end.

Notation "x <- m ;; k" := (bind m (fun x => k))
  (at level 61, m at next level, right associativity).
Notation "m ;;; k" := (bind m (fun _ => k))
  (at level 61, right associativity).

Definition gets {A} (f : World -> A) : M A := fun w => (Ok (f w), w).

Definition modify (f : World -> World) : M unit := fun w => (Ok tt, f w).

(** [assert b] *)
Definition assert (b : bool) : M unit :=
  if b then ret tt else raise AssertionError.

(** [if b: m] *)
Definition when (b : bool) (m : M unit) : M unit :=
  if b then m else ret tt.

(** [for x in l: body(x)] *)
Fixpoint for_each {A} (l : list A) (body : A -> M unit) : M unit :=
  match l with
  | [] => ret tt
  | x :: l' => body x ;;; for_each l' body
  end.

(** [[await f(x) for x in l]] *)
Fixpoint map_m {A B} (f : A -> M B) (l : list A) : M (list B) :=
  match l with
  | [] => ret []
  | x :: l' => y <- f x ;; ys <- map_m f l' ;; ret (y :: ys)
  end.

(** ** Stores *)

(** Rows of a table replaced by the new state of the row with the same key. *)
Definition replace_row {A} (same : A -> bool) (x : A) (l : list A) : list A :=
  map (fun y => if same y then x else y) l.

Definition enqueue_job (name : string) (kwargs : list (string * string)) : M unit :=
  modify (upd_jobs (fun js => js ++ [ {| job_name := name; job_kwargs := kwargs |} ])).

Definition log_message (msg : string) : M unit :=
  modify (upd_log (fun l => l ++ [msg])).

(** Text is kept as its UTF-8 bytes, while a Python [str] is a sequence of
    code points.  A byte from 128 to 191 continues the code point that the
    last byte outside that range began. *)
Definition is_continuation (c : ascii) : bool :=
  (128 <=? nat_of_ascii c)%nat && (nat_of_ascii c <? 192)%nat.

(** [len(s)]: the number of code points of a text. *)
Fixpoint code_points (s : string) : nat :=
  match s with
  | EmptyString => 0%nat
  | String c rest =>
      if is_continuation c then code_points rest else S (code_points rest)
  end.

(** [s[:n]]: the first [n] code points of a text, each with all its bytes. *)
Fixpoint str_take (n : nat) (s : string) : string :=
  match s with
  | EmptyString => EmptyString
  | String c rest =>
      if is_continuation c then String c (str_take n rest)
      else
        match n with
        | O => EmptyString
        | S n' => String c (str_take n' rest)
        end
  end.

(** [datetime.fromtimestamp(timestamp, tz=UTC)].  A [datetime] holds the
    instants of the years 1 to 9999; a timestamp outside them raises
    ([ValueError] for a year out of range; further out the platform makes it
    an [OverflowError] or an [OSError], which propagate alike). *)
Definition fromtimestamp (timestamp : Z) : M Z :=
  if (-62135596800 <=? timestamp) && (timestamp <=? 253402300799)
  then ret timestamp
  else raise ValueError.

Module OrderRepository.
Definition get_by_stripe_invoice_id (id : string) : M (option Order) :=
  gets (fun w =>
    find (fun o => option_eqb String.eqb (order_stripe_invoice_id o) (Some id))
         (w_orders w)).

(** [repository.update(order, update_dict=d)]: the attributes of [d] are
    set on the order and its row is written. *)
Definition update (order : Order) (update_dict : Order -> Order) : M Order :=
  let order' := update_dict order in
  modify (upd_orders
    (replace_row (fun o => String.eqb (order_id o) (order_id order')) order')) ;;;
  ret order'.
End OrderRepository.

Module OrganizationRepository.
Definition get_by_id (id : uuid) : M (option Organization) :=
  gets (fun w => find (fun o => String.eqb (organization_id o) id) (w_organizations w)).
End OrganizationRepository.

Module AccountRepository.
Definition get_by_organization (id : uuid) : M (option Account) :=
  gets (fun w => find (fun a => String.eqb (account_organization_id a) id) (w_accounts w)).
End AccountRepository.

Module webhook_service.
Definition send (organization : Organization) (event_type : WebhookEventType.t)
    (order : Order) : M unit :=
  modify (upd_webhooks (fun l =>
    l ++ [ {| webhook_organization_id := organization_id organization;
              webhook_event_type := event_type;
              webhook_order := order |} ])).
End webhook_service.

Module notifications_service.
Definition send_to_org_members (org_id : uuid) (notif : NotificationPayload) : M unit :=
  modify (upd_notifications (fun l =>
    l ++ [ {| notification_org_id := org_id; notification_payload := notif |} ])).
End notifications_service.

(** ** The transition notifier *)

(** [send_webhook] (lines 960-977).  The refresh of [order.product.prices]
    reloads the price list the product value already carries. *)
Definition send_webhook (order : Order) (event_type : WebhookEventType.t) : M unit :=
  organization <- OrganizationRepository.get_by_id (product_organization_id (order_product order)) ;;
  match organization with
  | Some organization => webhook_service.send organization event_type order
  | None => ret tt
  end.

(** [_on_order_paid] (lines 1003-1015). *)
Definition _on_order_paid (order : Order) : M unit :=
  assert (order_paid order) ;;;
  send_webhook order WebhookEventType.order_paid ;;;
  match order_subscription_id order with
  | Some subscription_id =>
      when (OrderBillingReason.eqb (order_billing_reason order)
              OrderBillingReason.subscription_cycle)
        (enqueue_job "benefit.enqueue_benefit_grant_cycles"
           [("subscription_id", subscription_id)])
  | None => ret tt
  end.

(** [_on_order_created] (lines 979-990). *)
Definition _on_order_created (order : Order) : M unit :=
  send_webhook order WebhookEventType.order_created ;;;
  enqueue_job "order.discord_notification" [("order_id", order_id order)] ;;;
  when (order_paid order) (_on_order_paid order) ;;;
  match order_checkout order with
  | Some checkout =>
      modify (upd_checkout_events (fun l =>
        l ++ [(checkout_client_secret checkout, CheckoutEvent.order_created)]))
  | None => ret tt
  end.

(** [_on_order_updated] (lines 992-1001). *)
Definition _on_order_updated (order : Order) (previous_status : OrderStatus.t) : M unit :=
  send_webhook order WebhookEventType.order_updated ;;;
  let became_paid :=
    OrderStatus.eqb (order_status order) OrderStatus.paid
    && negb (OrderStatus.eqb previous_status OrderStatus.paid) in
  when became_paid (_on_order_paid order).

(** ** Updating an order, and the invoice lock *)

(** [OrderUpdate | CustomerOrderUpdate]: a field is [None] when it is not in
    [model_fields_set], [Some v] when the request set it to [v]. *)
Record OrderUpdate := {
  order_update_billing_name : option (option string);
  order_update_billing_address : option (option Address)
}.

Definition in_model_fields_set (field : string) (u : OrderUpdate) : bool :=
  if String.eqb field "billing_name" then isSome (order_update_billing_name u)
  else if String.eqb field "billing_address" then isSome (order_update_billing_address u)
  else false.

(** [getattr(order_update, field)]; an unset field reads as its default, [None]. *)
Definition getattr_order_update (u : OrderUpdate) (field : string) : FieldValue :=
  if String.eqb field "billing_name" then
    NameValue match order_update_billing_name u with Some v => v | None => None end
  else
    AddressValue match order_update_billing_address u with Some v => v | None => None end.

(** [getattr(order, field)] *)
Definition getattr_order (o : Order) (field : string) : FieldValue :=
  if String.eqb field "billing_name" then NameValue (order_billing_name o)
  else AddressValue (order_billing_address o).

(** [order_update.model_dump(exclude_unset=True)], as the assignment it
    stands for. *)
Definition model_dump_exclude_unset (u : OrderUpdate) (o : Order) : Order :=
  let o :=
    match order_update_billing_name u with
    | Some v => set_order_billing_name v o
    | None => o
    end in
  match order_update_billing_address u with
  | Some v => set_order_billing_address v o
  | None => o
  end.

(** The set literal of line 340, in one of its iteration orders. *)
Definition invoice_locked_fields : list string := ["billing_name"; "billing_address"].

Definition locked_field_error (order_update : OrderUpdate) (field : string) : ValidationError :=
  {| error_type := "value_error";
     error_loc := ("body", field);
     error_msg := "This field cannot be updated after the invoice is generated.";
     error_input := getattr_order_update order_update field |}.

(** Lines 339-353: the errors the lock collects. *)
Definition invoice_lock_errors (order : Order) (order_update : OrderUpdate)
    : list ValidationError :=
  match order_invoice_path order with
  | Some _ =>
      flat_map (fun field =>
        if in_model_fields_set field order_update
           && (if FieldValue_eq_dec (getattr_order_update order_update field)
                                    (getattr_order order field)
               then false else true)
        then [locked_field_error order_update field]
        else [])
        invoice_locked_fields
  | None => []
  end.

(** [update] (lines 333-365). *)
Definition update (order : Order) (order_update : OrderUpdate) : M Order :=
  let errors := invoice_lock_errors order order_update in
  match errors with
  | _ :: _ => raise (PolarRequestValidationError errors)
  | [] =>
      order <- OrderRepository.update order (model_dump_exclude_unset order_update) ;;
      send_webhook order WebhookEventType.order_updated ;;;
      ret order
  end.

(** ** The invoice document controller *)

(** [trigger_invoice_generation] (lines 367-379). *)
Definition trigger_invoice_generation (order : Order) : M unit :=
  if isSome (order_invoice_path order) then raise (InvoiceAlreadyExists (order_id order))
  else if negb (order_paid order) then raise (NotPaidOrder (order_id order))
  else if isNone (order_billing_name order) || isNone (order_billing_address order)
  then raise (MissingInvoiceBillingDetails (order_id order))
  else enqueue_job "order.invoice" [("order_id", order_id order)].

(** ** Reconciliation: the update path *)

(** Lines 797-817: a paid order has its balance creation queued, for the
    charge of the invoice or, failing that, for the latest charge of the
    out-of-band payment intent its metadata names. *)
Definition enqueue_balance_creation (order : Order) (invoice : Invoice) : M unit :=
  when (order_paid order)
    (if truthy_str (invoice_charge invoice) then
       match invoice_charge invoice with
       | Some charge =>
           enqueue_job "order.balance"
             [("order_id", order_id order); ("charge_id", charge)]
       | None => ret tt
       end
     else if truthy_dict (invoice_metadata invoice)
             && truthy_str (dict_get "payment_intent_id" (or_empty (invoice_metadata invoice)))
     then
       match dict_get "payment_intent_id" (or_empty (invoice_metadata invoice)) with
       | Some payment_intent_id =>
           payment_intent <-
             gets (fun w => stripe_get_payment_intent (w_stripe w) payment_intent_id) ;;
           match payment_intent_latest_charge payment_intent with
           | None => raise AssertionError
           | Some latest_charge =>
               enqueue_job "order.balance"
                 [("order_id", order_id order); ("charge_id", latest_charge)]
           end
       | None => ret tt
       end
     else ret tt).

(** [update_order_from_stripe] (lines 782-820). *)
Definition update_order_from_stripe (invoice : Invoice) : M Order :=
  match invoice_id invoice with
  | None => raise AssertionError
  | Some id =>
      order <- OrderRepository.get_by_stripe_invoice_id id ;;
      match order with
      | None => raise (OrderDoesNotExist id)
      | Some order =>
          let previous_status := order_status order in
          let status :=
            if option_eqb String.eqb (invoice_status invoice) (Some "paid")
            then OrderStatus.paid else OrderStatus.pending in
          order <- OrderRepository.update order (set_order_status status) ;;
          enqueue_balance_creation order invoice ;;;
          _on_order_updated order previous_status ;;;
          ret order
      end
  end.

(** Modelled from the spec: the ledger service and the held balances are
    other modules of the repository; the spec has them find transactions by
    type and charge or transaction id, and look held balances up by payment
    transaction and organization before one is created.

    A keyword of [get_by] that was not given matches every row. *)
Definition matches (criterion : option string) (value : option string) : bool :=
  match criterion with
  | Some c => option_eqb String.eqb value (Some c)
  | None => true
  end.

Module balance_transaction_service.
(** [get_by(session, type=..., charge_id=..., payment_transaction_id=...,
    account_id=...)]: the first transaction the given keywords match. *)
Definition get_by (type : TransactionType.t)
    (charge_id payment_transaction_id account_id : option string)
    : M (option Transaction) :=
  gets (fun w =>
    find (fun t =>
            TransactionType.eqb (transaction_type t) type
            && matches charge_id (transaction_charge_id t)
            && matches payment_transaction_id (transaction_payment_transaction_id t)
            && matches account_id (transaction_account_id t))
         (w_transactions w)).
End balance_transaction_service.

(** [session.add(transaction)] for a transaction already loaded. *)
Definition session_add_transaction (t : Transaction) : M unit :=
  modify (upd_transactions
    (replace_row (fun t' => String.eqb (transaction_id t') (transaction_id t)) t)).

Module held_balance_service.
Definition get_by (payment_transaction_id organization_id : uuid)
    : M (option HeldBalance) :=
  gets (fun w =>
    find (fun h =>
            String.eqb (held_balance_payment_transaction_id h) payment_transaction_id
            && option_eqb String.eqb (held_balance_organization_id h)
                 (Some organization_id))
         (w_held_balances w)).

Definition create (held_balance : HeldBalance) : M unit :=
  modify (upd_held_balances (fun l => l ++ [held_balance])).
End held_balance_service.

Section Service.

(** What the service takes from modules that are not among the sources. *)

(** [uuid.uuid4()], as a function of the number of identifiers drawn so far. *)
Variable uuid4 : nat -> uuid.
(** [uuid.UUID(s)]; [None] stands for the [ValueError] of a malformed text. *)
Variable UUID : string -> option uuid.
(** [TaxabilityReason.from_stripe(reason, tax_amount)] *)
Variable TaxabilityReason_from_stripe : option string -> Z -> option TaxabilityReason.
(** [from_stripe_tax_rate(rate)]; [None] stands for its [ValueError]. *)
Variable from_stripe_tax_rate : StripeTaxRate -> option TaxRate.
(** [from_stripe_tax_rate_details(details)] *)
Variable from_stripe_tax_rate_details : StripeTaxRateDetails -> option TaxRate.
(** [discount.get_discount_amount(amount)] *)
Variable get_discount_amount : Discount -> Z -> Z.
(** [settings.stripe_descriptor_suffix_max_length] *)
Variable stripe_descriptor_suffix_max_length : nat.

Definition fresh_uuid : M uuid :=
  fun w => (Ok (uuid4 (w_next_uuid w)), upd_next_uuid S w).

(** Modelled from the spec: [balance_transaction_service.create_balance_from_charge]
    creates the balance transfer from the charge to the account.  The ledger
    finds the payment transaction of the charge and writes the outgoing and
    the incoming balance transaction of the transfer, both tied to it. *)
Definition create_balance_from_charge (destination_account : Account)
    (charge_id : string) (amount : Z) (order : Order) : M (Transaction * Transaction) :=
  payment_transaction <-
    balance_transaction_service.get_by TransactionType.payment (Some charge_id) None None ;;
  match payment_transaction with
  | None => raise (PaymentTransactionForChargeDoesNotExist charge_id)
  | Some payment_transaction =>
      outgoing_id <- fresh_uuid ;;
      incoming_id <- fresh_uuid ;;
      let outgoing :=
        {| transaction_id := outgoing_id;
           transaction_type := TransactionType.balance;
           transaction_charge_id := None;
           transaction_amount := - amount;
           transaction_account_id := None;
           transaction_order_id := Some (order_id order);
           transaction_payment_customer_id := None;
           transaction_payment_transaction_id :=
             Some (transaction_id payment_transaction) |} in
      let incoming :=
        {| transaction_id := incoming_id;
           transaction_type := TransactionType.balance;
           transaction_charge_id := None;
           transaction_amount := amount;
           transaction_account_id := Some (account_id destination_account);
           transaction_order_id := Some (order_id order);
           transaction_payment_customer_id := None;
           transaction_payment_transaction_id :=
             Some (transaction_id payment_transaction) |} in
      modify (upd_transactions (fun l => l ++ [outgoing; incoming])) ;;;
      ret (outgoing, incoming)
  end.

(** [platform_fee_transaction_service.create_fees_reversal_balances] *)
Definition create_fees_reversal_balances (balance_transactions : Transaction * Transaction)
    : M unit :=
  modify (upd_fee_reversals (fun l =>
    l ++ [(transaction_id (fst balance_transactions),
           transaction_id (snd balance_transactions))])).


(** ** The balance settlement coordinator *)

(** [create_order_balance] (lines 878-958). *)
Definition create_order_balance (order : Order) (charge_id : string) : M unit :=
  let organization := order_organization order in
  account <- AccountRepository.get_by_organization (organization_id organization) ;;
  payment_transaction <-
    balance_transaction_service.get_by TransactionType.payment (Some charge_id) None None ;;
  match payment_transaction with
  | None => raise (PaymentTransactionForChargeDoesNotExist charge_id)
  | Some payment_transaction =>
      let transfer_amount := transaction_amount payment_transaction in
      let payment_transaction :=
        set_transaction_payment_customer_id (Some (customer_id (order_customer order)))
          (set_transaction_order_id (Some (order_id order)) payment_transaction) in
      session_add_transaction payment_transaction ;;;
      let held_balance :=
        {| held_balance_amount := transfer_amount;
           held_balance_order_id := order_id order;
           held_balance_payment_transaction_id := transaction_id payment_transaction;
           held_balance_organization_id := None |} in
      match account with
      | None =>
          let held_balance :=
            {| held_balance_amount := held_balance_amount held_balance;
               held_balance_order_id := held_balance_order_id held_balance;
               held_balance_payment_transaction_id :=
                 held_balance_payment_transaction_id held_balance;
               held_balance_organization_id := Some (organization_id organization) |} in
          existing_held_balance <-
            held_balance_service.get_by (transaction_id payment_transaction)
              (organization_id organization) ;;
          match existing_held_balance with
          | Some _ =>
              raise (AlreadyBalancedOrder (order_id order)
                       (transaction_id payment_transaction))
          | None =>
              held_balance_service.create held_balance ;;;
              notifications_service.send_to_org_members (organization_id organization)
                (MaintainerCreateAccountNotificationPayload
                   (organization_slug organization)
                   (organization_account_url organization))
          end
      | Some account =>
          existing_balance_transaction <-
            balance_transaction_service.get_by TransactionType.balance None
              (Some (transaction_id payment_transaction)) (Some (account_id account)) ;;
          match existing_balance_transaction with
          | Some _ =>
              raise (AlreadyBalancedOrder (order_id order)
                       (transaction_id payment_transaction))
          | None =>
              balance_transactions <-
                create_balance_from_charge account charge_id transfer_amount order ;;
              create_fees_reversal_balances balance_transactions
          end
      end
  end.

(** ** Collaborators of order creation *)

(** [repository.create(Order(...), flush=True)]: the flush gives the order
    its identifier. *)
Definition OrderRepository_create (order : Order) : M Order :=
  id <- fresh_uuid ;;
  let order := set_order_id id order in
  modify (upd_orders (fun l => l ++ [order])) ;;;
  ret order.

(** Modelled from the spec: [organization_service.get_next_invoice_number]
    allocates the next sequential invoice number of the organization, here
    its prefix with the number, which is then advanced. *)
Definition get_next_invoice_number (organization : Organization) : M (string * Z) :=
  row <- OrganizationRepository.get_by_id (organization_id organization) ;;
  let current := match row with Some r => r | None => organization end in
  let advanced :=
    {| organization_id := organization_id current;
       organization_slug := organization_slug current;
       organization_name := organization_name current;
       organization_account_url := organization_account_url current;
       organization_customer_invoice_prefix := organization_customer_invoice_prefix current;
       organization_customer_invoice_next_number :=
         organization_customer_invoice_next_number current + 1 |} in
  modify (upd_organizations
    (replace_row (fun o => String.eqb (organization_id o) (organization_id current))
       advanced)) ;;;
  ret (organization_customer_invoice_prefix current,
       organization_customer_invoice_next_number current).

(** [payment_repository.update(payment, update_dict={"order": order})] *)
Definition PaymentRepository_update_order (payment : Payment) (order : Order) : M unit :=
  let payment' :=
    {| payment_id := payment_id payment;
       payment_amount := payment_amount payment;
       payment_processor_id := payment_processor_id payment;
       payment_order_id := Some (order_id order) |} in
  modify (upd_payments
    (replace_row (fun p => String.eqb (payment_id p) (payment_id payment)) payment')).

(** [stripe_service.create_tax_transaction(calculation_id, reference)] *)
Definition stripe_create_tax_transaction (calculation_id reference : string) : M string :=
  modify (upd_stripe_calls (fun l => l ++ [create_tax_transaction calculation_id reference])) ;;;
  gets (fun w => stripe_tax_transaction_id (w_stripe w) calculation_id reference).

(** [send_admin_notification] (lines 764-780). *)
Definition send_admin_notification (organization : Organization) (order : Order) : M unit :=
  let product := order_product order in
  notifications_service.send_to_org_members (product_organization_id product)
    (MaintainerNewProductSaleNotificationPayload
       (customer_email (order_customer order))
       (product_name product)
       (order_net_amount order)
       (organization_slug organization)).

(** [send_confirmation_email] (lines 822-846): a customer session is opened
    and the rendered confirmation is queued for the customer's address. *)
Definition send_confirmation_email (organization : Organization) (order : Order) : M unit :=
  let product := order_product order in
  let customer := order_customer order in
  token <- fresh_uuid ;;
  modify (upd_customer_sessions (fun l => l ++ [(token, customer_id customer)])) ;;;
  modify (upd_emails (fun l =>
    l ++ [ {| email_to_email_addr := customer_email customer;
              email_subject :=
                ("Your " ++ product_name product ++ " order confirmation")%string;
              email_url :=
                ("/" ++ organization_slug organization
                   ++ "/portal?customer_session_token=" ++ token
                   ++ "&id=" ++ order_id order)%string |} ])).

(** ** The checkout-to-order converter *)

(** Modelled from the spec: [is_custom_price], of polar.product.guard, holds
    of a custom (pay-what-you-want) price. *)
Definition is_custom_price (price : ProductPrice) : bool :=
  match product_price_amount_type price with
  | ProductPriceCustom => true
  | _ => false
  end.

(** The label [OrderItem.from_price] gives an item. *)
Variable price_label : ProductPrice -> string.

(** Modelled from the spec: [OrderItem.from_price(price, tax_amount, amount)],
    of the model class.  A custom price uses the amount it is given (the
    checkout's chosen amount), a fixed price the amount the price defines, a
    free price nothing. *)
Definition OrderItem_from_price (price : ProductPrice) (tax_amount : Z)
    (amount : option Z) : OrderItem :=
  {| order_item_label := price_label price;
     order_item_amount :=
       match product_price_amount_type price with
       | ProductPriceFixed price_amount => price_amount
       | ProductPriceCustom => match amount with Some a => a | None => 0 end
       | ProductPriceFree => 0
       end;
     order_item_tax_amount := tax_amount;
     order_item_proration := false;
     order_item_product_price := Some price |}.

(** Modelled from the spec: [checkout.discount_amount], a property of the
    checkout model: what the attached discount takes off the amount, nothing
    without a discount. *)
Definition checkout_discount_amount (checkout : Checkout) : Z :=
  match checkout_discount checkout with
  | Some discount => get_discount_amount discount (checkout_amount checkout)
  | None => 0
  end.

(** Lines 429-450: the tax data of the checkout. *)
Definition checkout_tax_data (checkout : Checkout) (tax_amount : Z)
    : M (option TaxabilityReason * option TaxRate) :=
  match checkout_tax_processor_id checkout with
  | Some tax_processor_id =>
      calculation <-
        gets (fun w => stripe_get_tax_calculation (w_stripe w) tax_processor_id) ;;
      assert (tax_amount =? tax_calculation_tax_amount_exclusive calculation) ;;;
      match tax_calculation_tax_breakdown calculation with
      | [] => raise AssertionError
      | breakdown :: more =>
          when (isSome (hd_error more))
            (log_message "Multiple tax breakdowns found for checkout") ;;;
          ret (TaxabilityReason_from_stripe
                 (Some (tax_breakdown_taxability_reason breakdown)) tax_amount,
               from_stripe_tax_rate_details (tax_breakdown_tax_rate_details breakdown))
      end
  | None => ret (None, None)
  end.

(** [create_from_checkout] (lines 406-516). *)
Definition create_from_checkout (checkout : Checkout) (payment : option Payment) : M Order :=
  let product := checkout_product checkout in
  if product_is_recurring product
  then raise (RecurringProduct (checkout_id checkout) (product_id product))
  else
  match checkout_customer checkout with
  | None => raise (MissingCheckoutCustomer (checkout_id checkout))
  | Some customer =>
      let prices := product_prices product in
      let items :=
        map (fun price =>
               if is_custom_price price
               then OrderItem_from_price price 0 (Some (checkout_amount checkout))
               else OrderItem_from_price price 0 None)
            prices in
      let discount_amount := checkout_discount_amount checkout in
      let tax_amount :=
        match checkout_tax_amount checkout with Some a => a | None => 0 end in
      let tax_id := customer_tax_id customer in
      tax_data <- checkout_tax_data checkout tax_amount ;;
      let taxability_reason := fst tax_data in
      let tax_rate := snd tax_data in
      let organization := checkout_organization checkout in
      invoice_number <- get_next_invoice_number organization ;;
      order <- OrderRepository_create
        {| order_id := "";
           order_status := OrderStatus.paid;
           order_subtotal_amount := checkout_amount checkout;
           order_discount_amount := discount_amount;
           order_tax_amount := tax_amount;
           order_currency := checkout_currency checkout;
           order_billing_reason := OrderBillingReason.purchase;
           order_billing_name := customer_billing_name customer;
           order_billing_address := customer_billing_address customer;
           order_stripe_invoice_id := None;
           order_taxability_reason := taxability_reason;
           order_tax_id := tax_id;
           order_tax_rate := tax_rate;
           order_invoice_number := invoice_number;
           order_customer := customer;
           order_product := product;
           order_discount := checkout_discount checkout;
           order_subscription := None;
           order_checkout := Some checkout;
           order_user_metadata := checkout_user_metadata checkout;
           order_custom_field_data := checkout_custom_field_data checkout;
           order_items := items;
           order_created_at := None;
           order_invoice_path := None;
           order_tax_transaction_processor_id := None |} ;;
      match payment with
      | Some payment =>
          assert (payment_amount payment =? order_total_amount order) ;;;
          PaymentRepository_update_order payment order ;;;
          enqueue_job "order.balance"
            [("order_id", order_id order); ("charge_id", payment_processor_id payment)]
      | None => ret tt
      end ;;;
      order <-
        match checkout_tax_processor_id checkout with
        | Some tax_processor_id =>
            transaction <- stripe_create_tax_transaction tax_processor_id (order_id order) ;;
            OrderRepository.update order
              (set_order_tax_transaction_processor_id (Some transaction))
        | None => ret order
        end ;;
      enqueue_job "benefit.enqueue_benefits_grants"
        [("task", "grant"); ("customer_id", customer_id customer);
         ("product_id", product_id product); ("order_id", order_id order)] ;;;
      send_admin_notification organization order ;;;
      send_confirmation_email organization order ;;;
      _on_order_created order ;;;
      ret order
  end.

(** ** Reconciliation: the creation path *)

(** [_is_empty_customer_address] (lines 232-233). *)
Definition _is_empty_customer_address (customer_address : option CustomerAddress) : bool :=
  match customer_address with
  | None => true
  | Some a => isNone (customer_address_country a)
  end.

(** [Address.model_validate(d)]: the country is required. *)
Definition Address_model_validate (d : CustomerAddress) : M Address :=
  match customer_address_country d with
  | Some country =>
      ret {| address_line1 := customer_address_line1 d;
             address_postal_code := customer_address_postal_code d;
             address_city := customer_address_city d;
             address_country := country |}
  | None => raise ValueError
  end.

(** Lines 523-541: the guards on the invoice and its subscription. *)
Definition get_subscription (invoice : Invoice) (id : string) : M Subscription :=
  if truthy_dict (invoice_metadata invoice)
     && option_eqb String.eqb (dict_get "type" (or_empty (invoice_metadata invoice)))
          (Some ProductType_pledge)
  then raise (NotAnOrderInvoice id)
  else
  match invoice_subscription invoice with
  | None => raise (NotASubscriptionInvoice id)
  | Some stripe_subscription_id =>
      subscription <-
        gets (fun w =>
          find (fun s => option_eqb String.eqb (subscription_stripe_subscription_id s)
                           (Some stripe_subscription_id))
               (w_subscriptions w)) ;;
      match subscription with
      | None => raise (SubscriptionDoesNotExist id stripe_subscription_id)
      | Some subscription => ret subscription
      end
  end.

(** Lines 546-557: the billing address. *)
Definition retrieve_billing_address (customer : Customer) (invoice : Invoice)
    : M (option Address) :=
  match customer_billing_address customer with
  | Some a => ret (Some a)
  | None =>
      if negb (_is_empty_customer_address (invoice_customer_address invoice)) then
        match invoice_customer_address invoice with
        | Some d => a <- Address_model_validate d ;; ret (Some a)
        | None => ret None
        end
      else
        match invoice_charge invoice with
        | Some charge_id =>
            charge <- gets (fun w => stripe_get_charge (w_stripe w) charge_id) ;;
            match charge_payment_method_details charge with
            | Some payment_method_details =>
                match payment_method_details_card payment_method_details with
                | Some card =>
                    a <- Address_model_validate
                           {| customer_address_line1 := None;
                              customer_address_postal_code := None;
                              customer_address_city := None;
                              customer_address_country := card_country card |} ;;
                    ret (Some a)
                | None => ret None
                end
            | None => ret None
            end
        | None => ret None
        end
  end.

(** Modelled from the spec: [discount_service.get(session, id,
    allow_deleted=True)] looks the internal discount record up by id. *)
Definition discount_service_get (id : uuid) : M (option Discount) :=
  gets (fun w => find (fun d => String.eqb (discount_id d) id) (w_discounts w)).

(** Lines 559-570: the discount of the invoice's coupon. *)
Definition get_discount (invoice : Invoice) (id : string) : M (option Discount) :=
  match invoice_discount invoice with
  | None => ret None
  | Some stripe_discount =>
      let coupon := stripe_discount_coupon stripe_discount in
      match coupon_metadata coupon with
      | None => raise (DiscountDoesNotExist id (coupon_id coupon))
      | Some metadata =>
          match dict_get "discount_id" metadata with
          | None => raise (KeyError "discount_id")
          | Some discount_id =>
              match UUID discount_id with
              | None => raise ValueError
              | Some discount_uuid =>
                  discount <- discount_service_get discount_uuid ;;
                  match discount with
                  | None => raise (DiscountDoesNotExist id (coupon_id coupon))
                  | Some discount => ret (Some discount)
                  end
              end
          end
      end
  end.

(** Lines 572-588: the checkout the subscription came from. *)
Definition get_checkout (invoice : Invoice) (id : string) : M (option Checkout) :=
  let invoice_metadata := or_empty (invoice_metadata invoice) in
  let subscription_metadata :=
    match invoice_subscription_details invoice with
    | Some details => or_empty (subscription_details_metadata details)
    | None => []
    end in
  let checkout_ref :=
    py_or (dict_get "checkout_id" invoice_metadata)
          (dict_get "checkout_id" subscription_metadata) in
  match checkout_ref with
  | None => ret None
  | Some checkout_ref =>
      match UUID checkout_ref with
      | None => raise ValueError
      | Some checkout_uuid =>
          checkout <-
            gets (fun w =>
              find (fun c => String.eqb (checkout_id c) checkout_uuid)
                   (w_checkouts w)) ;;
          match checkout with
          | None => raise (CheckoutDoesNotExist id checkout_ref)
          | Some checkout => ret (Some checkout)
          end
      end
  end.

Definition ProductPriceRepository_get_by_id (id : uuid) : M (option ProductPrice) :=
  gets (fun w => find (fun p => String.eqb (product_price_id p) id) (w_product_prices w)).

Definition ProductPriceRepository_get_by_stripe_price_id (id : string)
    : M (option ProductPrice) :=
  gets (fun w =>
    find (fun p => option_eqb String.eqb (product_price_stripe_price_id p) (Some id))
         (w_product_prices w)).

(** Lines 593-619: the order item of one invoice line. *)
Definition order_item_of_line (line : InvoiceLine) : M OrderItem :=
  let tax_amount := fold_left Z.add (line_tax_amounts line) 0 in
  product_price <-
    match line_price line with
    | Some price =>
        if truthy_dict (stripe_price_metadata price)
           && truthy_str (dict_get "product_price_id" (or_empty (stripe_price_metadata price)))
        then
          match dict_get "product_price_id" (or_empty (stripe_price_metadata price)) with
          | Some product_price_id =>
              match UUID product_price_id with
              | Some product_price_uuid => ProductPriceRepository_get_by_id product_price_uuid
              | None => raise ValueError
              end
          | None => raise (KeyError "product_price_id")
          end
        else ProductPriceRepository_get_by_stripe_price_id (stripe_price_id price)
    | None => ret None
    end ;;
  ret {| order_item_label :=
           match line_description line with Some d => d | None => "" end;
         order_item_amount := line_amount line;
         order_item_tax_amount := tax_amount;
         order_item_proration := line_proration line;
         order_item_product_price := product_price |}.

(** Modelled from the spec: [billing_entry_service.create_order_items_from_pending]
    pulls in the pending metered-usage billing entries not yet attached to an
    invoice line: they become order items and are no longer pending. *)
Definition create_order_items_from_pending (subscription : Subscription)
    (stripe_invoice_id stripe_customer_id : string) : M (list OrderItem) :=
  pending_items <- gets (fun w => w_pending_entries w (subscription_id subscription)) ;;
  modify (upd_pending_entries (fun pending s =>
    if String.eqb s (subscription_id subscription) then [] else pending s)) ;;;
  ret pending_items.

(** Lines 621-645: a draft invoice takes the pending billing entries, is
    reloaded when there were any, and gets its statement descriptor. *)
Definition handle_draft (customer : Customer) (subscription : Subscription)
    (invoice : Invoice) (id : string) (items : list OrderItem)
    : M (list OrderItem * Invoice) :=
  if option_eqb String.eqb (invoice_status invoice) (Some "draft") then
    match customer_stripe_customer_id customer with
    | None => raise AssertionError
    | Some stripe_customer_id =>
        pending_items <- create_order_items_from_pending subscription id stripe_customer_id ;;
        let items := items ++ pending_items in
        invoice <-
          match pending_items with
          | _ :: _ => gets (fun w => stripe_get_invoice (w_stripe w) id)
          | [] => ret invoice
          end ;;
        match invoice_id invoice with
        | None => raise AssertionError
        | Some id' =>
            modify (upd_stripe_calls (fun l =>
              l ++ [update_invoice id'
                      (str_take stripe_descriptor_suffix_max_length
                         (organization_name (subscription_organization subscription)))])) ;;;
            ret (items, invoice)
        end
    end
  else ret (items, invoice).

(** Lines 647-657: the billing reason, [subscription_cycle] by default. *)
Definition determine_billing_reason (invoice : Invoice) : M OrderBillingReason.t :=
  match invoice_billing_reason invoice with
  | None => ret OrderBillingReason.subscription_cycle
  | Some reason =>
      match OrderBillingReason.of_value reason with
      | Some billing_reason => ret billing_reason
      | None =>
          log_message "Unknown billing reason, fallback to 'subscription_cycle'" ;;;
          ret OrderBillingReason.subscription_cycle
      end
  end.

(** Lines 659-663: the discount amount. *)
Definition calculate_discount_amount (invoice : Invoice) : Z :=
  match invoice_total_discount_amounts invoice with
  | Some amounts => fold_left Z.add amounts 0
  | None => 0
  end.

(** Lines 670-682: the loop over the invoice's tax amounts, left at the
    first rate that converts. *)
Fixpoint retrieve_tax_data (stripe : StripeService) (tax_amount : Z)
    (total_tax_amounts : list TotalTaxAmount) (taxability_reason : option TaxabilityReason)
    : option TaxabilityReason * option TaxRate :=
  match total_tax_amounts with
  | [] => (taxability_reason, None)
  | total_tax_amount :: rest =>
      let taxability_reason :=
        TaxabilityReason_from_stripe
          (total_tax_amount_taxability_reason total_tax_amount) tax_amount in
      let stripe_tax_rate :=
        stripe_get_tax_rate stripe (total_tax_amount_tax_rate total_tax_amount) in
      match from_stripe_tax_rate stripe_tax_rate with
      | Some tax_rate => (taxability_reason, Some tax_rate)
      | None => retrieve_tax_data stripe tax_amount rest taxability_reason
      end
  end.

(** Modelled from the spec: [event_service.create_event(session,
    build_system_event(...))] records a domain event. *)
Definition create_event (name : SystemEvent.t) (customer : Customer)
    (organization : Organization) (metadata : EventMetadata) : M unit :=
  modify (upd_events (fun l =>
    l ++ [ {| event_name := name;
              event_customer_id := customer_id customer;
              event_organization_id := organization_id organization;
              event_metadata := metadata |} ])).

(** Modelled from the spec: [customer_meter_service.get_rollover_units(session,
    customer, meter)] computes the rollover units of a customer and meter
    pair; it reads the meter service's figures and writes nothing. *)
Definition get_rollover_units (customer : Customer) (meter : Meter) : M Z :=
  gets (fun w => w_rollover_units w (customer_id customer) (meter_id meter)).

(** Lines 732-758: the body of the loop that resets the meters. *)
Definition reset_meter (customer : Customer) (subscription : Subscription)
    (subscription_meter : SubscriptionMeter) : M unit :=
  rollover_units <- get_rollover_units customer (subscription_meter_meter subscription_meter) ;;
  create_event SystemEvent.meter_reset customer (subscription_organization subscription)
    {| event_meter_id := subscription_meter_meter_id subscription_meter;
       event_units := None;
       event_rollover := None |} ;;;
  when (0 <? rollover_units)
    (create_event SystemEvent.meter_credited customer
       (subscription_organization subscription)
       {| event_meter_id := subscription_meter_meter_id subscription_meter;
          event_units := Some rollover_units;
          event_rollover := Some true |}).

(** [create_order_from_stripe] (lines 518-762). *)
Definition create_order_from_stripe (invoice : Invoice) : M Order :=
  match invoice_id invoice with
  | None => raise AssertionError
  | Some id =>
      subscription <- get_subscription invoice id ;;
      let customer := subscription_customer subscription in
      billing_address <- retrieve_billing_address customer invoice ;;
      discount <- get_discount invoice id ;;
      checkout <- get_checkout invoice id ;;
      items <- map_m order_item_of_line (invoice_lines invoice) ;;
      drafted <- handle_draft customer subscription invoice id items ;;
      let items := fst drafted in
      let invoice := snd drafted in
      billing_reason <- determine_billing_reason invoice ;;
      let discount_amount := calculate_discount_amount invoice in
      let tax_amount := match invoice_tax invoice with Some t => t | None => 0 end in
      let tax_id := customer_tax_id customer in
      tax_data <-
        gets (fun w =>
          retrieve_tax_data (w_stripe w) tax_amount (invoice_total_tax_amounts invoice) None) ;;
      let taxability_reason := fst tax_data in
      let tax_rate := snd tax_data in
      let user_metadata :=
        match checkout with
        | Some checkout => checkout_user_metadata checkout
        | None => subscription_user_metadata subscription
        end in
      let custom_field_data :=
        match checkout with
        | Some checkout => checkout_custom_field_data checkout
        | None => subscription_custom_field_data subscription
        end in
      invoice_number <- get_next_invoice_number (subscription_organization subscription) ;;
      created_at <- fromtimestamp (invoice_created invoice) ;;
      order <- OrderRepository_create
        {| order_id := "";
           order_status :=
             if option_eqb String.eqb (invoice_status invoice) (Some "paid")
             then OrderStatus.paid else OrderStatus.pending;
           order_subtotal_amount := invoice_subtotal invoice;
           order_discount_amount := discount_amount;
           order_tax_amount := tax_amount;
           order_currency := invoice_currency invoice;
           order_billing_reason := billing_reason;
           order_billing_name := customer_billing_name customer;
           order_billing_address := billing_address;
           order_stripe_invoice_id := invoice_id invoice;
           order_taxability_reason := taxability_reason;
           order_tax_id := tax_id;
           order_tax_rate := tax_rate;
           order_invoice_number := invoice_number;
           order_customer := customer;
           order_product := subscription_product subscription;
           order_discount := discount;
           order_subscription := Some subscription;
           order_checkout := checkout;
           order_user_metadata := user_metadata;
           order_custom_field_data := custom_field_data;
           order_items := items;
           order_created_at := Some created_at;
           order_invoice_path := None;
           order_tax_transaction_processor_id := None |} ;;
      for_each (subscription_meters subscription) (reset_meter customer subscription) ;;;
      _on_order_created order ;;;
      ret order
  end.

End Service.

(** ** The invoice document: generation and retrieval *)

Definition set_order_invoice_path (v : option string) (o : Order) : Order :=
  {| order_id := order_id o; order_status := order_status o; order_subtotal_amount :=
     order_subtotal_amount o; order_discount_amount := order_discount_amount o;
     order_tax_amount := order_tax_amount o; order_currency := order_currency o;
     order_billing_reason := order_billing_reason o; order_billing_name :=
     order_billing_name o; order_billing_address := order_billing_address o;
     order_stripe_invoice_id := order_stripe_invoice_id o; order_taxability_reason :=
     order_taxability_reason o; order_tax_id := order_tax_id o; order_tax_rate :=
     order_tax_rate o; order_invoice_number := order_invoice_number o; order_customer :=
     order_customer o; order_product := order_product o; order_discount := order_discount o;
     order_subscription := order_subscription o; order_checkout := order_checkout o;
     order_user_metadata := order_user_metadata o; order_custom_field_data :=
     order_custom_field_data o; order_items := order_items o; order_created_at :=
     order_created_at o; order_invoice_path := v; order_tax_transaction_processor_id :=
     order_tax_transaction_processor_id o |}.

Section Documents.

(** [invoice_service.create_order_invoice(order)]: the document generator,
    which gives the path of the document it stored. *)
Variable create_order_invoice : Order -> M string.
(** [eventstream_publish(event, payload, customer_id=..., organization_id=...)] *)
Variable eventstream_publish : string -> list (string * string) -> uuid -> uuid -> M unit.
(** [invoice_service.get_order_invoice_url(order)]: the access URL and its expiry. *)
Variable get_order_invoice_url : Order -> M (string * Z).

(** [generate_invoice] (lines 381-397). *)
Definition generate_invoice (order : Order) : M Order :=
  invoice_path <- create_order_invoice order ;;
  order <- OrderRepository.update order (set_order_invoice_path (Some invoice_path)) ;;
  eventstream_publish "order.invoice_generated" [("order_id", order_id order)]
    (customer_id (order_customer order))
    (product_organization_id (order_product order)) ;;;
  send_webhook order WebhookEventType.order_updated ;;;
  ret order.

(** [get_order_invoice] (lines 399-404); the [OrderInvoice] it returns is
    held by its url. *)
Definition get_order_invoice (order : Order) : M string :=
  match order_invoice_path order with
  | None => raise (InvoiceDoesNotExist (order_id order))
  | Some _ =>
      r <- get_order_invoice_url order ;;
      ret (fst r)
  end.

End Documents.

(** ** Concrete inputs

    A small world used to run the methods: one organization with one
    product, a customer, a subscription with two meters, and orders in the
    states the properties talk about. *)

Module Demo.

Definition uuid4 (n : nat) : uuid := String (Ascii.ascii_of_nat (97 + n)) "".
(** [uuid.UUID] on the two usual texts of an identifier: 32 hexadecimal
    digits, with or without hyphens.  Any other text is refused.  The
    identifier is kept in its canonical text, lower case with hyphens. *)
Definition is_hex_digit (c : ascii) : bool :=
  let k := nat_of_ascii c in
  ((48 <=? k) && (k <=? 57) || (97 <=? k) && (k <=? 102) || (65 <=? k) && (k <=? 70))%nat.

Definition lower (c : ascii) : ascii :=
  let k := nat_of_ascii c in
  if ((65 <=? k) && (k <=? 90))%nat then ascii_of_nat (k + 32) else c.

Fixpoint hex_digits (s : string) : option string :=
  match s with
  | EmptyString => Some EmptyString
  | String c rest =>
      if Ascii.eqb c "-"%char then hex_digits rest
      else if is_hex_digit c
           then option_map (String (lower c)) (hex_digits rest)
           else None
  end.

Definition UUID (s : string) : option uuid :=
  match hex_digits s with
  | Some hex =>
      if (String.length hex =? 32)%nat
      then Some (substring 0 8 hex ++ "-" ++ substring 8 4 hex ++ "-"
                 ++ substring 12 4 hex ++ "-" ++ substring 16 4 hex ++ "-"
                 ++ substring 20 12 hex)%string
      else None
  | None => None
  end.
Definition TaxabilityReason_from_stripe (_ : option string) (_ : Z)
  : option TaxabilityReason := None.
Definition from_stripe_tax_rate (_ : StripeTaxRate) : option TaxRate := None.
Definition from_stripe_tax_rate_details (_ : StripeTaxRateDetails) : option TaxRate := None.
Definition get_discount_amount (_ : Discount) (amount : Z) : Z := amount / 10.
Definition price_label (_ : ProductPrice) : string := "Pay what you want".

Definition organization : Organization :=
  {| organization_id := "org";
     organization_slug := "acme";
     organization_name := "Acme";
     organization_account_url := "/acme/finance";
     organization_customer_invoice_prefix := "ACME";
     organization_customer_invoice_next_number := 7 |}.

Definition custom_price : ProductPrice :=
  {| product_price_id := "price";
     product_price_stripe_price_id := Some "price_1";
     product_price_amount_type := ProductPriceCustom |}.

Definition product : Product :=
  {| product_id := "prod";
     product_name := "Tip jar";
     product_organization := organization;
     product_is_recurring := false;
     product_prices := [custom_price] |}.

Definition customer : Customer :=
  {| customer_id := "cus";
     customer_email := "ada@example.com";
     customer_billing_name := Some "Ada";
     customer_billing_address := None;
     customer_tax_id := None;
     customer_stripe_customer_id := Some "cus_1" |}.

Definition meter_a : SubscriptionMeter :=
  {| subscription_meter_meter_id := "meter-a";
     subscription_meter_meter := {| meter_id := "meter-a"; meter_name := "API calls" |} |}.

Definition meter_b : SubscriptionMeter :=
  {| subscription_meter_meter_id := "meter-b";
     subscription_meter_meter := {| meter_id := "meter-b"; meter_name := "Storage" |} |}.

Definition subscription : Subscription :=
  {| subscription_id := "sub";
     subscription_stripe_subscription_id := Some "sub_1";
     subscription_product := product;
     subscription_customer := customer;
     subscription_meters := [meter_a; meter_b];
     subscription_user_metadata := [];
     subscription_custom_field_data := [] |}.

(** A subscription-cycle order still pending, known by its invoice [in_1]. *)
Definition pending_order : Order :=
  {| order_id := "order";
     order_status := OrderStatus.pending;
     order_subtotal_amount := 2000;
     order_discount_amount := 0;
     order_tax_amount := 0;
     order_currency := "usd";
     order_billing_reason := OrderBillingReason.subscription_cycle;
     order_billing_name := Some "Ada";
     order_billing_address := None;
     order_stripe_invoice_id := Some "in_1";
     order_taxability_reason := None;
     order_tax_id := None;
     order_tax_rate := None;
     order_invoice_number := ("ACME", 6);
     order_customer := customer;
     order_product := product;
     order_discount := None;
     order_subscription := Some subscription;
     order_checkout := None;
     order_user_metadata := [];
     order_custom_field_data := [];
     order_items := [];
     order_created_at := Some 1700000000;
     order_invoice_path := None;
     order_tax_transaction_processor_id := None |}.

(** The same order as an invoice created already paid leaves it. *)
Definition paid_order : Order := set_order_status OrderStatus.paid pending_order.

Definition home : Address :=
  {| address_line1 := Some "1 Main St";
     address_postal_code := Some "75001";
     address_city := Some "Paris";
     address_country := "FR" |}.

(** A paid order with its billing details and an invoice document. *)
Definition invoiced_order : Order :=
  {| order_id := "order";
     order_status := OrderStatus.paid;
     order_subtotal_amount := 2000;
     order_discount_amount := 0;
     order_tax_amount := 0;
     order_currency := "usd";
     order_billing_reason := OrderBillingReason.purchase;
     order_billing_name := Some "Ada";
     order_billing_address := Some home;
     order_stripe_invoice_id := None;
     order_taxability_reason := None;
     order_tax_id := None;
     order_tax_rate := None;
     order_invoice_number := ("ACME", 6);
     order_customer := customer;
     order_product := product;
     order_discount := None;
     order_subscription := None;
     order_checkout := None;
     order_user_metadata := [];
     order_custom_field_data := [];
     order_items := [];
     order_created_at := None;
     order_invoice_path := Some "invoices/order.pdf";
     order_tax_transaction_processor_id := None |}.

Definition stripe : StripeService :=
  {| stripe_get_tax_calculation := fun id =>
       {| tax_calculation_id := id;
          tax_calculation_tax_amount_exclusive := 0;
          tax_calculation_tax_breakdown := [] |};
     stripe_get_charge := fun _ => {| charge_payment_method_details := None |};
     stripe_get_payment_intent := fun _ => {| payment_intent_latest_charge := Some "ch_2" |};
     stripe_get_invoice := fun id =>
       {| invoice_id := Some id; invoice_metadata := None; invoice_subscription := None;
          invoice_customer_address := None; invoice_charge := None;
          invoice_discount := None; invoice_subscription_details := None;
          invoice_lines := []; invoice_status := Some "draft";
          invoice_billing_reason := None; invoice_total_discount_amounts := None;
          invoice_tax := None; invoice_total_tax_amounts := []; invoice_subtotal := 0;
          invoice_currency := "usd"; invoice_created := 0 |};
     stripe_get_tax_rate := fun _ => [];
     stripe_tax_transaction_id := fun calculation _ => calculation |}.

(** The payment transaction the capture of charge [ch_1] left in the ledger. *)
Definition payment_transaction : Transaction :=
  {| transaction_id := "tx";
     transaction_type := TransactionType.payment;
     transaction_charge_id := Some "ch_1";
     transaction_amount := 1500;
     transaction_account_id := None;
     transaction_order_id := None;
     transaction_payment_customer_id := None;
     transaction_payment_transaction_id := None |}.

(** The world around an order, with the payout accounts given: rollover
    units on the first meter only. *)
Definition world_of (accounts : list Account) (order : Order) : World :=
  {| w_orders := [order];
     w_organizations := [organization];
     w_accounts := accounts;
     w_subscriptions := [subscription];
     w_discounts := [];
     w_checkouts := [];
     w_product_prices := [custom_price];
     w_payments := [];
     w_transactions := [payment_transaction];
     w_held_balances := [];
     w_events := [];
     w_jobs := [];
     w_webhooks := [];
     w_notifications := [];
     w_emails := [];
     w_checkout_events := [];
     w_fee_reversals := [];
     w_customer_sessions := [];
     w_stripe := stripe;
     w_stripe_calls := [];
     w_rollover_units := fun _ meter => if String.eqb meter "meter-a" then 40 else 0;
     w_pending_entries := fun _ => [];
     w_next_uuid := 0%nat;
     w_log := [] |}.

Definition world : Order -> World := world_of [].

(** The payout account of the organization, once it has one. *)
Definition account : Account :=
  {| account_id := "acct"; account_organization_id := "org" |}.

(** The invoice [in_1] of the subscription, with the given status. *)
Definition invoice (id : string) (status : string) : Invoice :=
  {| invoice_id := Some id;
     invoice_metadata := None;
     invoice_subscription := Some "sub_1";
     invoice_customer_address := None;
     invoice_charge := Some "ch_1";
     invoice_discount := None;
     invoice_subscription_details := None;
     invoice_lines :=
       [ {| line_description := Some "Monthly plan"; line_amount := 2000;
            line_tax_amounts := []; line_proration := false; line_price := None |} ];
     invoice_status := Some status;
     invoice_billing_reason := Some "subscription_cycle";
     invoice_total_discount_amounts := None;
     invoice_tax := None;
     invoice_total_tax_amounts := [];
     invoice_subtotal := 2000;
     invoice_currency := "usd";
     invoice_created := 1700000000 |}.

(** A completed checkout of the pay-what-you-want product for 100.00. *)
Definition checkout (tax_amount : option Z) : Checkout :=
  {| checkout_id := "checkout";
     checkout_client_secret := "secret";
     checkout_product := product;
     checkout_customer := Some customer;
     checkout_organization := organization;
     checkout_amount := 10000;
     checkout_currency := "usd";
     checkout_discount := None;
     checkout_tax_amount := tax_amount;
     checkout_tax_processor_id := None;
     checkout_user_metadata := [];
     checkout_custom_field_data := [] |}.

(** The paid event of invoice [in_1] applied to the order, and applied again. *)
Definition first_update (order : Order) : Result Order * World :=
  update_order_from_stripe (invoice "in_1" "paid") (world order).

Definition second_update (order : Order) : Result Order * World :=
  update_order_from_stripe (invoice "in_1" "paid") (snd (first_update order)).

(** The settlement of charge [ch_1] for the order, whose total is 2000
    while the payment captured 1500. *)
Definition settlement (accounts : list Account) : Result unit * World :=
  create_order_balance uuid4 pending_order "ch_1" (world_of accounts pending_order).

(** A request that renames the customer, and one that restates the name. *)
Definition rename : OrderUpdate :=
  {| order_update_billing_name := Some (Some "Grace");
     order_update_billing_address := None |}.

Definition restate : OrderUpdate :=
  {| order_update_billing_name := Some (Some "Ada");
     order_update_billing_address := Some (Some home) |}.

(** The invoice [in_3] of the subscription, with a coupon. *)
Definition invoice_with_coupon (metadata : option metadata) : Invoice :=
  {| invoice_id := Some "in_3";
     invoice_metadata := None;
     invoice_subscription := Some "sub_1";
     invoice_customer_address := None;
     invoice_charge := None;
     invoice_discount :=
       Some {| stripe_discount_coupon :=
                 {| coupon_id := "co_1"; coupon_metadata := metadata |} |};
     invoice_subscription_details := None;
     invoice_lines := [];
     invoice_status := Some "open";
     invoice_billing_reason := Some "subscription_cycle";
     invoice_total_discount_amounts := Some [200];
     invoice_tax := None;
     invoice_total_tax_amounts := [];
     invoice_subtotal := 2000;
     invoice_currency := "usd";
     invoice_created := 1700000000 |}.

(** An invoice with the same coupon that is attached to no subscription. *)
Definition one_time_invoice_with_coupon : Invoice :=
  {| invoice_id := Some "in_4";
     invoice_metadata := None;
     invoice_subscription := None;
     invoice_customer_address := None;
     invoice_charge := None;
     invoice_discount :=
       Some {| stripe_discount_coupon :=
                 {| coupon_id := "co_1"; coupon_metadata := None |} |};
     invoice_subscription_details := None;
     invoice_lines := [];
     invoice_status := Some "open";
     invoice_billing_reason := None;
     invoice_total_discount_amounts := None;
     invoice_tax := None;
     invoice_total_tax_amounts := [];
     invoice_subtotal := 2000;
     invoice_currency := "usd";
     invoice_created := 1700000000 |}.

(** The order created from the paid renewal invoice [in_2]. *)
Definition creation : Result Order * World :=
  create_order_from_stripe uuid4 UUID TaxabilityReason_from_stripe from_stripe_tax_rate 22
    (invoice "in_2" "paid") (world pending_order).

Definition created_order : Order :=
  match fst creation with
  | Ok order => order
  | Err _ => pending_order
  end.

(** A processor whose payment intents have no charge yet. *)
Definition stripe_without_charge : StripeService :=
  {| stripe_get_tax_calculation := stripe_get_tax_calculation stripe;
     stripe_get_charge := stripe_get_charge stripe;
     stripe_get_payment_intent := fun _ => {| payment_intent_latest_charge := None |};
     stripe_get_invoice := stripe_get_invoice stripe;
     stripe_get_tax_rate := stripe_get_tax_rate stripe;
     stripe_tax_transaction_id := stripe_tax_transaction_id stripe |}.

(** The world around an order with the processor given. *)
Definition world_with_stripe (processor : StripeService) (order : Order) : World :=
  {| w_orders := [order];
     w_organizations := [organization];
     w_accounts := [];
     w_subscriptions := [subscription];
     w_discounts := [];
     w_checkouts := [];
     w_product_prices := [custom_price];
     w_payments := [];
     w_transactions := [payment_transaction];
     w_held_balances := [];
     w_events := [];
     w_jobs := [];
     w_webhooks := [];
     w_notifications := [];
     w_emails := [];
     w_checkout_events := [];
     w_fee_reversals := [];
     w_customer_sessions := [];
     w_stripe := processor;
     w_stripe_calls := [];
     w_rollover_units := fun _ _ => 0;
     w_pending_entries := fun _ => [];
     w_next_uuid := 0%nat;
     w_log := [] |}.

(** The paid event of invoice [in_1] settled out of band through the
    payment intent [pi_1]. *)
Definition out_of_band_invoice : Invoice :=
  {| invoice_id := Some "in_1";
     invoice_metadata := Some [("payment_intent_id", "pi_1")];
     invoice_subscription := Some "sub_1";
     invoice_customer_address := None;
     invoice_charge := None;
     invoice_discount := None;
     invoice_subscription_details := None;
     invoice_lines := [];
     invoice_status := Some "paid";
     invoice_billing_reason := Some "subscription_cycle";
     invoice_total_discount_amounts := None;
     invoice_tax := None;
     invoice_total_tax_amounts := [];
     invoice_subtotal := 2000;
     invoice_currency := "usd";
     invoice_created := 1700000000 |}.

(** A payment captured for charge [ch_1], of the given amount, and the world
    of the checkout, which has it on record. *)
Definition payment (amount : Z) : Payment :=
  {| payment_id := "pay";
     payment_amount := amount;
     payment_processor_id := "ch_1";
     payment_order_id := None |}.

Definition checkout_world : World :=
  upd_payments (fun _ => [payment 10000]) (world pending_order).

(** The conversion of the checkout without a recorded tax, with the payment
    given, and the order it yields. *)
Definition conversion (payment : option Payment) : Result Order * World :=
  create_from_checkout uuid4 TaxabilityReason_from_stripe from_stripe_tax_rate_details
    get_discount_amount price_label (checkout None) payment checkout_world.

Definition converted_order : Order :=
  match fst (conversion None) with
  | Ok order => order
  | Err _ => pending_order
  end.

(** The world in which the subscription has one pending billing entry, the
    draft invoice [in_5], and the order created from it. *)
Definition metered_usage : OrderItem :=
  {| order_item_label := "Metered usage";
     order_item_amount := 300;
     order_item_tax_amount := 0;
     order_item_proration := false;
     order_item_product_price := None |}.

Definition draft_world : World :=
  upd_pending_entries
    (fun _ s => if String.eqb s "sub" then [metered_usage] else [])
    (world pending_order).

Definition draft_creation : Result Order * World :=
  create_order_from_stripe uuid4 UUID TaxabilityReason_from_stripe from_stripe_tax_rate 3
    (invoice "in_5" "draft") draft_world.

Definition drafted_order : Order :=
  match fst draft_creation with
  | Ok order => order
  | Err _ => pending_order
  end.

(** The order created from the open invoice [in_6], and the paid event of
    that invoice applied to it. *)
Definition open_creation : Result Order * World :=
  create_order_from_stripe uuid4 UUID TaxabilityReason_from_stripe from_stripe_tax_rate 22
    (invoice "in_6" "open") (world pending_order).

Definition opened_order : Order :=
  match fst open_creation with
  | Ok order => order
  | Err _ => pending_order
  end.

Definition payment_of_opened : Result Order * World :=
  update_order_from_stripe (invoice "in_6" "paid") (snd open_creation).

(** A document generator that stores the invoice of an order under its id,
    an event stream that takes what it is given, and the generation of the
    invoice of the paid order. *)
Definition create_order_invoice (order : Order) : M string :=
  ret ("invoices/" ++ order_id order)%string.

Definition eventstream_publish (_ : string) (_ : list (string * string)) (_ _ : uuid)
    : M unit :=
  ret tt.

Definition generation : Result Order * World :=
  generate_invoice create_order_invoice eventstream_publish paid_order (world paid_order).



(** A processor with three tax rates on record: [txr_1] carries no
    jurisdiction, [txr_2] and [txr_3] do. *)
Definition taxing_stripe : StripeService :=
  {| stripe_get_tax_calculation := stripe_get_tax_calculation stripe;
     stripe_get_charge := stripe_get_charge stripe;
     stripe_get_payment_intent := stripe_get_payment_intent stripe;
     stripe_get_invoice := stripe_get_invoice stripe;
     stripe_get_tax_rate := fun id =>
       if String.eqb id "txr_2" then [("display_name", "VAT"); ("country", "FR")]
       else if String.eqb id "txr_3" then [("display_name", "Sales tax"); ("country", "US")]
       else [("display_name", "Unknown")];
     stripe_tax_transaction_id := stripe_tax_transaction_id stripe |}.

(** A conversion of tax rates that takes the rates with a country and
    refuses the others, and a taxability reason read off as it is. *)
Definition convert_tax_rate (rate : StripeTaxRate) : option TaxRate :=
  match dict_get "country" rate with
  | Some country =>
      Some {| tax_rate_display_name :=
                match dict_get "display_name" rate with Some n => n | None => "" end;
              tax_rate_basis_points := None;
              tax_rate_country := Some country;
              tax_rate_state := None |}
  | None => None
  end.

Definition taxability_reason_of (reason : option string) (_ : Z)
  : option TaxabilityReason := reason.

(** The renewal invoice [in_8] with the tax amounts given. *)
Definition taxed_invoice (total_tax_amounts : list TotalTaxAmount) : Invoice :=
  {| invoice_id := Some "in_8";
     invoice_metadata := None;
     invoice_subscription := Some "sub_1";
     invoice_customer_address := None;
     invoice_charge := Some "ch_1";
     invoice_discount := None;
     invoice_subscription_details := None;
     invoice_lines := [];
     invoice_status := Some "paid";
     invoice_billing_reason := Some "subscription_cycle";
     invoice_total_discount_amounts := None;
     invoice_tax := Some 400;
     invoice_total_tax_amounts := total_tax_amounts;
     invoice_subtotal := 2000;
     invoice_currency := "usd";
     invoice_created := 1700000000 |}.

(** Three tax amounts, of which the second and the third have a rate that
    converts, and two of which none has. *)
Definition three_tax_amounts : list TotalTaxAmount :=
  [ {| total_tax_amount_taxability_reason := Some "not_collecting";
       total_tax_amount_tax_rate := "txr_1" |};
    {| total_tax_amount_taxability_reason := Some "standard_rated";
       total_tax_amount_tax_rate := "txr_2" |};
    {| total_tax_amount_taxability_reason := Some "reverse_charge";
       total_tax_amount_tax_rate := "txr_3" |} ].

Definition two_tax_amounts : list TotalTaxAmount :=
  [ {| total_tax_amount_taxability_reason := Some "not_collecting";
       total_tax_amount_tax_rate := "txr_1" |};
    {| total_tax_amount_taxability_reason := Some "not_subject_to_tax";
       total_tax_amount_tax_rate := "txr_4" |} ].

Definition taxed_creation (total_tax_amounts : list TotalTaxAmount)
  : Result Order * World :=
  create_order_from_stripe uuid4 UUID taxability_reason_of convert_tax_rate 22
    (taxed_invoice total_tax_amounts) (world_with_stripe taxing_stripe pending_order).

Definition taxed_order (total_tax_amounts : list TotalTaxAmount) : Order :=
  match fst (taxed_creation total_tax_amounts) with
  | Ok order => order
  | Err _ => pending_order
  end.

End Demo.

(** * Properties *)

(** ** What the properties count *)

(** The [order_paid] webhooks sent so far. *)
Definition order_paid_webhooks (w : World) : list Webhook :=
  filter (fun h => WebhookEventType.eqb (webhook_event_type h) WebhookEventType.order_paid)
         (w_webhooks w).

(** The benefit-grant-cycle jobs queued so far. *)
Definition grant_cycle_jobs (w : World) : list Job :=
  filter (fun j => String.eqb (job_name j) "benefit.enqueue_benefit_grant_cycles")
         (w_jobs w).

(** The [order_paid] webhook of an order: one delivery when the organization
    of its product resolves, none when it does not. *)
Definition order_paid_webhook (order : Order) (w : World) : list Webhook :=
  match find (fun g => String.eqb (organization_id g)
                         (product_organization_id (order_product order)))
             (w_organizations w) with
  | Some organization =>
      [ {| webhook_organization_id := organization_id organization;
           webhook_event_type := WebhookEventType.order_paid;
           webhook_order := order |} ]
  | None => []
  end.

(** The benefit-grant-cycle job of an order: one for the renewal order of a
    subscription, none for any other order. *)
Definition grant_cycle_job (order : Order) : list Job :=
  match order_subscription_id order with
  | Some subscription_id =>
      if OrderBillingReason.eqb (order_billing_reason order)
           OrderBillingReason.subscription_cycle
      then [ {| job_name := "benefit.enqueue_benefit_grant_cycles";
                job_kwargs := [("subscription_id", subscription_id)] |} ]
      else []
  | None => []
  end.

(** The held balances kept for a payment transaction and an organization. *)
Definition held_balances_for (payment_transaction_id organization_id : uuid) (w : World)
    : list HeldBalance :=
  filter (fun h =>
            String.eqb (held_balance_payment_transaction_id h) payment_transaction_id
            && option_eqb String.eqb (held_balance_organization_id h)
                 (Some organization_id))
         (w_held_balances w).

(** The request changes the billing name, or the billing address. *)
Definition changes_billing_name (order : Order) (u : OrderUpdate) : Prop :=
  exists v, order_update_billing_name u = Some v /\ v <> order_billing_name order.

Definition changes_billing_address (order : Order) (u : OrderUpdate) : Prop :=
  exists a, order_update_billing_address u = Some a /\ a <> order_billing_address order.

(** The events the reset of one meter records. *)
Definition meter_reset_event (customer : Customer) (subscription : Subscription)
    (subscription_meter : SubscriptionMeter) : Event :=
  {| event_name := SystemEvent.meter_reset;
     event_customer_id := customer_id customer;
     event_organization_id := organization_id (subscription_organization subscription);
     event_metadata :=
       {| event_meter_id := subscription_meter_meter_id subscription_meter;
          event_units := None;
          event_rollover := None |} |}.

Definition meter_credited_event (customer : Customer) (subscription : Subscription)
    (subscription_meter : SubscriptionMeter) (units : Z) : Event :=
  {| event_name := SystemEvent.meter_credited;
     event_customer_id := customer_id customer;
     event_organization_id := organization_id (subscription_organization subscription);
     event_metadata :=
       {| event_meter_id := subscription_meter_meter_id subscription_meter;
          event_units := Some units;
          event_rollover := Some true |} |}.

(** The rollover units of a subscription meter for the subscription's customer. *)
Definition rollover_units_of (w : World) (subscription : Subscription)
    (subscription_meter : SubscriptionMeter) : Z :=
  w_rollover_units w (customer_id (subscription_customer subscription))
    (meter_id (subscription_meter_meter subscription_meter)).

Definition meter_events (w : World) (subscription : Subscription)
    (subscription_meter : SubscriptionMeter) : list Event :=
  meter_reset_event (subscription_customer subscription) subscription subscription_meter
  :: (if 0 <? rollover_units_of w subscription subscription_meter
      then [meter_credited_event (subscription_customer subscription) subscription
              subscription_meter (rollover_units_of w subscription subscription_meter)]
      else []).

Definition is_meter_reset (e : Event) : bool :=
  SystemEvent.eqb (event_name e) SystemEvent.meter_reset.

Definition is_meter_credited (e : Event) : bool :=
  SystemEvent.eqb (event_name e) SystemEvent.meter_credited.

(** The balance-creation job of an order for a charge. *)
Definition balance_job (order : Order) (charge_id : string) : Job :=
  {| job_name := "order.balance";
     job_kwargs := [("order_id", order_id order); ("charge_id", charge_id)] |}.

(** The balance-creation jobs queued so far. *)
Definition balance_jobs (w : World) : list Job :=
  filter (fun j => String.eqb (job_name j) "order.balance") (w_jobs w).

(** The delivery of a webhook of an order: one when the organization of its
    product resolves, none when it does not. *)
Definition webhook_delivery (order : Order) (event_type : WebhookEventType.t) (w : World)
    : list Webhook :=
  match find (fun g => String.eqb (organization_id g)
                         (product_organization_id (order_product order)))
             (w_organizations w) with
  | Some organization =>
      [ {| webhook_organization_id := organization_id organization;
           webhook_event_type := event_type;
           webhook_order := order |} ]
  | None => []
  end.

(** The order a query by invoice id finds. *)
Definition order_of_invoice (id : string) (w : World) : option Order :=
  find (fun o => option_eqb String.eqb (order_stripe_invoice_id o) (Some id)) (w_orders w).

(** The charge a paid invoice is settled for: its own charge or, failing
    that, the latest charge of the payment intent its metadata names. *)
Definition balance_charge (invoice : Invoice) (w : World) : option string :=
  if truthy_str (invoice_charge invoice) then invoice_charge invoice
  else if truthy_dict (invoice_metadata invoice)
          && truthy_str (dict_get "payment_intent_id" (or_empty (invoice_metadata invoice)))
  then
    match dict_get "payment_intent_id" (or_empty (invoice_metadata invoice)) with
    | Some payment_intent_id =>
        payment_intent_latest_charge
          (stripe_get_payment_intent (w_stripe w) payment_intent_id)
    | None => None
    end
  else None.

(** The status an invoice event gives the order. *)
Definition status_of_invoice (invoice : Invoice) : OrderStatus.t :=
  if option_eqb String.eqb (invoice_status invoice) (Some "paid")
  then OrderStatus.paid else OrderStatus.pending.

(** The query of the payment transaction of a charge. *)
Definition payment_of_charge (charge_id : string) (w : World) : option Transaction :=
  find (fun t =>
          TransactionType.eqb (transaction_type t) TransactionType.payment
          && matches (Some charge_id) (transaction_charge_id t)
          && matches None (transaction_payment_transaction_id t)
          && matches None (transaction_account_id t))
       (w_transactions w).

(** The query for the balance transaction that settled a payment transaction
    on an account. *)
Definition balance_of_payment (payment_transaction_id account_id : uuid) (w : World)
    : option Transaction :=
  find (fun t =>
          TransactionType.eqb (transaction_type t) TransactionType.balance
          && matches None (transaction_charge_id t)
          && matches (Some payment_transaction_id) (transaction_payment_transaction_id t)
          && matches (Some account_id) (transaction_account_id t))
       (w_transactions w).

(** The payment transaction once it is linked to the order and its customer. *)
Definition linked_to (order : Order) (payment_transaction : Transaction) : Transaction :=
  set_transaction_payment_customer_id (Some (customer_id (order_customer order)))
    (set_transaction_order_id (Some (order_id order)) payment_transaction).

(** The payout account of an organization. *)
Definition account_of (organization : uuid) (w : World) : option Account :=
  find (fun a => String.eqb (account_organization_id a) organization) (w_accounts w).

(** The stores and outboxes the stages of the creation path leave alone
    until the order is created. *)
Definition before_creation (w : World) :=
  (w_orders w, w_webhooks w, w_jobs w, w_events w, w_organizations w, w_next_uuid w,
   w_stripe w, w_rollover_units w, w_checkout_events w).

(** [invoice.total_discount_amounts or []], as the amounts. *)
Definition or_default_amounts (amounts : option (list Z)) : list Z :=
  match amounts with
  | Some l => l
  | None => []
  end.

(** ** Reasoning about the monad *)

Arguments FieldValue_eq_dec : simpl never.

Lemma bind_Ok_inv {A B} (m : M A) (k : A -> M B) (w w2 : World) (b : B) :
  bind m k w = (Ok b, w2) ->
  exists a w1, m w = (Ok a, w1) /\ k a w1 = (Ok b, w2).
Proof.
  unfold bind. destruct (m w) as [[a | e] w1]; intros H.
  - exists a, w1. split; [reflexivity | exact H].
  - discriminate H.
Qed.

Lemma bind_Ok {A B} (m : M A) (k : A -> M B) (w w1 : World) (a : A) :
  m w = (Ok a, w1) -> bind m k w = k a w1.
Proof. intros H. unfold bind. rewrite H. reflexivity. Qed.

Lemma bind_Err {A B} (m : M A) (k : A -> M B) (w w1 : World) (e : Error) :
  m w = (Err e, w1) -> bind m k w = (Err e, w1).
Proof. intros H. unfold bind. rewrite H. reflexivity. Qed.

(** A computation leaves a part of the world as it found it. *)
Definition preserves {X A} (part : World -> X) (m : M A) : Prop :=
  forall w, part (snd (m w)) = part w.

Lemma preserves_ret {X A} (part : World -> X) (a : A) : preserves part (ret a).
Proof. intros w. reflexivity. Qed.

Lemma preserves_raise {X A} (part : World -> X) (e : Error) :
  preserves part (@raise A e).
Proof. intros w. reflexivity. Qed.

Lemma preserves_gets {X A} (part : World -> X) (f : World -> A) : preserves part (gets f).
Proof. intros w. reflexivity. Qed.

Lemma preserves_modify {X} (part : World -> X) (f : World -> World) :
  (forall w, part (f w) = part w) -> preserves part (modify f).
Proof. intros H w. apply H. Qed.

Lemma preserves_bind {X A B} (part : World -> X) (m : M A) (k : A -> M B) :
  preserves part m -> (forall a, preserves part (k a)) -> preserves part (bind m k).
Proof.
  intros Hm Hk w. unfold bind. specialize (Hm w).
  destruct (m w) as [[a | e] w1]; simpl in *.
  - rewrite (Hk a w1). exact Hm.
  - exact Hm.
Qed.

Lemma preserves_assert {X} (part : World -> X) (b : bool) : preserves part (assert b).
Proof. destruct b; intros w; reflexivity. Qed.

Lemma preserves_when {X} (part : World -> X) (b : bool) (m : M unit) :
  preserves part m -> preserves part (when b m).
Proof. destruct b; intros H w; [apply H | reflexivity]. Qed.

Lemma preserves_for_each {X A} (part : World -> X) (l : list A) (body : A -> M unit) :
  (forall x, preserves part (body x)) -> preserves part (for_each l body).
Proof.
  intros H. induction l as [| x l IH]; simpl.
  - apply preserves_ret.
  - apply preserves_bind; [apply H | intros _; exact IH].
Qed.

Lemma preserves_map_m {X A B} (part : World -> X) (f : A -> M B) (l : list A) :
  (forall x, preserves part (f x)) -> preserves part (map_m f l).
Proof.
  intros H. induction l as [| x l IH]; simpl.
  - apply preserves_ret.
  - apply preserves_bind; [apply H | intros y].
    apply preserves_bind; [exact IH | intros ys; apply preserves_ret].
Qed.

(** Splits a computation along its binds and branches, down to the writes. *)
Ltac preserves_step :=
  first
    [ apply preserves_ret
    | apply preserves_raise
    | apply preserves_gets
    | apply preserves_assert
    | apply preserves_bind; [ | intros ? ]
    | apply preserves_when
    | apply preserves_for_each; intros ?
    | apply preserves_map_m; intros ?
    | apply preserves_modify; intros ?; reflexivity
    | match goal with
      | |- preserves _ (match ?x with _ => _ end) => destruct x
      | |- preserves _ (let _ := _ in _) => cbv zeta
      end ].

Ltac preserves_tac := repeat preserves_step.

(** ** The notifier *)

Lemma send_webhook_Ok (order : Order) (event_type : WebhookEventType.t) (w : World) :
  exists w', send_webhook order event_type w = (Ok tt, w').
Proof.
  unfold send_webhook, OrganizationRepository.get_by_id, gets, bind.
  destruct (find _ (w_organizations w)); eexists; reflexivity.
Qed.

Lemma send_webhook_preserves {X} (part : World -> X) order event_type :
  (forall f w, part (upd_webhooks f w) = part w) ->
  preserves part (send_webhook order event_type).
Proof.
  intros H. unfold send_webhook, OrganizationRepository.get_by_id, webhook_service.send.
  preserves_tac. apply preserves_modify. intros w. apply H.
Qed.

Lemma send_webhook_webhooks (order : Order) (event_type : WebhookEventType.t) (w : World) :
  order_paid_webhooks (snd (send_webhook order event_type w)) =
  order_paid_webhooks w
  ++ (if WebhookEventType.eqb event_type WebhookEventType.order_paid
      then order_paid_webhook order w else []).
Proof.
  unfold send_webhook, OrganizationRepository.get_by_id, webhook_service.send,
    order_paid_webhooks, order_paid_webhook, gets, bind, modify, ret.
  destruct (find _ (w_organizations w)); simpl.
  - rewrite filter_app. simpl. destruct event_type; reflexivity.
  - destruct event_type; simpl; rewrite app_nil_r; reflexivity.
Qed.

Lemma _on_order_paid_eq (order : Order) (w : World) :
  order_paid order = true ->
  _on_order_paid order w =
  match order_subscription_id order with
  | Some subscription_id =>
      when (OrderBillingReason.eqb (order_billing_reason order)
              OrderBillingReason.subscription_cycle)
        (enqueue_job "benefit.enqueue_benefit_grant_cycles"
           [("subscription_id", subscription_id)])
  | None => ret tt
  end (snd (send_webhook order WebhookEventType.order_paid w)).
Proof.
  intros Hpaid. unfold _on_order_paid. rewrite Hpaid.
  destruct (send_webhook_Ok order WebhookEventType.order_paid w) as [w1 H1].
  unfold assert, bind, ret. rewrite H1. reflexivity.
Qed.

Lemma _on_order_paid_Ok (order : Order) (w : World) :
  order_paid order = true -> exists w', _on_order_paid order w = (Ok tt, w').
Proof.
  intros Hpaid. rewrite (_on_order_paid_eq _ _ Hpaid).
  destruct (order_subscription_id order); [| eexists; reflexivity].
  destruct (OrderBillingReason.eqb _ _); eexists; reflexivity.
Qed.

Lemma _on_order_paid_effects (order : Order) (w : World) :
  order_paid order = true ->
  order_paid_webhooks (snd (_on_order_paid order w)) =
    order_paid_webhooks w ++ order_paid_webhook order w
  /\ grant_cycle_jobs (snd (_on_order_paid order w)) =
    grant_cycle_jobs w ++ grant_cycle_job order
  /\ w_organizations (snd (_on_order_paid order w)) = w_organizations w
  /\ w_orders (snd (_on_order_paid order w)) = w_orders w.
Proof.
  intros Hpaid. rewrite (_on_order_paid_eq _ _ Hpaid).
  pose proof (send_webhook_webhooks order WebhookEventType.order_paid w) as Hw.
  pose proof (send_webhook_preserves w_jobs order WebhookEventType.order_paid
                (fun _ _ => eq_refl) w) as Hj.
  pose proof (send_webhook_preserves w_organizations order WebhookEventType.order_paid
                (fun _ _ => eq_refl) w) as Hg.
  pose proof (send_webhook_preserves w_orders order WebhookEventType.order_paid
                (fun _ _ => eq_refl) w) as Ho.
  simpl in Hw. set (w1 := snd (send_webhook order WebhookEventType.order_paid w)) in *.
  unfold grant_cycle_job, grant_cycle_jobs, when, enqueue_job, modify, ret.
  destruct (order_subscription_id order) as [sid |];
    [destruct (OrderBillingReason.eqb _ _) |]; simpl;
    rewrite Hj, ?filter_app, ?app_nil_r; simpl; auto.
Qed.

Lemma _on_order_paid_unpaid (order : Order) (w : World) :
  order_paid order = false -> _on_order_paid order w = (Err AssertionError, w).
Proof. intros H. unfold _on_order_paid. rewrite H. reflexivity. Qed.

Lemma _on_order_updated_eq (order : Order) (previous_status : OrderStatus.t) (w : World) :
  _on_order_updated order previous_status w =
  when (OrderStatus.eqb (order_status order) OrderStatus.paid
        && negb (OrderStatus.eqb previous_status OrderStatus.paid))
    (_on_order_paid order) (snd (send_webhook order WebhookEventType.order_updated w)).
Proof.
  unfold _on_order_updated.
  destruct (send_webhook_Ok order WebhookEventType.order_updated w) as [w1 H1].
  unfold bind. rewrite H1. reflexivity.
Qed.

Lemma _on_order_updated_Ok (order : Order) (previous_status : OrderStatus.t) (w : World) :
  exists w', _on_order_updated order previous_status w = (Ok tt, w').
Proof.
  rewrite _on_order_updated_eq. unfold when.
  destruct (OrderStatus.eqb (order_status order) OrderStatus.paid) eqn:Hpaid; simpl.
  - destruct (negb _); [apply _on_order_paid_Ok; exact Hpaid | eexists; reflexivity].
  - eexists; reflexivity.
Qed.

Lemma _on_order_updated_effects (order : Order) (previous_status : OrderStatus.t)
    (w : World) :
  order_paid_webhooks (snd (_on_order_updated order previous_status w)) =
    order_paid_webhooks w
    ++ (if OrderStatus.eqb (order_status order) OrderStatus.paid
           && negb (OrderStatus.eqb previous_status OrderStatus.paid)
        then order_paid_webhook order w else [])
  /\ grant_cycle_jobs (snd (_on_order_updated order previous_status w)) =
    grant_cycle_jobs w
    ++ (if OrderStatus.eqb (order_status order) OrderStatus.paid
           && negb (OrderStatus.eqb previous_status OrderStatus.paid)
        then grant_cycle_job order else [])
  /\ w_organizations (snd (_on_order_updated order previous_status w)) = w_organizations w
  /\ w_orders (snd (_on_order_updated order previous_status w)) = w_orders w.
Proof.
  rewrite _on_order_updated_eq.
  pose proof (send_webhook_webhooks order WebhookEventType.order_updated w) as Hw.
  pose proof (send_webhook_preserves w_jobs order WebhookEventType.order_updated
                (fun _ _ => eq_refl) w) as Hj.
  pose proof (send_webhook_preserves w_organizations order WebhookEventType.order_updated
                (fun _ _ => eq_refl) w) as Hg.
  pose proof (send_webhook_preserves w_orders order WebhookEventType.order_updated
                (fun _ _ => eq_refl) w) as Ho.
  simpl in Hw. rewrite app_nil_r in Hw.
  set (w1 := snd (send_webhook order WebhookEventType.order_updated w)) in *.
  unfold when.
  destruct (OrderStatus.eqb (order_status order) OrderStatus.paid) eqn:Hpaid; simpl.
  - destruct (negb (OrderStatus.eqb previous_status OrderStatus.paid)).
    + destruct (_on_order_paid_effects order w1 Hpaid) as (E1 & E2 & E3 & E4).
      rewrite E1, E2, E3, E4, Hw, Hg, Ho. unfold grant_cycle_jobs, order_paid_webhook.
      rewrite Hj, Hg. auto.
    + simpl. rewrite !app_nil_r. unfold grant_cycle_jobs. rewrite Hj. auto.
  - rewrite !app_nil_r. unfold grant_cycle_jobs. rewrite Hj. auto.
Qed.

Lemma _on_order_paid_preserves {X} (part : World -> X) (order : Order) :
  (forall f w, part (upd_webhooks f w) = part w) ->
  (forall f w, part (upd_jobs f w) = part w) ->
  preserves part (_on_order_paid order).
Proof.
  intros Hw Hj. unfold _on_order_paid.
  preserves_tac; apply preserves_modify; intros w; first [apply Hw | apply Hj].
Qed.

Lemma _on_order_created_preserves {X} (part : World -> X) (order : Order) :
  (forall f w, part (upd_webhooks f w) = part w) ->
  (forall f w, part (upd_jobs f w) = part w) ->
  (forall f w, part (upd_checkout_events f w) = part w) ->
  preserves part (_on_order_created order).
Proof.
  intros Hw Hj Hc. unfold _on_order_created.
  preserves_tac;
    apply preserves_modify; intros w; first [apply Hw | apply Hj | apply Hc].
Qed.

Lemma _on_order_updated_preserves {X} (part : World -> X) (order : Order)
    (previous_status : OrderStatus.t) :
  (forall f w, part (upd_webhooks f w) = part w) ->
  (forall f w, part (upd_jobs f w) = part w) ->
  preserves part (_on_order_updated order previous_status).
Proof.
  intros Hw Hj. unfold _on_order_updated.
  preserves_tac; apply preserves_modify; intros w; first [apply Hw | apply Hj].
Qed.

Lemma _on_order_created_Ok (order : Order) (w : World) :
  exists w', _on_order_created order w = (Ok tt, w').
Proof.
  unfold _on_order_created.
  destruct (send_webhook_Ok order WebhookEventType.order_created w) as [w1 H1].
  rewrite (bind_Ok _ _ _ _ _ H1).
  unfold enqueue_job at 1. unfold modify at 1. unfold bind at 1.
  match goal with |- context [upd_jobs ?f w1] => set (w2 := upd_jobs f w1) end.
  assert (Hp : exists w3, when (order_paid order) (_on_order_paid order) w2 = (Ok tt, w3)).
  { unfold when. destruct (order_paid order) eqn:Hpaid.
    - apply _on_order_paid_Ok. exact Hpaid.
    - eexists; reflexivity. }
  destruct Hp as [w3 H3]. rewrite (bind_Ok _ _ _ _ _ H3).
  destruct (order_checkout order); eexists; reflexivity.
Qed.

Lemma _on_order_created_unpaid (order : Order) (w : World) :
  order_paid order = false ->
  order_paid_webhooks (snd (_on_order_created order w)) = order_paid_webhooks w
  /\ grant_cycle_jobs (snd (_on_order_created order w)) = grant_cycle_jobs w.
Proof.
  intros Hpaid. unfold _on_order_created. rewrite Hpaid.
  destruct (send_webhook_Ok order WebhookEventType.order_created w) as [w1 H1].
  rewrite (bind_Ok _ _ _ _ _ H1).
  pose proof (send_webhook_webhooks order WebhookEventType.order_created w) as Hw.
  pose proof (send_webhook_preserves w_jobs order WebhookEventType.order_created
                (fun _ _ => eq_refl) w) as Hj.
  rewrite H1 in Hw, Hj. simpl in Hw, Hj. rewrite app_nil_r in Hw.
  unfold enqueue_job, when, modify, ret, bind, order_paid_webhooks, grant_cycle_jobs in *.
  destruct (order_checkout order); simpl; rewrite Hj, filter_app, app_nil_r; auto.
Qed.

(** ** C10: the paid-transition effects are reserved to paid orders *)

(** C10.  [_on_order_paid] asserts that the order is paid and fails on an
    order that is not.  Its two callers, [_on_order_created] and
    [_on_order_updated], never fail: whatever the order and the previous
    status, they reach it only with a paid order, so its assertion holds on
    every call path.  For an order that is not paid neither caller sends an
    [order_paid] webhook or queues a benefit-grant-cycle job. *)
Theorem on_order_paid_reached_only_when_paid
    (order : Order) (previous_status : OrderStatus.t) (w : World) :
  (order_paid order = false -> _on_order_paid order w = (Err AssertionError, w))
  /\ (exists w', _on_order_created order w = (Ok tt, w'))
  /\ (exists w', _on_order_updated order previous_status w = (Ok tt, w'))
  /\ (order_paid order = false ->
      order_paid_webhooks (snd (_on_order_created order w)) = order_paid_webhooks w
      /\ grant_cycle_jobs (snd (_on_order_created order w)) = grant_cycle_jobs w
      /\ order_paid_webhooks (snd (_on_order_updated order previous_status w)) =
         order_paid_webhooks w
      /\ grant_cycle_jobs (snd (_on_order_updated order previous_status w)) =
         grant_cycle_jobs w).
Proof.
  split; [apply _on_order_paid_unpaid |].
  split; [apply _on_order_created_Ok |].
  split; [apply _on_order_updated_Ok |].
  intros Hpaid.
  destruct (_on_order_created_unpaid order w Hpaid) as [C1 C2].
  destruct (_on_order_updated_effects order previous_status w) as (U1 & U2 & _ & _).
  unfold order_paid in Hpaid. rewrite Hpaid in U1, U2. simpl in U1, U2.
  rewrite app_nil_r in U1, U2. auto.
Qed.

(** ** C7: the guards of invoice generation *)

(** C7.  [trigger_invoice_generation] fails exactly when the order already
    has an invoice document, or is not paid, or lacks its billing name or
    its billing address.  The three guards are checked in that order, each
    with its own error and none touching the world; when all pass, the
    ["order.invoice"] job is queued for the order and nothing else changes. *)
Theorem trigger_invoice_generation_guards (order : Order) (w : World) :
  ((exists e, fst (trigger_invoice_generation order w) = Err e) <->
   (order_invoice_path order <> None \/ order_paid order = false
    \/ order_billing_name order = None \/ order_billing_address order = None))
  /\ (order_invoice_path order <> None ->
      trigger_invoice_generation order w = (Err (InvoiceAlreadyExists (order_id order)), w))
  /\ (order_invoice_path order = None -> order_paid order = false ->
      trigger_invoice_generation order w = (Err (NotPaidOrder (order_id order)), w))
  /\ (order_invoice_path order = None -> order_paid order = true ->
      order_billing_name order = None \/ order_billing_address order = None ->
      trigger_invoice_generation order w =
        (Err (MissingInvoiceBillingDetails (order_id order)), w))
  /\ (order_invoice_path order = None -> order_paid order = true ->
      order_billing_name order <> None -> order_billing_address order <> None ->
      trigger_invoice_generation order w =
        (Ok tt,
         upd_jobs (fun js =>
           js ++ [ {| job_name := "order.invoice";
                      job_kwargs := [("order_id", order_id order)] |} ]) w)).
Proof.
  unfold trigger_invoice_generation, enqueue_job, modify, raise.
  destruct (order_invoice_path order) as [p |],
           (order_paid order),
           (order_billing_name order) as [n |],
           (order_billing_address order) as [a |]; simpl;
    repeat split; intros;
    try reflexivity; try congruence; try discriminate;
    try (eexists; reflexivity);
    try (left; discriminate);
    try (right; left; reflexivity);
    try (right; right; left; reflexivity);
    try (right; right; right; reflexivity);
    try tauto;
    try (match goal with H : exists _, _ |- _ => destruct H; discriminate end);
    try (match goal with H : _ \/ _ |- _ => intuition congruence end).
Qed.

(** ** C3 and C9: the invoice lock on the billing fields *)

Lemma model_dump_billing_name (u : OrderUpdate) (o : Order) (v : option string) :
  order_update_billing_name u = Some v ->
  order_billing_name (model_dump_exclude_unset u o) = v.
Proof.
  intros H. unfold model_dump_exclude_unset. rewrite H.
  destruct (order_update_billing_address u); reflexivity.
Qed.

Lemma model_dump_same_values (u : OrderUpdate) (o : Order) :
  (forall v, order_update_billing_name u = Some v -> v = order_billing_name o) ->
  (forall a, order_update_billing_address u = Some a -> a = order_billing_address o) ->
  model_dump_exclude_unset u o = o.
Proof.
  intros Hn Ha. unfold model_dump_exclude_unset.
  destruct (order_update_billing_name u) as [v |];
    destruct (order_update_billing_address u) as [a |];
    try rewrite (Hn _ eq_refl); try rewrite (Ha _ eq_refl);
    destruct o; reflexivity.
Qed.

(** The errors the lock collects, field by field. *)
Lemma invoice_lock_errors_locked (order : Order) (u : OrderUpdate) (p : string) :
  order_invoice_path order = Some p ->
  invoice_lock_errors order u =
    (match order_update_billing_name u with
     | Some v =>
         if option_string_dec v (order_billing_name order) then []
         else [locked_field_error u "billing_name"]
     | None => []
     end)
    ++ (match order_update_billing_address u with
        | Some a =>
            if option_Address_dec a (order_billing_address order) then []
            else [locked_field_error u "billing_address"]
        | None => []
        end).
Proof.
  intros Hp. unfold invoice_lock_errors, invoice_locked_fields. rewrite Hp.
  unfold in_model_fields_set, getattr_order_update, getattr_order. simpl.
  rewrite app_nil_r.
  f_equal.
  - destruct (order_update_billing_name u) as [v |]; simpl; [| reflexivity].
    destruct (FieldValue_eq_dec _ _) as [E | E];
      destruct (option_string_dec v (order_billing_name order)) as [E' | E'];
      try reflexivity; exfalso.
    + apply E'. congruence.
    + apply E. congruence.
  - destruct (order_update_billing_address u) as [a |]; simpl; [| reflexivity].
    destruct (FieldValue_eq_dec _ _) as [E | E];
      destruct (option_Address_dec a (order_billing_address order)) as [E' | E'];
      try reflexivity; exfalso.
    + apply E'. congruence.
    + apply E. congruence.
Qed.

Lemma invoice_lock_errors_unlocked (order : Order) (u : OrderUpdate) :
  order_invoice_path order = None -> invoice_lock_errors order u = [].
Proof. intros H. unfold invoice_lock_errors. rewrite H. reflexivity. Qed.

Lemma update_accepted (order : Order) (u : OrderUpdate) (w : World) :
  invoice_lock_errors order u = [] ->
  exists w',
    update order u w = (Ok (model_dump_exclude_unset u order), w')
    /\ w_orders w' =
       replace_row
         (fun o => String.eqb (order_id o) (order_id (model_dump_exclude_unset u order)))
         (model_dump_exclude_unset u order) (w_orders w).
Proof.
  intros H. unfold update. rewrite H.
  set (order' := model_dump_exclude_unset u order).
  set (w1 := upd_orders
               (replace_row (fun o => String.eqb (order_id o) (order_id order')) order') w).
  assert (E : OrderRepository.update order (model_dump_exclude_unset u) w = (Ok order', w1))
    by reflexivity.
  rewrite (bind_Ok _ _ _ _ _ E).
  destruct (send_webhook_Ok order' WebhookEventType.order_updated w1) as [w2 H2].
  pose proof (send_webhook_preserves w_orders order' WebhookEventType.order_updated
                (fun _ _ => eq_refl) w1) as Ho.
  rewrite H2 in Ho. simpl in Ho.
  rewrite (bind_Ok _ _ _ _ _ H2).
  exists w2. split; [reflexivity | exact Ho].
Qed.

Lemma update_rejected (order : Order) (u : OrderUpdate) (w : World) :
  invoice_lock_errors order u <> [] ->
  update order u w = (Err (PolarRequestValidationError (invoice_lock_errors order u)), w).
Proof.
  intros H. unfold update. destruct (invoice_lock_errors order u); [congruence | reflexivity].
Qed.

Lemma invoice_lock_errors_nonempty (order : Order) (u : OrderUpdate) (p : string) :
  order_invoice_path order = Some p ->
  (invoice_lock_errors order u <> [] <->
   changes_billing_name order u \/ changes_billing_address order u).
Proof.
  intros Hp. rewrite (invoice_lock_errors_locked order u p Hp).
  unfold changes_billing_name, changes_billing_address.
  destruct (order_update_billing_name u) as [v |];
    destruct (order_update_billing_address u) as [a |];
    repeat match goal with
           | |- context [option_string_dec ?x ?y] => destruct (option_string_dec x y)
           | |- context [option_Address_dec ?x ?y] => destruct (option_Address_dec x y)
           end; simpl; split; intros H;
    try congruence; try discriminate;
    try (left; eexists; split; [reflexivity | assumption]);
    try (right; eexists; split; [reflexivity | assumption]);
    destruct H as [(x & Hx & Hne) | (x & Hx & Hne)]; congruence.
Qed.

(** C3.  The invoice lock, both ways round.  While the order has no invoice
    document, an update is accepted: it returns the order with the requested
    values, a new billing name included, and writes its row.  Once
    [invoice_path] is set, an update that changes the billing name or the
    billing address is rejected with a request validation error that has an
    entry located at each changed field and at no other, and the world, the
    order in it, is left as it was. *)
Theorem update_invoice_lock_round_trip (order : Order) (u : OrderUpdate) (w : World) :
  (order_invoice_path order = None ->
   exists w',
     update order u w = (Ok (model_dump_exclude_unset u order), w')
     /\ (forall v, order_update_billing_name u = Some v ->
         order_billing_name (model_dump_exclude_unset u order) = v)
     /\ w_orders w' =
        replace_row
          (fun o => String.eqb (order_id o) (order_id (model_dump_exclude_unset u order)))
          (model_dump_exclude_unset u order) (w_orders w))
  /\ (forall p, order_invoice_path order = Some p ->
      changes_billing_name order u \/ changes_billing_address order u ->
      exists errors,
        update order u w = (Err (PolarRequestValidationError errors), w)
        /\ errors <> []
        /\ (forall e, In e errors ->
            (error_loc e = ("body", "billing_name") /\ changes_billing_name order u)
            \/ (error_loc e = ("body", "billing_address")
                /\ changes_billing_address order u))
        /\ (changes_billing_name order u ->
            In (locked_field_error u "billing_name") errors)
        /\ (changes_billing_address order u ->
            In (locked_field_error u "billing_address") errors)).
Proof.
  split.
  - intros Hp.
    destruct (update_accepted order u w (invoice_lock_errors_unlocked order u Hp))
      as (w' & E & Ho).
    exists w'. split; [exact E |]. split; [| exact Ho].
    intros v Hv. apply model_dump_billing_name. exact Hv.
  - intros p Hp Hch.
    exists (invoice_lock_errors order u).
    assert (Hne : invoice_lock_errors order u <> [])
      by (apply (invoice_lock_errors_nonempty order u p Hp); exact Hch).
    split; [apply update_rejected; exact Hne |]. split; [exact Hne |].
    rewrite (invoice_lock_errors_locked order u p Hp).
    unfold changes_billing_name, changes_billing_address.
    split; [| split].
    + intros e Hin. apply in_app_or in Hin. destruct Hin as [Hin | Hin].
      * left. destruct (order_update_billing_name u) as [v |]; [| destruct Hin].
        destruct (option_string_dec v (order_billing_name order)) as [E | E];
          [destruct Hin |].
        destruct Hin as [He | []]. subst e. split; [reflexivity |].
        exists v. split; [reflexivity | exact E].
      * right. destruct (order_update_billing_address u) as [a |]; [| destruct Hin].
        destruct (option_Address_dec a (order_billing_address order)) as [E | E];
          [destruct Hin |].
        destruct Hin as [He | []]. subst e. split; [reflexivity |].
        exists a. split; [reflexivity | exact E].
    + intros (v & Hv & Hne'). apply in_or_app. left. rewrite Hv.
      destruct (option_string_dec v (order_billing_name order)) as [E | E];
        [contradiction | left; reflexivity].
    + intros (a & Ha & Hne'). apply in_or_app. right. rewrite Ha.
      destruct (option_Address_dec a (order_billing_address order)) as [E | E];
        [contradiction | left; reflexivity].
Qed.

(** C9.  On an order whose invoice document exists, an update whose locked
    fields all carry the order's current values is accepted and returns the
    order as it was; the update is rejected exactly when it would change the
    billing name or the billing address. *)
Theorem update_locked_field_same_value
    (order : Order) (u : OrderUpdate) (w : World) (p : string) :
  order_invoice_path order = Some p ->
  ((forall v, order_update_billing_name u = Some v -> v = order_billing_name order) ->
   (forall a, order_update_billing_address u = Some a -> a = order_billing_address order) ->
   exists w', update order u w = (Ok order, w'))
  /\ ((exists e, fst (update order u w) = Err e) <->
      changes_billing_name order u \/ changes_billing_address order u).
Proof.
  intros Hp. split.
  - intros Hn Ha.
    assert (Hnil : invoice_lock_errors order u = []).
    { destruct (invoice_lock_errors order u) eqn:E; [reflexivity | exfalso].
      assert (Hne : invoice_lock_errors order u <> []) by (rewrite E; discriminate).
      apply (invoice_lock_errors_nonempty order u p Hp) in Hne.
      destruct Hne as [(x & Hx & Hne) | (x & Hx & Hne)]; apply Hne; auto. }
    destruct (update_accepted order u w Hnil) as (w' & E & _).
    rewrite (model_dump_same_values u order Hn Ha) in E.
    exists w'. exact E.
  - rewrite <- (invoice_lock_errors_nonempty order u p Hp). split.
    + intros [e He] Hnil.
      destruct (update_accepted order u w Hnil) as (w' & E & _).
      rewrite E in He. discriminate He.
    + intros Hne. rewrite (update_rejected order u w Hne). eexists; reflexivity.
Qed.

(** ** C1: the paid-transition effects are edge-triggered *)

Ltac bind_inv H :=
  let a := fresh "a" in
  let w := fresh "w" in
  let H' := fresh "H" in
  apply bind_Ok_inv in H; destruct H as (a & w & H' & H).

(** What a computation preserves, read off one of its runs. *)
Lemma preserves_run {X A} (part : World -> X) (m : M A) (w w' : World) (r : Result A) :
  preserves part m -> m w = (r, w') -> part w' = part w.
Proof. intros H E. specialize (H w). rewrite E in H. exact H. Qed.

(** A row found by a query is found again, in its new state, after it is
    replaced by a state the query still matches. *)
Lemma find_replace_row {A} (p same : A -> bool) (x x0 : A) (l : list A) :
  find p l = Some x0 -> same x0 = true -> p x = true ->
  find p (replace_row same x l) = Some x.
Proof.
  intros Hf Hs Hp. induction l as [| y l IH]; simpl in *; [discriminate |].
  destruct (p y) eqn:Hy.
  - inversion Hf; subst. rewrite Hs, Hp. reflexivity.
  - destruct (same y); [rewrite Hp; reflexivity | rewrite Hy; apply IH; exact Hf].
Qed.

Lemma grant_cycle_jobs_balance_job (kwargs : list (string * string)) (w : World) :
  grant_cycle_jobs
    (upd_jobs (fun js => js ++ [ {| job_name := "order.balance"; job_kwargs := kwargs |} ]) w)
  = grant_cycle_jobs w.
Proof. unfold grant_cycle_jobs. simpl. rewrite filter_app. simpl. apply app_nil_r. Qed.

Lemma enqueue_balance_creation_preserves {X} (part : World -> X) order invoice :
  (forall kwargs w,
     part (upd_jobs (fun js =>
             js ++ [ {| job_name := "order.balance"; job_kwargs := kwargs |} ]) w)
     = part w) ->
  preserves part (enqueue_balance_creation order invoice).
Proof.
  intros H. unfold enqueue_balance_creation.
  preserves_tac; apply preserves_modify; intros w; apply H.
Qed.

(** One successful application of a paid invoice event. *)
Lemma update_order_from_stripe_paid (invoice : Invoice) (w w1 : World) (o1 : Order) :
  invoice_status invoice = Some "paid" ->
  update_order_from_stripe invoice w = (Ok o1, w1) ->
  exists id o0,
    invoice_id invoice = Some id
    /\ find (fun o => option_eqb String.eqb (order_stripe_invoice_id o) (Some id))
            (w_orders w) = Some o0
    /\ o1 = set_order_status OrderStatus.paid o0
    /\ w_orders w1 =
       replace_row (fun o => String.eqb (order_id o) (order_id o1)) o1 (w_orders w)
    /\ w_organizations w1 = w_organizations w
    /\ order_paid_webhooks w1 =
       order_paid_webhooks w ++ (if order_paid o0 then [] else order_paid_webhook o1 w)
    /\ grant_cycle_jobs w1 =
       grant_cycle_jobs w ++ (if order_paid o0 then [] else grant_cycle_job o1).
Proof.
  intros Hs H. unfold update_order_from_stripe in H.
  destruct (invoice_id invoice) as [id |]; [| discriminate H].
  bind_inv H. unfold OrderRepository.get_by_stripe_invoice_id, gets in H0.
  inversion H0; subst; clear H0.
  destruct (find _ (w_orders w0)) as [o0 |] eqn:Hfind; [| discriminate H].
  rewrite Hs in H. simpl in H.
  bind_inv H. unfold OrderRepository.update, modify, ret, bind in H0.
  inversion H0; subst; clear H0.
  set (o1' := set_order_status OrderStatus.paid o0) in *.
  set (wa := upd_orders _ w0) in *.
  bind_inv H. bind_inv H. unfold ret in H. inversion H; subst; clear H.
  rename w into wb.
  exists id, o0. split; [reflexivity |]. split; [exact Hfind |]. split; [reflexivity |].
  destruct (_on_order_updated_effects o1' (order_status o0) wb) as (U1 & U2 & U3 & U4).
  rewrite H1 in U1, U2, U3, U4. simpl in U1, U2, U3, U4.
  pose proof (preserves_run w_orders _ _ _ _
                (enqueue_balance_creation_preserves w_orders o1' invoice
                   (fun _ _ => eq_refl)) H0) as B1.
  pose proof (preserves_run w_organizations _ _ _ _
                (enqueue_balance_creation_preserves w_organizations o1' invoice
                   (fun _ _ => eq_refl)) H0) as B2.
  pose proof (preserves_run order_paid_webhooks _ _ _ _
                (enqueue_balance_creation_preserves order_paid_webhooks o1' invoice
                   (fun _ _ => eq_refl)) H0) as B3.
  pose proof (preserves_run grant_cycle_jobs _ _ _ _
                (enqueue_balance_creation_preserves grant_cycle_jobs o1' invoice
                   grant_cycle_jobs_balance_job) H0) as B4.
  rewrite U4, B1, U3, B2, U1, U2, B3, B4.
  unfold order_paid_webhook. rewrite B2.
  assert (Ew : w_organizations wa = w_organizations w0) by reflexivity.
  assert (Ep : order_paid_webhooks wa = order_paid_webhooks w0) by reflexivity.
  assert (Ej : grant_cycle_jobs wa = grant_cycle_jobs w0) by reflexivity.
  rewrite Ew, Ep, Ej.
  unfold order_paid. simpl.
  destruct (OrderStatus.eqb (order_status o0) OrderStatus.paid); simpl; auto.
Qed.

(** C1 (amended).  When the same paid invoice event is applied twice and
    both applications succeed, the paid-transition effects run on the first
    application exactly when the order was not already paid before it: then
    the [order_paid] webhook is sent once (delivered when the organization of
    the product resolves) and, for the renewal order of a subscription, the
    benefit-grant-cycle job is queued once.  The second application, whose
    previous status is paid, runs none of them; for an order that was
    already paid neither application does. *)
Theorem paid_update_effects_edge_triggered
    (invoice : Invoice) (w w1 w2 : World) (o1 o2 : Order) :
  invoice_status invoice = Some "paid" ->
  update_order_from_stripe invoice w = (Ok o1, w1) ->
  update_order_from_stripe invoice w1 = (Ok o2, w2) ->
  exists id o0,
    invoice_id invoice = Some id
    /\ OrderRepository.get_by_stripe_invoice_id id w = (Ok (Some o0), w)
    /\ order_paid_webhooks w1 =
       order_paid_webhooks w ++ (if order_paid o0 then [] else order_paid_webhook o1 w)
    /\ grant_cycle_jobs w1 =
       grant_cycle_jobs w ++ (if order_paid o0 then [] else grant_cycle_job o1)
    /\ order_paid_webhooks w2 = order_paid_webhooks w1
    /\ grant_cycle_jobs w2 = grant_cycle_jobs w1.
Proof.
  intros Hs H1 H2.
  destruct (update_order_from_stripe_paid invoice w w1 o1 Hs H1)
    as (id & o0 & Hid & Hfind & Ho1 & Horders & _ & Hw1 & Hj1).
  destruct (update_order_from_stripe_paid invoice w1 w2 o2 Hs H2)
    as (id' & o0' & Hid' & Hfind' & _ & _ & _ & Hw2 & Hj2).
  rewrite Hid in Hid'. inversion Hid'; subst id'. clear Hid'.
  assert (Hsame : o0' = o1).
  { rewrite Horders in Hfind'.
    rewrite (find_replace_row _ _ o1 o0 (w_orders w) Hfind) in Hfind'.
    - inversion Hfind'. reflexivity.
    - rewrite Ho1. simpl. apply String.eqb_refl.
    - apply find_some in Hfind. destruct Hfind as [_ Hp]. rewrite Ho1. exact Hp. }
  subst o0'.
  assert (Hpaid : order_paid o1 = true) by (rewrite Ho1; reflexivity).
  rewrite Hpaid in Hw2, Hj2. rewrite app_nil_r in Hw2, Hj2.
  exists id, o0. split; [exact Hid |].
  split; [unfold OrderRepository.get_by_stripe_invoice_id, gets; rewrite Hfind; reflexivity |].
  auto.
Qed.

(** The instance of C1 on a pending renewal order: the first application
    sends the webhook and queues the job, the second adds nothing. *)
Lemma paid_update_effects_edge_triggered_witness :
  exists id o0,
    invoice_id (Demo.invoice "in_1" "paid") = Some id
    /\ OrderRepository.get_by_stripe_invoice_id id (Demo.world Demo.pending_order) =
       (Ok (Some o0), Demo.world Demo.pending_order)
    /\ order_paid_webhooks (snd (Demo.first_update Demo.pending_order)) =
       order_paid_webhooks (Demo.world Demo.pending_order)
       ++ (if order_paid o0 then []
           else order_paid_webhook Demo.paid_order (Demo.world Demo.pending_order))
    /\ grant_cycle_jobs (snd (Demo.first_update Demo.pending_order)) =
       grant_cycle_jobs (Demo.world Demo.pending_order)
       ++ (if order_paid o0 then [] else grant_cycle_job Demo.paid_order)
    /\ order_paid_webhooks (snd (Demo.second_update Demo.pending_order)) =
       order_paid_webhooks (snd (Demo.first_update Demo.pending_order))
    /\ grant_cycle_jobs (snd (Demo.second_update Demo.pending_order)) =
       grant_cycle_jobs (snd (Demo.first_update Demo.pending_order)).
Proof.
  apply (paid_update_effects_edge_triggered
           (Demo.invoice "in_1" "paid") (Demo.world Demo.pending_order)
           (snd (Demo.first_update Demo.pending_order))
           (snd (Demo.second_update Demo.pending_order))
           Demo.paid_order Demo.paid_order).
  - reflexivity.
  - vm_compute. reflexivity.
  - vm_compute. reflexivity.
Defined.

(** C1 as stated fails on an order that is already paid, as one created
    from an invoice that was paid at creation is: the renewal order is paid,
    its organization resolves, both applications of the paid event succeed,
    and no [order_paid] webhook is sent and no benefit-grant-cycle job is
    queued by either, where the claim has each run once. *)
Lemma paid_update_on_paid_order_fires_nothing :
  fst (Demo.first_update Demo.paid_order) = Ok Demo.paid_order
  /\ fst (Demo.second_update Demo.paid_order) = Ok Demo.paid_order
  /\ order_paid_webhook Demo.paid_order (Demo.world Demo.paid_order) <> []
  /\ grant_cycle_job Demo.paid_order <> []
  /\ order_paid_webhooks (Demo.world Demo.paid_order) = []
  /\ grant_cycle_jobs (Demo.world Demo.paid_order) = []
  /\ order_paid_webhooks (snd (Demo.second_update Demo.paid_order)) = []
  /\ grant_cycle_jobs (snd (Demo.second_update Demo.paid_order)) = [].
Proof.
  repeat split; try (vm_compute; reflexivity); vm_compute; discriminate.
Qed.

(** ** C2 and C6: balance settlement *)

Section Settlement.

Variable uuid4 : nat -> uuid.

(** The payout account of the order's organization, if it has one. *)
Lemma get_by_organization_run (id : uuid) (w : World) :
  AccountRepository.get_by_organization id w =
  (Ok (find (fun a => String.eqb (account_organization_id a) id) (w_accounts w)), w).
Proof. reflexivity. Qed.

Lemma session_add_transaction_run (t : Transaction) (w : World) :
  session_add_transaction t w =
  (Ok tt,
   upd_transactions
     (replace_row (fun t' => String.eqb (transaction_id t') (transaction_id t)) t) w).
Proof. reflexivity. Qed.

(** The payment transaction of a charge is still the one found after it was
    linked to the order and written back. *)
Lemma payment_transaction_found_again (order : Order) (charge_id : string)
    (pt : Transaction) (l : list Transaction) :
  let query := fun t =>
    TransactionType.eqb (transaction_type t) TransactionType.payment
    && matches (Some charge_id) (transaction_charge_id t)
    && matches None (transaction_payment_transaction_id t)
    && matches None (transaction_account_id t) in
  let linked :=
    set_transaction_payment_customer_id (Some (customer_id (order_customer order)))
      (set_transaction_order_id (Some (order_id order)) pt) in
  find query l = Some pt ->
  find query
    (replace_row (fun t' => String.eqb (transaction_id t') (transaction_id linked)) linked l)
  = Some linked.
Proof.
  intros query linked Hf.
  apply (find_replace_row query _ linked pt l Hf).
  - simpl. apply String.eqb_refl.
  - apply find_some in Hf. destruct Hf as [_ Hq]. exact Hq.
Qed.

Lemma find_app_None {A} (p : A -> bool) (l : list A) (x : A) :
  find p l = None -> find p (l ++ [x]) = if p x then Some x else None.
Proof.
  induction l as [| y l IH]; simpl; intros H; [reflexivity |].
  destruct (p y); [discriminate | apply IH; exact H].
Qed.

Lemma filter_find_None {A} (p : A -> bool) (l : list A) :
  find p l = None -> filter p l = [].
Proof.
  induction l as [| y l IH]; simpl; intros H; [reflexivity |].
  destruct (p y); [discriminate | apply IH; exact H].
Qed.

(** What a successful settlement did, by whether the organization has a
    payout account. *)
Lemma create_order_balance_Ok (order : Order) (charge_id : string) (w w' : World) :
  create_order_balance uuid4 order charge_id w = (Ok tt, w') ->
  exists pt,
    find (fun t =>
            TransactionType.eqb (transaction_type t) TransactionType.payment
            && matches (Some charge_id) (transaction_charge_id t)
            && matches None (transaction_payment_transaction_id t)
            && matches None (transaction_account_id t))
         (w_transactions w) = Some pt
    /\ w_accounts w' = w_accounts w
    /\ match find (fun a => String.eqb (account_organization_id a)
                             (organization_id (order_organization order)))
                  (w_accounts w) with
       | None =>
           held_balance_service.get_by (transaction_id pt)
             (organization_id (order_organization order)) w = (Ok None, w)
           /\ w_held_balances w' =
              w_held_balances w
              ++ [ {| held_balance_amount := transaction_amount pt;
                      held_balance_order_id := order_id order;
                      held_balance_payment_transaction_id := transaction_id pt;
                      held_balance_organization_id :=
                        Some (organization_id (order_organization order)) |} ]
           /\ w_transactions w' =
              replace_row
                (fun t' => String.eqb (transaction_id t') (transaction_id pt))
                (set_transaction_payment_customer_id
                   (Some (customer_id (order_customer order)))
                   (set_transaction_order_id (Some (order_id order)) pt))
                (w_transactions w)
       | Some account =>
           w_held_balances w' = w_held_balances w
           /\ exists outgoing incoming,
                w_transactions w' =
                replace_row
                  (fun t' => String.eqb (transaction_id t') (transaction_id pt))
                  (set_transaction_payment_customer_id
                     (Some (customer_id (order_customer order)))
                     (set_transaction_order_id (Some (order_id order)) pt))
                  (w_transactions w)
                ++ [outgoing; incoming]
                /\ transaction_type outgoing = TransactionType.balance
                /\ transaction_type incoming = TransactionType.balance
                /\ transaction_amount outgoing = - transaction_amount pt
                /\ transaction_amount incoming = transaction_amount pt
                /\ transaction_account_id incoming = Some (account_id account)
                /\ transaction_payment_transaction_id incoming = Some (transaction_id pt)
       end.
Proof.
  intros H. unfold create_order_balance in H.
  rewrite (bind_Ok _ _ _ _ _ (get_by_organization_run _ w)) in H.
  unfold balance_transaction_service.get_by at 1 in H.
  unfold gets at 1 in H. unfold bind at 1 in H.
  destruct (find _ (w_transactions w)) as [pt |] eqn:Hpt; [| discriminate H].
  exists pt. split; [reflexivity |].
  rewrite (bind_Ok _ _ _ _ _ (session_add_transaction_run _ w)) in H.
  set (linked := set_transaction_payment_customer_id _ _) in *.
  set (w1 := upd_transactions _ w) in *.
  destruct (find _ (w_accounts w)) as [account |] eqn:Hacc.
  - (* A payout account: the balance is transferred. *)
    unfold balance_transaction_service.get_by at 1 in H.
    unfold gets at 1 in H. unfold bind at 1 in H.
    destruct (find _ (w_transactions w1)) as [existing |]; [discriminate H |].
    bind_inv H. unfold create_balance_from_charge in H0.
    unfold balance_transaction_service.get_by, gets in H0. unfold bind at 1 in H0.
    destruct (find _ (w_transactions w1)) as [pt' |] eqn:Hpt'; [| discriminate H0].
    assert (Hsame : pt' = linked).
    { pose proof (payment_transaction_found_again order charge_id pt
                    (w_transactions w) Hpt) as Hagain.
      simpl in Hagain. unfold w1 in Hpt'. simpl in Hpt'. unfold linked in Hpt'.
      rewrite Hagain in Hpt'. inversion Hpt'. reflexivity. }
    subst pt'.
    unfold fresh_uuid, bind, modify, ret in H0. simpl in H0.
    inversion H0; subst; clear H0.
    unfold create_fees_reversal_balances, modify in H. inversion H; subst; clear H.
    simpl. split; [reflexivity |]. split; [reflexivity |].
    eexists; eexists. split; [reflexivity |]. simpl. repeat split; reflexivity.
  - (* No payout account: the balance is held. *)
    unfold held_balance_service.get_by, gets in H. unfold bind at 1 in H.
    destruct (find _ (w_held_balances w1)) as [existing |] eqn:Hheld; [discriminate H |].
    unfold held_balance_service.create, notifications_service.send_to_org_members,
      bind, modify in H.
    inversion H; subst; clear H. simpl.
    split; [reflexivity |].
    split; [unfold held_balance_service.get_by, gets; simpl in Hheld; rewrite Hheld;
            reflexivity |].
    split; reflexivity.
Qed.

(** C2.  On an order whose organization has no payout account, a
    settlement that succeeded for a charge cannot be repeated: invoked again
    for the same charge it fails with [AlreadyBalancedOrder], it adds no
    held balance, and the payment transaction and the organization keep the
    single held balance the first invocation created. *)
Theorem create_order_balance_twice_already_balanced
    (order : Order) (charge_id : string) (w w1 : World) :
  AccountRepository.get_by_organization (organization_id (order_organization order)) w =
    (Ok None, w) ->
  create_order_balance uuid4 order charge_id w = (Ok tt, w1) ->
  exists payment_transaction,
    balance_transaction_service.get_by TransactionType.payment (Some charge_id) None None w =
      (Ok (Some payment_transaction), w)
    /\ fst (create_order_balance uuid4 order charge_id w1) =
       Err (AlreadyBalancedOrder (order_id order) (transaction_id payment_transaction))
    /\ w_held_balances (snd (create_order_balance uuid4 order charge_id w1)) =
       w_held_balances w1
    /\ List.length (held_balances_for (transaction_id payment_transaction)
                 (organization_id (order_organization order))
                 (snd (create_order_balance uuid4 order charge_id w1))) = 1%nat.
Proof.
  intros Hacc H.
  rewrite get_by_organization_run in Hacc. inversion Hacc as [Hnone]. clear Hacc.
  destruct (create_order_balance_Ok order charge_id w w1 H) as (pt & Hpt & Haccs & Hcase).
  rewrite Hnone in Hcase. destruct Hcase as (Hheld & Hhb & Htx).
  unfold held_balance_service.get_by, gets in Hheld. inversion Hheld as [Hfind]. clear Hheld.
  exists pt.
  split; [unfold balance_transaction_service.get_by, gets; rewrite Hpt; reflexivity |].
  assert (Hrun :
    create_order_balance uuid4 order charge_id w1 =
    (Err (AlreadyBalancedOrder (order_id order) (transaction_id pt)),
     upd_transactions
       (replace_row (fun t' => String.eqb (transaction_id t') (transaction_id pt))
          (set_transaction_payment_customer_id (Some (customer_id (order_customer order)))
             (set_transaction_order_id (Some (order_id order)) pt))) w1)).
  { unfold create_order_balance.
    rewrite (bind_Ok _ _ _ _ _ (get_by_organization_run _ w1)).
    rewrite Haccs, Hnone.
    unfold balance_transaction_service.get_by at 1.
    unfold gets at 1. unfold bind at 1.
    rewrite Htx.
    match goal with
    | |- context [find ?q (replace_row ?s ?x ?l)] =>
        replace (find q (replace_row s x l)) with (Some x)
          by (symmetry;
              exact (payment_transaction_found_again order charge_id pt
                       (w_transactions w) Hpt))
    end.
    rewrite (bind_Ok _ _ _ _ _ (session_add_transaction_run _ w1)).
    unfold held_balance_service.get_by, gets. unfold bind at 1. simpl.
    rewrite Hhb, (find_app_None _ _ _ Hfind). simpl.
    rewrite !String.eqb_refl. reflexivity. }
  rewrite Hrun. simpl. split; [reflexivity |]. split; [reflexivity |].
  unfold held_balances_for. simpl. rewrite Hhb, filter_app, (filter_find_None _ _ Hfind).
  simpl. rewrite !String.eqb_refl. reflexivity.
Qed.

(** C6.  Whenever a settlement goes through for a charge whose payment
    transaction exists, what it transfers is the amount of that payment
    transaction: the held balance it creates carries it when the
    organization has no payout account, and the balance transfer to the
    account carries it when there is one.  The total of the order plays no
    part. *)
Theorem create_order_balance_transfers_payment_amount
    (order : Order) (charge_id : string) (w w' : World) (payment_transaction : Transaction) :
  balance_transaction_service.get_by TransactionType.payment (Some charge_id) None None w =
    (Ok (Some payment_transaction), w) ->
  create_order_balance uuid4 order charge_id w = (Ok tt, w') ->
  match find (fun a => String.eqb (account_organization_id a)
                         (organization_id (order_organization order)))
             (w_accounts w) with
  | None =>
      exists held_balance,
        w_held_balances w' = w_held_balances w ++ [held_balance]
        /\ held_balance_amount held_balance = transaction_amount payment_transaction
        /\ List.length (w_transactions w') = List.length (w_transactions w)
  | Some account =>
      exists outgoing incoming,
        w_transactions w' =
          replace_row
            (fun t' => String.eqb (transaction_id t') (transaction_id payment_transaction))
            (set_transaction_payment_customer_id
               (Some (customer_id (order_customer order)))
               (set_transaction_order_id (Some (order_id order)) payment_transaction))
            (w_transactions w)
          ++ [outgoing; incoming]
        /\ transaction_account_id incoming = Some (account_id account)
        /\ transaction_amount incoming = transaction_amount payment_transaction
        /\ transaction_amount outgoing = - transaction_amount payment_transaction
        /\ w_held_balances w' = w_held_balances w
  end.
Proof.
  intros Hpt H.
  unfold balance_transaction_service.get_by, gets in Hpt. injection Hpt as Hfind.
  destruct (create_order_balance_Ok order charge_id w w' H) as (pt & Hpt & _ & Hcase).
  assert (E : Some pt = Some payment_transaction) by (rewrite <- Hpt; exact Hfind).
  injection E as E. subst pt. clear Hpt.
  destruct (find _ (w_accounts w)) as [account |].
  - destruct Hcase as (Hhb & outgoing & incoming & Htx & _ & _ & Ho & Hi & Ha & _).
    exists outgoing, incoming. auto.
  - destruct Hcase as (_ & Hhb & Htx).
    eexists. split; [exact Hhb |]. split; [reflexivity |].
    rewrite Htx. unfold replace_row. apply length_map.
Qed.

End Settlement.

(** The instance of C2 on the pending order without a payout account. *)
Lemma create_order_balance_twice_already_balanced_witness :
  exists payment_transaction,
    balance_transaction_service.get_by TransactionType.payment (Some "ch_1") None None
      (Demo.world Demo.pending_order) =
      (Ok (Some payment_transaction), Demo.world Demo.pending_order)
    /\ fst (create_order_balance Demo.uuid4 Demo.pending_order "ch_1"
              (snd (Demo.settlement []))) =
       Err (AlreadyBalancedOrder (order_id Demo.pending_order)
              (transaction_id payment_transaction))
    /\ w_held_balances (snd (create_order_balance Demo.uuid4 Demo.pending_order "ch_1"
                               (snd (Demo.settlement [])))) =
       w_held_balances (snd (Demo.settlement []))
    /\ List.length (held_balances_for (transaction_id payment_transaction)
                      (organization_id (order_organization Demo.pending_order))
                      (snd (create_order_balance Demo.uuid4 Demo.pending_order "ch_1"
                              (snd (Demo.settlement []))))) = 1%nat.
Proof.
  apply (create_order_balance_twice_already_balanced Demo.uuid4 Demo.pending_order "ch_1"
           (Demo.world Demo.pending_order) (snd (Demo.settlement []))).
  - reflexivity.
  - vm_compute. reflexivity.
Defined.

(** The instance of C6 without a payout account: the order totals 2000, the
    payment captured 1500, and 1500 is what is held. *)
Lemma create_order_balance_transfers_payment_amount_witness :
  order_total_amount Demo.pending_order = 2000
  /\ exists held_balance,
       w_held_balances (snd (Demo.settlement [])) =
         w_held_balances (Demo.world Demo.pending_order) ++ [held_balance]
       /\ held_balance_amount held_balance = 1500
       /\ List.length (w_transactions (snd (Demo.settlement []))) =
          List.length (w_transactions (Demo.world Demo.pending_order)).
Proof.
  split; [reflexivity |].
  apply (create_order_balance_transfers_payment_amount Demo.uuid4 Demo.pending_order "ch_1"
           (Demo.world Demo.pending_order) (snd (Demo.settlement []))
           Demo.payment_transaction).
  - reflexivity.
  - vm_compute. reflexivity.
Defined.

(** ** C4: an order from a pay-what-you-want checkout *)

Section Conversion.

Variable uuid4 : nat -> uuid.
Variable TaxabilityReason_from_stripe : option string -> Z -> option TaxabilityReason.
Variable from_stripe_tax_rate_details : StripeTaxRateDetails -> option TaxRate.
Variable get_discount_amount : Discount -> Z -> Z.
Variable price_label : ProductPrice -> string.

Arguments _on_order_created : simpl never.

(** C4 (amended).  A completed checkout of a one-time product, with its
    customer, a single custom (pay-what-you-want) price, the chosen amount
    10000, no discount, no tax processor id and no tax amount recorded
    (absent or zero), whose captured payment, if there is one, is of 10000:
    [create_from_checkout] creates an order with subtotal 10000, discount 0,
    tax 0, one item of amount 10000 and the status paid, and stores it. *)
Theorem create_from_checkout_custom_price
    (checkout : Checkout) (payment : option Payment) (customer : Customer)
    (price : ProductPrice) (w : World) :
  product_is_recurring (checkout_product checkout) = false ->
  checkout_customer checkout = Some customer ->
  product_prices (checkout_product checkout) = [price] ->
  is_custom_price price = true ->
  checkout_amount checkout = 10000 ->
  checkout_discount checkout = None ->
  checkout_tax_processor_id checkout = None ->
  checkout_tax_amount checkout = None \/ checkout_tax_amount checkout = Some 0 ->
  (forall p, payment = Some p -> payment_amount p = 10000) ->
  exists order w' item,
    create_from_checkout uuid4 TaxabilityReason_from_stripe from_stripe_tax_rate_details
      get_discount_amount price_label checkout payment w = (Ok order, w')
    /\ order_subtotal_amount order = 10000
    /\ order_discount_amount order = 0
    /\ order_tax_amount order = 0
    /\ order_items order = [item]
    /\ order_item_amount item = 10000
    /\ order_status order = OrderStatus.paid
    /\ w_orders w' = w_orders w ++ [order].
Proof.
  intros Hrec Hcust Hprices Hcustom Hamount Hdisc Htpid Htax Hpay.
  unfold create_from_checkout, checkout_tax_data, checkout_discount_amount.
  rewrite Hrec, Hcust, Hprices, Hamount, Hdisc, Htpid.
  assert (Ht : match checkout_tax_amount checkout with Some a => a | None => 0 end = 0)
    by (destruct Htax as [E | E]; rewrite E; reflexivity).
  rewrite Ht. simpl map. rewrite Hcustom.
  assert (Hitem : order_item_amount
                    (OrderItem_from_price price_label price 0 (Some 10000)) = 10000).
  { unfold is_custom_price in Hcustom. unfold OrderItem_from_price. simpl.
    destruct (product_price_amount_type price); try discriminate Hcustom. reflexivity. }
  assert (Hp : match payment with
               | Some p => (payment_amount p =? 10000) = true
               | None => True
               end).
  { destruct payment as [p |]; [| exact I]. rewrite (Hpay p eq_refl). reflexivity. }
  clear Hpay.
  unfold get_next_invoice_number, OrderRepository_create, fresh_uuid,
    PaymentRepository_update_order, enqueue_job, send_admin_notification,
    send_confirmation_email, notifications_service.send_to_org_members,
    OrganizationRepository.get_by_id, assert, gets, modify, ret, order_total_amount,
    order_net_amount.
  destruct payment as [p |]; unfold bind; simpl; try rewrite Hp;
    match goal with
    | |- context [_on_order_created ?o ?wx] =>
        destruct (_on_order_created_Ok o wx) as [w' E];
        pose proof (preserves_run w_orders _ _ _ _
                      (_on_order_created_preserves w_orders o
                         (fun _ _ => eq_refl) (fun _ _ => eq_refl) (fun _ _ => eq_refl))
                      E) as Ho;
        rewrite E
    end;
    eexists; exists w'; eexists;
    (split; [reflexivity |]); simpl;
    repeat (split; [first [reflexivity | exact Hitem] |]); exact Ho.
Qed.

End Conversion.

(** The instance of C4 on the completed checkout of the demo product, with
    no tax amount recorded and no payment captured yet. *)
Lemma create_from_checkout_custom_price_witness :
  exists order w' item,
    create_from_checkout Demo.uuid4 Demo.TaxabilityReason_from_stripe
      Demo.from_stripe_tax_rate_details Demo.get_discount_amount Demo.price_label
      (Demo.checkout None) None (Demo.world Demo.pending_order) = (Ok order, w')
    /\ order_subtotal_amount order = 10000
    /\ order_discount_amount order = 0
    /\ order_tax_amount order = 0
    /\ order_items order = [item]
    /\ order_item_amount item = 10000
    /\ order_status order = OrderStatus.paid
    /\ w_orders w' = w_orders (Demo.world Demo.pending_order) ++ [order].
Proof.
  apply (create_from_checkout_custom_price Demo.uuid4 Demo.TaxabilityReason_from_stripe
           Demo.from_stripe_tax_rate_details Demo.get_discount_amount Demo.price_label
           (Demo.checkout None) None Demo.customer Demo.custom_price
           (Demo.world Demo.pending_order)).
  - reflexivity.
  - reflexivity.
  - reflexivity.
  - reflexivity.
  - reflexivity.
  - reflexivity.
  - reflexivity.
  - left. reflexivity.
  - intros p H. discriminate H.
Defined.

(** C4 as stated fails on a checkout that records a tax amount without a
    tax processor id: the checkout is completed, has the single custom price,
    the amount 10000, no discount and no tax processor id, and the order
    created from it carries the recorded tax of 500, not 0. *)
Lemma create_from_checkout_keeps_recorded_tax :
  product_is_recurring (checkout_product (Demo.checkout (Some 500))) = false
  /\ checkout_customer (Demo.checkout (Some 500)) = Some Demo.customer
  /\ product_prices (checkout_product (Demo.checkout (Some 500))) = [Demo.custom_price]
  /\ is_custom_price Demo.custom_price = true
  /\ checkout_amount (Demo.checkout (Some 500)) = 10000
  /\ checkout_discount (Demo.checkout (Some 500)) = None
  /\ checkout_tax_processor_id (Demo.checkout (Some 500)) = None
  /\ exists order,
       fst (create_from_checkout Demo.uuid4 Demo.TaxabilityReason_from_stripe
              Demo.from_stripe_tax_rate_details Demo.get_discount_amount Demo.price_label
              (Demo.checkout (Some 500)) None (Demo.world Demo.pending_order)) = Ok order
       /\ order_status order = OrderStatus.paid
       /\ order_subtotal_amount order = 10000
       /\ order_tax_amount order = 500
       /\ order_tax_amount order <> 0.
Proof.
  repeat (split; [reflexivity |]).
  eexists. split; [vm_compute; reflexivity |].
  repeat (split; [reflexivity |]). discriminate.
Qed.

(** ** C5: the meters are reset when an order is created from an invoice *)

Lemma meter_events_rollover (w w1 : World) (subscription : Subscription)
    (subscription_meter : SubscriptionMeter) :
  w_rollover_units w1 = w_rollover_units w ->
  meter_events w1 subscription subscription_meter =
  meter_events w subscription subscription_meter.
Proof.
  intros H. unfold meter_events, rollover_units_of. rewrite H. reflexivity.
Qed.

(** Each attachment of a meter gives one reset event bearing its meter. *)
Lemma meter_events_resets (w : World) (subscription : Subscription)
    (meters : list SubscriptionMeter) (meter : uuid) :
  List.length
    (filter (fun e => is_meter_reset e
                      && String.eqb (event_meter_id (event_metadata e)) meter)
            (flat_map (meter_events w subscription) meters))
  = List.length
      (filter (fun sm => String.eqb (subscription_meter_meter_id sm) meter) meters).
Proof.
  induction meters as [| sm meters IH]; [reflexivity |].
  cbn [flat_map]. rewrite filter_app, length_app, IH. cbn [filter].
  unfold meter_events, is_meter_reset.
  destruct (0 <? rollover_units_of w subscription sm); simpl;
    destruct (String.eqb (subscription_meter_meter_id sm) meter); reflexivity.
Qed.

Lemma meter_events_reset_count (w : World) (subscription : Subscription)
    (meters : list SubscriptionMeter) :
  List.length (filter is_meter_reset (flat_map (meter_events w subscription) meters))
  = List.length meters.
Proof.
  induction meters as [| sm meters IH]; [reflexivity |].
  cbn [flat_map]. rewrite filter_app, length_app, IH. cbn [filter].
  unfold meter_events.
  destruct (0 <? rollover_units_of w subscription sm); reflexivity.
Qed.

Lemma meter_events_credited_count (w : World) (subscription : Subscription)
    (meters : list SubscriptionMeter) :
  List.length (filter is_meter_credited (flat_map (meter_events w subscription) meters))
  = List.length
      (filter (fun sm => 0 <? rollover_units_of w subscription sm) meters).
Proof.
  induction meters as [| sm meters IH]; [reflexivity |].
  cbn [flat_map]. rewrite filter_app, length_app, IH. cbn [filter].
  unfold meter_events.
  destruct (0 <? rollover_units_of w subscription sm); reflexivity.
Qed.

(** A credited event is recorded for a meter with its rollover units exactly
    when these are positive. *)
Lemma meter_events_credited_iff (w : World) (subscription : Subscription)
    (meters : list SubscriptionMeter) (sm : SubscriptionMeter) :
  In sm meters ->
  (In (meter_credited_event (subscription_customer subscription) subscription sm
         (rollover_units_of w subscription sm))
      (flat_map (meter_events w subscription) meters)
   <-> 0 < rollover_units_of w subscription sm).
Proof.
  intros Hin. split.
  - intros He. apply in_flat_map in He. destruct He as (sm' & _ & He).
    unfold meter_events in He. destruct He as [He | He]; [discriminate He |].
    destruct (0 <? rollover_units_of w subscription sm') eqn:Hpos; [| destruct He].
    destruct He as [He | []]. apply Z.ltb_lt in Hpos.
    injection He as _ Hunits. rewrite <- Hunits. exact Hpos.
  - intros Hpos. apply in_flat_map. exists sm. split; [exact Hin |].
    unfold meter_events. apply Z.ltb_lt in Hpos. rewrite Hpos. right. left. reflexivity.
Qed.

Lemma meter_events_credited_positive (w : World) (subscription : Subscription)
    (meters : list SubscriptionMeter) (e : Event) :
  In e (flat_map (meter_events w subscription) meters) ->
  is_meter_credited e = true ->
  exists units, event_units (event_metadata e) = Some units /\ 0 < units.
Proof.
  intros He Hc. apply in_flat_map in He. destruct He as (sm & _ & He).
  unfold meter_events in He. destruct He as [He | He].
  - subst e. discriminate Hc.
  - destruct (0 <? rollover_units_of w subscription sm) eqn:Hpos; [| destruct He].
    destruct He as [He | []]. subst e. simpl.
    eexists. split; [reflexivity | apply Z.ltb_lt; exact Hpos].
Qed.

Lemma reset_meter_run (subscription : Subscription) (subscription_meter : SubscriptionMeter)
    (w : World) :
  exists w1,
    reset_meter (subscription_customer subscription) subscription subscription_meter w =
      (Ok tt, w1)
    /\ w_events w1 = w_events w ++ meter_events w subscription subscription_meter
    /\ w_rollover_units w1 = w_rollover_units w.
Proof.
  unfold reset_meter, get_rollover_units, create_event, meter_events, rollover_units_of,
    meter_reset_event, meter_credited_event, when, gets, modify, bind, ret.
  destruct (0 <? w_rollover_units w _ _); eexists;
    (split; [reflexivity |]); split; try reflexivity.
  cbn [w_events upd_events]. rewrite <- app_assoc. reflexivity.
Qed.

Lemma reset_meters_run (subscription : Subscription) (meters : list SubscriptionMeter)
    (w : World) :
  exists w2,
    for_each meters (reset_meter (subscription_customer subscription) subscription) w =
      (Ok tt, w2)
    /\ w_events w2 = w_events w ++ flat_map (meter_events w subscription) meters
    /\ w_rollover_units w2 = w_rollover_units w.
Proof.
  revert w. induction meters as [| sm meters IH]; intros w.
  - exists w. simpl. rewrite app_nil_r. auto.
  - destruct (reset_meter_run subscription sm w) as (w1 & E1 & Hev1 & Hr1).
    destruct (IH w1) as (w2 & E2 & Hev2 & Hr2).
    exists w2. cbn [for_each flat_map]. rewrite (bind_Ok _ _ _ _ _ E1).
    split; [exact E2 |]. split; [| congruence].
    rewrite Hev2, Hev1, <- app_assoc. f_equal. f_equal.
    apply flat_map_ext. intros sm'. apply meter_events_rollover. exact Hr1.
Qed.

Section Creation.

Variable uuid4 : nat -> uuid.
Variable UUID : string -> option uuid.
Variable TaxabilityReason_from_stripe : option string -> Z -> option TaxabilityReason.
Variable from_stripe_tax_rate : StripeTaxRate -> option TaxRate.
Variable stripe_descriptor_suffix_max_length : nat.

Lemma preserves_fresh_uuid {X} (part : World -> X) :
  (forall f w, part (upd_next_uuid f w) = part w) -> preserves part (fresh_uuid uuid4).
Proof. intros H w. apply H. Qed.

Ltac head_of t :=
  lazymatch t with
  | ?f _ => head_of f
  | _ => t
  end.

Ltac unfold_stage :=
  match goal with
  | |- preserves _ ?m => let h := head_of m in unfold h
  end.

Ltac creation_preserves :=
  repeat first [ apply preserves_fresh_uuid; intros; reflexivity
               | preserves_step
               | unfold_stage ].

(** The part of the world a stage of the creation path left alone, read off
    the run of the stage. *)
Ltac stage_preserves part H :=
  match type of H with
  | ?m ?w = (?r, ?w') =>
      let E := fresh "E" in
      assert (E : part w' = part w)
        by (apply (preserves_run part m w w' r); [creation_preserves | exact H])
  end.

Lemma create_order_from_stripe_Ok (invoice : Invoice) (w w' : World) (order : Order) :
  create_order_from_stripe uuid4 UUID TaxabilityReason_from_stripe from_stripe_tax_rate
    stripe_descriptor_suffix_max_length invoice w = (Ok order, w') ->
  exists subscription,
    order_subscription order = Some subscription
    /\ w_events w' =
       w_events w ++ flat_map (meter_events w subscription) (subscription_meters subscription).
Proof.
  intros H. unfold create_order_from_stripe in H.
  destruct (invoice_id invoice) as [id |]; [| discriminate H].
  bind_inv H. rename a into subscription. rename H0 into Hsub.
  bind_inv H. rename H0 into Haddr.
  bind_inv H. rename H0 into Hdisc.
  bind_inv H. rename H0 into Hcheckout.
  bind_inv H. rename H0 into Hitems.
  bind_inv H. rename H0 into Hdraft.
  bind_inv H. rename H0 into Hreason.
  bind_inv H. rename H0 into Htax.
  bind_inv H. rename H0 into Hnumber.
  bind_inv H. rename H0 into Hstamp.
  bind_inv H. rename H0 into Hcreate.
  bind_inv H. rename H0 into Hreset.
  bind_inv H. rename H0 into Hcreated.
  unfold ret in H. injection H as Horder Hw. subst.
  stage_preserves w_events Hsub. stage_preserves w_rollover_units Hsub.
  stage_preserves w_events Haddr. stage_preserves w_rollover_units Haddr.
  stage_preserves w_events Hdisc. stage_preserves w_rollover_units Hdisc.
  stage_preserves w_events Hcheckout. stage_preserves w_rollover_units Hcheckout.
  stage_preserves w_events Hitems. stage_preserves w_rollover_units Hitems.
  stage_preserves w_events Hdraft. stage_preserves w_rollover_units Hdraft.
  stage_preserves w_events Hreason. stage_preserves w_rollover_units Hreason.
  stage_preserves w_events Htax. stage_preserves w_rollover_units Htax.
  stage_preserves w_events Hnumber. stage_preserves w_rollover_units Hnumber.
  stage_preserves w_events Hstamp. stage_preserves w_rollover_units Hstamp.
  stage_preserves w_events Hcreate. stage_preserves w_rollover_units Hcreate.
  assert (Ecreated : w_events w' = w_events w11).
  { apply (preserves_run w_events _ _ _ _
             (_on_order_created_preserves w_events order
                (fun _ _ => eq_refl) (fun _ _ => eq_refl) (fun _ _ => eq_refl))
             Hcreated). }
  destruct (reset_meters_run subscription (subscription_meters subscription) w10)
    as (w11' & Erun & Hev & Hr).
  rewrite Erun in Hreset. injection Hreset as Hw11. subst w11'.
  exists subscription. split.
  - unfold OrderRepository_create, fresh_uuid, bind, modify, ret in Hcreate.
    injection Hcreate as Ho _. subst order. reflexivity.
  - assert (Hev10 : w_events w10 = w_events w) by congruence.
    assert (Hr10 : w_rollover_units w10 = w_rollover_units w) by congruence.
    rewrite Ecreated, Hev, Hev10. f_equal.
    apply flat_map_ext. intros sm. apply meter_events_rollover. exact Hr10.
Qed.

(** C5.  When [create_order_from_stripe] creates an order from a
    subscription invoice, the events it records are, in the order of the
    meters attached to the subscription, one [meter_reset] event for each
    attachment, followed by one [meter_credited] event carrying the rollover
    units when these are strictly positive, and nothing else.  So each
    attached meter gets exactly one reset event, and a credited event with
    its rollover units if and only if they are positive. *)
Theorem create_order_from_stripe_resets_meters
    (invoice : Invoice) (w w' : World) (order : Order) :
  create_order_from_stripe uuid4 UUID TaxabilityReason_from_stripe from_stripe_tax_rate
    stripe_descriptor_suffix_max_length invoice w = (Ok order, w') ->
  exists subscription recorded,
    order_subscription order = Some subscription
    /\ w_events w' = w_events w ++ recorded
    /\ recorded = flat_map (meter_events w subscription) (subscription_meters subscription)
    /\ List.length (filter is_meter_reset recorded) =
       List.length (subscription_meters subscription)
    /\ List.length (filter is_meter_credited recorded) =
       List.length (filter (fun sm => 0 <? rollover_units_of w subscription sm)
                      (subscription_meters subscription))
    /\ (forall meter,
        List.length
          (filter (fun e => is_meter_reset e
                            && String.eqb (event_meter_id (event_metadata e)) meter)
                  recorded)
        = List.length
            (filter (fun sm => String.eqb (subscription_meter_meter_id sm) meter)
                    (subscription_meters subscription)))
    /\ (forall sm, In sm (subscription_meters subscription) ->
        In (meter_reset_event (subscription_customer subscription) subscription sm)
           recorded
        /\ (In (meter_credited_event (subscription_customer subscription) subscription sm
                  (rollover_units_of w subscription sm)) recorded
            <-> 0 < rollover_units_of w subscription sm))
    /\ (forall e, In e recorded -> is_meter_credited e = true ->
        exists units, event_units (event_metadata e) = Some units /\ 0 < units).
Proof.
  intros H. destruct (create_order_from_stripe_Ok invoice w w' order H)
    as (subscription & Hsub & Hev).
  exists subscription,
    (flat_map (meter_events w subscription) (subscription_meters subscription)).
  split; [exact Hsub |]. split; [exact Hev |]. split; [reflexivity |].
  split; [apply meter_events_reset_count |].
  split; [apply meter_events_credited_count |].
  split; [intros meter; apply meter_events_resets |].
  split.
  - intros sm Hin. split.
    + apply in_flat_map. exists sm. split; [exact Hin | left; reflexivity].
    + apply meter_events_credited_iff. exact Hin.
  - intros e. apply meter_events_credited_positive.
Qed.

(** ** C8: an invoice whose coupon has no discount behind it *)

Lemma read_only_run {A} (m : M A) (w w' : World) (r : Result A) :
  preserves (fun w => w) m -> m w = (r, w') -> w' = w.
Proof. intros H E. exact (preserves_run (fun w => w) m w w' r H E). Qed.

Lemma get_subscription_read_only (invoice : Invoice) (id : string) :
  preserves (fun w => w) (get_subscription invoice id).
Proof. creation_preserves. Qed.

Lemma retrieve_billing_address_read_only (customer : Customer) (invoice : Invoice) :
  preserves (fun w => w) (retrieve_billing_address customer invoice).
Proof. creation_preserves. Qed.

(** Lines 559-570 on a coupon behind which no discount is found: without
    metadata, with metadata that has no discount id or an ill-formed one, or
    with a discount id that is not in the store. *)
Lemma get_discount_missing (invoice : Invoice) (stripe_discount : StripeDiscount)
    (id : string) (w : World) :
  invoice_discount invoice = Some stripe_discount ->
  (forall metadata discount_id discount_uuid,
     coupon_metadata (stripe_discount_coupon stripe_discount) = Some metadata ->
     dict_get "discount_id" metadata = Some discount_id ->
     UUID discount_id = Some discount_uuid ->
     discount_service_get discount_uuid w = (Ok None, w)) ->
  get_discount UUID invoice id w =
  (Err match coupon_metadata (stripe_discount_coupon stripe_discount) with
       | None =>
           DiscountDoesNotExist id (coupon_id (stripe_discount_coupon stripe_discount))
       | Some metadata =>
           match dict_get "discount_id" metadata with
           | None => KeyError "discount_id"
           | Some discount_id =>
               match UUID discount_id with
               | None => ValueError
               | Some _ =>
                   DiscountDoesNotExist id
                     (coupon_id (stripe_discount_coupon stripe_discount))
               end
           end
       end, w).
Proof.
  intros Hd Hm. unfold get_discount. rewrite Hd.
  destruct (coupon_metadata (stripe_discount_coupon stripe_discount))
    as [metadata |]; [| reflexivity].
  destruct (dict_get "discount_id" metadata) as [discount_id |] eqn:Hkey; [| reflexivity].
  destruct (UUID discount_id) as [discount_uuid |] eqn:Hid; [| reflexivity].
  rewrite (bind_Ok _ _ _ _ _ (Hm metadata discount_id discount_uuid eq_refl Hkey Hid)).
  reflexivity.
Qed.

(** C8 (amended).  Take an invoice that references an external coupon
    behind which no discount record is found: every well-formed discount id
    that the metadata of the coupon carries names no record of the store
    (so the metadata may also be missing, carry no discount id, or carry an
    ill-formed one).  Then [create_order_from_stripe] never creates an
    order: it fails.  When the invoice has passed the guards that come
    before the discount (it has an id, is not tagged as a pledge, its
    subscription is attached and known, its billing address resolves),
    nothing has been written, and the failure is [DiscountDoesNotExist] for
    the invoice and the coupon when the metadata is missing and when it
    carries a well-formed discount id; it is [KeyError] when the metadata
    carries no discount id, and [ValueError] when the discount id is
    ill-formed. *)
Theorem create_order_from_stripe_discount_does_not_exist
    (invoice : Invoice) (stripe_discount : StripeDiscount) (w : World) :
  invoice_discount invoice = Some stripe_discount ->
  (forall metadata discount_id discount_uuid,
     coupon_metadata (stripe_discount_coupon stripe_discount) = Some metadata ->
     dict_get "discount_id" metadata = Some discount_id ->
     UUID discount_id = Some discount_uuid ->
     discount_service_get discount_uuid w = (Ok None, w)) ->
  (exists e,
     fst (create_order_from_stripe uuid4 UUID TaxabilityReason_from_stripe
            from_stripe_tax_rate stripe_descriptor_suffix_max_length invoice w) = Err e)
  /\ (forall id subscription billing_address,
      invoice_id invoice = Some id ->
      fst (get_subscription invoice id w) = Ok subscription ->
      fst (retrieve_billing_address (subscription_customer subscription) invoice w) =
        Ok billing_address ->
      create_order_from_stripe uuid4 UUID TaxabilityReason_from_stripe
        from_stripe_tax_rate stripe_descriptor_suffix_max_length invoice w =
      (Err match coupon_metadata (stripe_discount_coupon stripe_discount) with
           | None =>
               DiscountDoesNotExist id
                 (coupon_id (stripe_discount_coupon stripe_discount))
           | Some metadata =>
               match dict_get "discount_id" metadata with
               | None => KeyError "discount_id"
               | Some discount_id =>
                   match UUID discount_id with
                   | None => ValueError
                   | Some _ =>
                       DiscountDoesNotExist id
                         (coupon_id (stripe_discount_coupon stripe_discount))
                   end
               end
           end, w)).
Proof.
  intros Hd Hm.
  assert (Hreached : forall id subscription billing_address,
    invoice_id invoice = Some id ->
    fst (get_subscription invoice id w) = Ok subscription ->
    fst (retrieve_billing_address (subscription_customer subscription) invoice w) =
      Ok billing_address ->
    create_order_from_stripe uuid4 UUID TaxabilityReason_from_stripe
      from_stripe_tax_rate stripe_descriptor_suffix_max_length invoice w =
    (Err match coupon_metadata (stripe_discount_coupon stripe_discount) with
         | None =>
             DiscountDoesNotExist id
               (coupon_id (stripe_discount_coupon stripe_discount))
         | Some metadata =>
             match dict_get "discount_id" metadata with
             | None => KeyError "discount_id"
             | Some discount_id =>
                 match UUID discount_id with
                 | None => ValueError
                 | Some _ =>
                     DiscountDoesNotExist id
                       (coupon_id (stripe_discount_coupon stripe_discount))
                 end
             end
         end, w)).
  { intros id subscription billing_address Hid Hsub Haddr.
    unfold create_order_from_stripe. rewrite Hid.
    destruct (get_subscription invoice id w) as [r1 w1] eqn:E1.
    simpl in Hsub. subst r1.
    pose proof (read_only_run _ _ _ _ (get_subscription_read_only invoice id) E1). subst w1.
    rewrite (bind_Ok _ _ _ _ _ E1).
    destruct (retrieve_billing_address (subscription_customer subscription) invoice w)
      as [r2 w2] eqn:E2.
    simpl in Haddr. subst r2.
    pose proof (read_only_run _ _ _ _
                  (retrieve_billing_address_read_only _ invoice) E2). subst w2.
    rewrite (bind_Ok _ _ _ _ _ E2).
    rewrite (bind_Err _ _ _ _ _ (get_discount_missing invoice stripe_discount id w Hd Hm)).
    reflexivity. }
  split; [| exact Hreached].
  destruct (invoice_id invoice) as [id |] eqn:Hid.
  - destruct (get_subscription invoice id w) as [[subscription | e1] w1] eqn:E1.
    + destruct (retrieve_billing_address (subscription_customer subscription) invoice w)
        as [[billing_address | e2] w2] eqn:E2.
      * rewrite (Hreached id subscription billing_address eq_refl);
          [eexists; reflexivity | rewrite E1; reflexivity | rewrite E2; reflexivity].
      * pose proof (read_only_run _ _ _ _ (get_subscription_read_only invoice id) E1).
        subst w1. exists e2. unfold create_order_from_stripe. rewrite Hid.
        rewrite (bind_Ok _ _ _ _ _ E1), (bind_Err _ _ _ _ _ E2). reflexivity.
    + exists e1. unfold create_order_from_stripe. rewrite Hid.
      rewrite (bind_Err _ _ _ _ _ E1). reflexivity.
  - exists AssertionError. unfold create_order_from_stripe. rewrite Hid. reflexivity.
Qed.

End Creation.

(** ** The properties on the concrete inputs *)

(** The instance of C5 on the renewal invoice of the subscription with two
    meters, one of which has rollover units: two resets, one credit. *)
Lemma create_order_from_stripe_resets_meters_witness :
  exists recorded,
    w_events (snd Demo.creation) = w_events (Demo.world Demo.pending_order) ++ recorded
    /\ order_billing_reason Demo.created_order = OrderBillingReason.subscription_cycle
    /\ List.length (filter is_meter_reset recorded) = 2%nat
    /\ List.length (filter is_meter_credited recorded) = 1%nat.
Proof.
  pose proof (create_order_from_stripe_resets_meters Demo.uuid4 Demo.UUID
                Demo.TaxabilityReason_from_stripe Demo.from_stripe_tax_rate 22%nat
                (Demo.invoice "in_2" "paid") (Demo.world Demo.pending_order)
                (snd Demo.creation) Demo.created_order) as T.
  match type of T with
  | ?P -> _ => assert (H : P) by (vm_compute; reflexivity)
  end.
  destruct (T H) as (subscription & recorded & Hsub & Hev & _ & Hreset & Hcredited & _).
  vm_compute in Hsub. injection Hsub as Hs. subst subscription.
  exists recorded. split; [exact Hev |]. split; [vm_compute; reflexivity |].
  rewrite Hreset, Hcredited. split; vm_compute; reflexivity.
Defined.

(** The instance of C8 on an invoice whose coupon has no metadata, on one
    whose coupon names a discount that is not in the store, and on one whose
    coupon carries a text that is no identifier. *)
Lemma create_order_from_stripe_discount_does_not_exist_witness :
  create_order_from_stripe Demo.uuid4 Demo.UUID Demo.TaxabilityReason_from_stripe
    Demo.from_stripe_tax_rate 22 (Demo.invoice_with_coupon None)
    (Demo.world Demo.pending_order) =
  (Err (DiscountDoesNotExist "in_3" "co_1"), Demo.world Demo.pending_order)
  /\ create_order_from_stripe Demo.uuid4 Demo.UUID Demo.TaxabilityReason_from_stripe
       Demo.from_stripe_tax_rate 22
       (Demo.invoice_with_coupon
          (Some [("discount_id", "0B5E2A9C-6F1D-4C3A-9E7B-2D8F4A1C5E60")]))
       (Demo.world Demo.pending_order) =
     (Err (DiscountDoesNotExist "in_3" "co_1"), Demo.world Demo.pending_order)
  /\ create_order_from_stripe Demo.uuid4 Demo.UUID Demo.TaxabilityReason_from_stripe
       Demo.from_stripe_tax_rate 22
       (Demo.invoice_with_coupon (Some [("discount_id", "disc")]))
       (Demo.world Demo.pending_order) =
     (Err ValueError, Demo.world Demo.pending_order).
Proof.
  assert (Hunknown : forall discount_uuid,
            discount_service_get discount_uuid (Demo.world Demo.pending_order)
            = (Ok None, Demo.world Demo.pending_order))
    by (intros discount_uuid; reflexivity).
  split; [| split].
  - apply (proj2 (create_order_from_stripe_discount_does_not_exist Demo.uuid4 Demo.UUID
                    Demo.TaxabilityReason_from_stripe Demo.from_stripe_tax_rate 22%nat
                    (Demo.invoice_with_coupon None)
                    {| stripe_discount_coupon :=
                         {| coupon_id := "co_1"; coupon_metadata := None |} |}
                    (Demo.world Demo.pending_order) eq_refl
                    (fun _ _ discount_uuid _ _ _ => Hunknown discount_uuid))
             "in_3" Demo.subscription None); reflexivity.
  - apply (proj2 (create_order_from_stripe_discount_does_not_exist Demo.uuid4 Demo.UUID
                    Demo.TaxabilityReason_from_stripe Demo.from_stripe_tax_rate 22%nat
                    (Demo.invoice_with_coupon
                       (Some [("discount_id", "0B5E2A9C-6F1D-4C3A-9E7B-2D8F4A1C5E60")]))
                    {| stripe_discount_coupon :=
                         {| coupon_id := "co_1";
                            coupon_metadata :=
                              Some [("discount_id",
                                     "0B5E2A9C-6F1D-4C3A-9E7B-2D8F4A1C5E60")] |} |}
                    (Demo.world Demo.pending_order) eq_refl
                    (fun _ _ discount_uuid _ _ _ => Hunknown discount_uuid))
             "in_3" Demo.subscription None); reflexivity.
  - apply (proj2 (create_order_from_stripe_discount_does_not_exist Demo.uuid4 Demo.UUID
                    Demo.TaxabilityReason_from_stripe Demo.from_stripe_tax_rate 22%nat
                    (Demo.invoice_with_coupon (Some [("discount_id", "disc")]))
                    {| stripe_discount_coupon :=
                         {| coupon_id := "co_1";
                            coupon_metadata := Some [("discount_id", "disc")] |} |}
                    (Demo.world Demo.pending_order) eq_refl
                    (fun _ _ discount_uuid _ _ _ => Hunknown discount_uuid))
             "in_3" Demo.subscription None); reflexivity.
Defined.

(** C8 as stated fails on an invoice that the guards before the discount
    turn away: the invoice references a coupon whose metadata is missing and
    is attached to no subscription, and [create_order_from_stripe] fails with
    [NotASubscriptionInvoice], not with [DiscountDoesNotExist]. *)
Lemma create_order_from_stripe_coupon_without_subscription :
  invoice_discount Demo.one_time_invoice_with_coupon =
    Some {| stripe_discount_coupon := {| coupon_id := "co_1"; coupon_metadata := None |} |}
  /\ create_order_from_stripe Demo.uuid4 Demo.UUID Demo.TaxabilityReason_from_stripe
       Demo.from_stripe_tax_rate 22 Demo.one_time_invoice_with_coupon
       (Demo.world Demo.pending_order) =
     (Err (NotASubscriptionInvoice "in_4"), Demo.world Demo.pending_order)
  /\ fst (create_order_from_stripe Demo.uuid4 Demo.UUID Demo.TaxabilityReason_from_stripe
            Demo.from_stripe_tax_rate 22 Demo.one_time_invoice_with_coupon
            (Demo.world Demo.pending_order)) <>
     Err (DiscountDoesNotExist "in_4" "co_1").
Proof.
  split; [reflexivity |]. split; [reflexivity |]. discriminate.
Qed.

(** The instance of C9: on the invoiced order a request that restates its
    billing name and address is accepted and leaves the order as it was. *)
Lemma update_locked_field_same_value_witness :
  exists w',
    update Demo.invoiced_order Demo.restate (Demo.world Demo.invoiced_order) =
    (Ok Demo.invoiced_order, w').
Proof.
  apply (proj1 (update_locked_field_same_value Demo.invoiced_order Demo.restate
                  (Demo.world Demo.invoiced_order) "invoices/order.pdf" eq_refl)).
  - intros v H. injection H as H. subst v. reflexivity.
  - intros a H. injection H as H. subst a. reflexivity.
Defined.

(** The instance of C3: the rename is accepted while the order has no
    invoice document and rejected, with the world untouched, once it has. *)
Lemma update_invoice_lock_round_trip_witness :
  (exists w',
     update Demo.pending_order Demo.rename (Demo.world Demo.pending_order) =
       (Ok (model_dump_exclude_unset Demo.rename Demo.pending_order), w')
     /\ order_billing_name (model_dump_exclude_unset Demo.rename Demo.pending_order) =
        Some "Grace")
  /\ (exists errors,
       update Demo.invoiced_order Demo.rename (Demo.world Demo.invoiced_order) =
         (Err (PolarRequestValidationError errors), Demo.world Demo.invoiced_order)
       /\ In (locked_field_error Demo.rename "billing_name") errors).
Proof.
  split.
  - destruct (proj1 (update_invoice_lock_round_trip Demo.pending_order Demo.rename
                       (Demo.world Demo.pending_order)) eq_refl)
      as (w' & E & _ & _).
    exists w'. split; [exact E | reflexivity].
  - assert (Hch : changes_billing_name Demo.invoiced_order Demo.rename).
    { exists (Some "Grace"). split; [reflexivity | discriminate]. }
    destruct (proj2 (update_invoice_lock_round_trip Demo.invoiced_order Demo.rename
                       (Demo.world Demo.invoiced_order))
                "invoices/order.pdf" eq_refl (or_introl Hch))
      as (errors & E & _ & _ & Hname & _).
    exists errors. split; [exact E | exact (Hname Hch)].
Defined.

(** * Further properties of the service *)

(** ** What the notifier sends *)

Lemma send_webhook_outbox (order : Order) (event_type : WebhookEventType.t) (w : World) :
  fst (send_webhook order event_type w) = Ok tt
  /\ w_webhooks (snd (send_webhook order event_type w)) =
     w_webhooks w ++ webhook_delivery order event_type w
  /\ w_jobs (snd (send_webhook order event_type w)) = w_jobs w
  /\ w_organizations (snd (send_webhook order event_type w)) = w_organizations w.
Proof.
  unfold send_webhook, OrganizationRepository.get_by_id, webhook_service.send,
    webhook_delivery, gets, bind, modify, ret.
  destruct (find _ (w_organizations w)); simpl; rewrite ?app_nil_r; auto.
Qed.

Lemma webhook_delivery_organizations (order : Order) (event_type : WebhookEventType.t)
    (w w' : World) :
  w_organizations w' = w_organizations w ->
  webhook_delivery order event_type w' = webhook_delivery order event_type w.
Proof. intros H. unfold webhook_delivery. rewrite H. reflexivity. Qed.

Lemma _on_order_paid_outbox (order : Order) (w : World) :
  order_paid order = true ->
  w_webhooks (snd (_on_order_paid order w)) =
    w_webhooks w ++ webhook_delivery order WebhookEventType.order_paid w
  /\ w_jobs (snd (_on_order_paid order w)) = w_jobs w ++ grant_cycle_job order.
Proof.
  intros Hpaid. rewrite (_on_order_paid_eq _ _ Hpaid).
  destruct (send_webhook_outbox order WebhookEventType.order_paid w) as (_ & Hw & Hj & _).
  set (w1 := snd (send_webhook order WebhookEventType.order_paid w)) in *.
  unfold grant_cycle_job, when, enqueue_job, modify, ret.
  destruct (order_subscription_id order) as [sid |];
    [destruct (OrderBillingReason.eqb _ _) |]; simpl;
    rewrite ?app_nil_r; auto.
  rewrite Hj. auto.
Qed.

(** The outbox after [_on_order_created]: the webhooks, the jobs and the
    checkout events, each in the order they were handed over. *)
Lemma _on_order_created_run (order : Order) (w : World) :
  exists w',
    _on_order_created order w = (Ok tt, w')
    /\ w_webhooks w' =
       w_webhooks w
       ++ webhook_delivery order WebhookEventType.order_created w
       ++ (if order_paid order
           then webhook_delivery order WebhookEventType.order_paid w else [])
    /\ w_jobs w' =
       w_jobs w
       ++ {| job_name := "order.discord_notification";
             job_kwargs := [("order_id", order_id order)] |}
          :: (if order_paid order then grant_cycle_job order else [])
    /\ w_checkout_events w' =
       w_checkout_events w
       ++ match order_checkout order with
          | Some checkout =>
              [(checkout_client_secret checkout, CheckoutEvent.order_created)]
          | None => []
          end.
Proof.
  unfold _on_order_created.
  destruct (send_webhook_Ok order WebhookEventType.order_created w) as [w1 H1].
  destruct (send_webhook_outbox order WebhookEventType.order_created w)
    as (_ & Hw & Hj & Hg).
  assert (Hc : w_checkout_events w1 = w_checkout_events w).
  { apply (preserves_run w_checkout_events _ _ _ _
             (send_webhook_preserves w_checkout_events order
                WebhookEventType.order_created (fun _ _ => eq_refl)) H1). }
  rewrite H1 in Hw, Hj, Hg. simpl in Hw, Hj, Hg.
  rewrite (bind_Ok _ _ _ _ _ H1).
  unfold enqueue_job at 1. unfold modify at 1. unfold bind at 1.
  match goal with |- context [upd_jobs ?f w1] => set (w2 := upd_jobs f w1) end.
  assert (Hp : exists w3,
    when (order_paid order) (_on_order_paid order) w2 = (Ok tt, w3)
    /\ w_webhooks w3 =
       w_webhooks w2
       ++ (if order_paid order
           then webhook_delivery order WebhookEventType.order_paid w else [])
    /\ w_jobs w3 = w_jobs w2 ++ (if order_paid order then grant_cycle_job order else [])
    /\ w_checkout_events w3 = w_checkout_events w2).
  { unfold when. destruct (order_paid order) eqn:Hpaid.
    - destruct (_on_order_paid_Ok order w2 Hpaid) as [w3 H3].
      destruct (_on_order_paid_outbox order w2 Hpaid) as [Pw Pj].
      rewrite H3 in Pw, Pj. simpl in Pw, Pj.
      exists w3. split; [exact H3 |].
      rewrite (webhook_delivery_organizations order WebhookEventType.order_paid w w2)
        in Pw by exact Hg.
      split; [exact Pw |]. split; [exact Pj |].
      apply (preserves_run w_checkout_events _ _ _ _
               (_on_order_paid_preserves w_checkout_events order
                  (fun _ _ => eq_refl) (fun _ _ => eq_refl)) H3).
    - exists w2. rewrite !app_nil_r. auto. }
  destruct Hp as (w3 & H3 & Pw & Pj & Pc). rewrite (bind_Ok _ _ _ _ _ H3).
  assert (Hw2 : w_webhooks w2 = w_webhooks w1) by reflexivity.
  assert (Hj2 : w_jobs w2 = w_jobs w1 ++ [ {| job_name := "order.discord_notification";
                                            job_kwargs := [("order_id", order_id order)] |} ])
    by reflexivity.
  assert (Hc2 : w_checkout_events w2 = w_checkout_events w1) by reflexivity.
  unfold modify, ret.
  destruct (order_checkout order); eexists; (split; [reflexivity |]); simpl;
    rewrite Pw, Pj, Pc, Hw2, Hj2, Hc2, Hw, Hj, Hc, <- !app_assoc, ?app_nil_r;
    auto.
Qed.

(** X1.  The notifier on creation.  [_on_order_created] never fails.  It sends
    the [order_created] webhook, then the [order_paid] webhook if the order
    is paid, each delivered when the organization of the product resolves;
    it queues the discord notification, then the benefit-grant-cycle job if
    the order is a paid renewal; and it publishes the checkout event exactly
    when the order came from a checkout. *)
Theorem order_created_notifications (order : Order) (w : World) :
  fst (_on_order_created order w) = Ok tt
  /\ w_webhooks (snd (_on_order_created order w)) =
     w_webhooks w
     ++ webhook_delivery order WebhookEventType.order_created w
     ++ (if order_paid order
         then webhook_delivery order WebhookEventType.order_paid w else [])
  /\ w_jobs (snd (_on_order_created order w)) =
     w_jobs w
     ++ {| job_name := "order.discord_notification";
           job_kwargs := [("order_id", order_id order)] |}
        :: (if order_paid order then grant_cycle_job order else [])
  /\ w_checkout_events (snd (_on_order_created order w)) =
     w_checkout_events w
     ++ match order_checkout order with
        | Some checkout =>
            [(checkout_client_secret checkout, CheckoutEvent.order_created)]
        | None => []
        end
  /\ w_orders (snd (_on_order_created order w)) = w_orders w.
Proof.
  destruct (_on_order_created_run order w) as (w' & E & Hw & Hj & Hc).
  pose proof (preserves_run w_orders _ _ _ _
                (_on_order_created_preserves w_orders order
                   (fun _ _ => eq_refl) (fun _ _ => eq_refl) (fun _ _ => eq_refl)) E)
    as Ho.
  rewrite E. simpl. auto.
Qed.

(** ** The update path *)

Lemma _on_order_updated_run (order : Order) (previous_status : OrderStatus.t) (w : World) :
  exists w',
    _on_order_updated order previous_status w = (Ok tt, w')
    /\ w_webhooks w' =
       w_webhooks w
       ++ webhook_delivery order WebhookEventType.order_updated w
       ++ (if OrderStatus.eqb (order_status order) OrderStatus.paid
              && negb (OrderStatus.eqb previous_status OrderStatus.paid)
           then webhook_delivery order WebhookEventType.order_paid w else [])
    /\ w_jobs w' =
       w_jobs w
       ++ (if OrderStatus.eqb (order_status order) OrderStatus.paid
              && negb (OrderStatus.eqb previous_status OrderStatus.paid)
           then grant_cycle_job order else []).
Proof.
  rewrite _on_order_updated_eq.
  destruct (send_webhook_outbox order WebhookEventType.order_updated w)
    as (_ & Hw & Hj & Hg).
  set (w1 := snd (send_webhook order WebhookEventType.order_updated w)) in *.
  unfold when.
  destruct (OrderStatus.eqb (order_status order) OrderStatus.paid) eqn:Hpaid; simpl.
  - destruct (negb (OrderStatus.eqb previous_status OrderStatus.paid)).
    + destruct (_on_order_paid_Ok order w1 Hpaid) as [w2 H2].
      destruct (_on_order_paid_outbox order w1 Hpaid) as [Pw Pj].
      rewrite H2 in Pw, Pj. simpl in Pw, Pj.
      rewrite (webhook_delivery_organizations order WebhookEventType.order_paid w w1 Hg)
        in Pw.
      exists w2. split; [exact H2 |].
      rewrite Pw, Pj, Hw, Hj, <- app_assoc. auto.
    + exists w1. rewrite !app_nil_r. auto.
  - exists w1. rewrite !app_nil_r. auto.
Qed.

Lemma enqueue_balance_creation_Ok (order : Order) (invoice : Invoice) (w w' : World) :
  enqueue_balance_creation order invoice w = (Ok tt, w') ->
  w_jobs w' =
  w_jobs w
  ++ (if order_paid order
      then match balance_charge invoice w with
           | Some charge => [balance_job order charge]
           | None => []
           end
      else []).
Proof.
  unfold enqueue_balance_creation, balance_charge, balance_job, when, enqueue_job,
    gets, modify, ret, raise, bind.
  destruct (order_paid order); [| intros H; inversion H; rewrite app_nil_r; reflexivity].
  destruct (truthy_str (invoice_charge invoice)) eqn:Hc.
  - destruct (invoice_charge invoice); intros H; inversion H;
      rewrite ?app_nil_r; reflexivity.
  - destruct (truthy_dict (invoice_metadata invoice)
              && truthy_str (dict_get "payment_intent_id"
                               (or_empty (invoice_metadata invoice)))).
    + destruct (dict_get "payment_intent_id" (or_empty (invoice_metadata invoice)));
        [| intros H; inversion H; rewrite app_nil_r; reflexivity].
      destruct (payment_intent_latest_charge _); intros H; inversion H; reflexivity.
    + intros H; inversion H; rewrite app_nil_r; reflexivity.
Qed.

(** One successful application of an invoice event, whatever its status. *)
Lemma update_order_from_stripe_run (invoice : Invoice) (w w1 : World) (o1 : Order) :
  update_order_from_stripe invoice w = (Ok o1, w1) ->
  exists id o0,
    invoice_id invoice = Some id
    /\ order_of_invoice id w = Some o0
    /\ o1 = set_order_status (status_of_invoice invoice) o0
    /\ w_orders w1 =
       replace_row (fun o => String.eqb (order_id o) (order_id o1)) o1 (w_orders w)
    /\ w_webhooks w1 =
       w_webhooks w
       ++ webhook_delivery o1 WebhookEventType.order_updated w
       ++ (if OrderStatus.eqb (order_status o1) OrderStatus.paid
              && negb (OrderStatus.eqb (order_status o0) OrderStatus.paid)
           then webhook_delivery o1 WebhookEventType.order_paid w else [])
    /\ w_jobs w1 =
       w_jobs w
       ++ (if order_paid o1
           then match balance_charge invoice w with
                | Some charge => [balance_job o1 charge]
                | None => []
                end
           else [])
       ++ (if OrderStatus.eqb (order_status o1) OrderStatus.paid
              && negb (OrderStatus.eqb (order_status o0) OrderStatus.paid)
           then grant_cycle_job o1 else []).
Proof.
  intros H. unfold update_order_from_stripe in H.
  destruct (invoice_id invoice) as [id |]; [| discriminate H].
  bind_inv H. unfold OrderRepository.get_by_stripe_invoice_id, gets in H0.
  inversion H0; subst; clear H0.
  destruct (find _ (w_orders w0)) as [o0 |] eqn:Hfind; [| discriminate H].
  bind_inv H. unfold OrderRepository.update, modify, ret, bind in H0.
  inversion H0; subst; clear H0.
  fold (status_of_invoice invoice) in *.
  set (o1' := set_order_status (status_of_invoice invoice) o0) in *.
  set (wa := upd_orders _ w0) in *.
  bind_inv H. bind_inv H. unfold ret in H. inversion H; subst; clear H.
  rename w into wb.
  exists id, o0. split; [reflexivity |]. split; [exact Hfind |]. split; [reflexivity |].
  destruct a.
  pose proof (enqueue_balance_creation_Ok o1' invoice wa wb H0) as Bj.
  pose proof (preserves_run w_orders _ _ _ _
                (enqueue_balance_creation_preserves w_orders o1' invoice
                   (fun _ _ => eq_refl)) H0) as B1.
  pose proof (preserves_run w_organizations _ _ _ _
                (enqueue_balance_creation_preserves w_organizations o1' invoice
                   (fun _ _ => eq_refl)) H0) as B2.
  pose proof (preserves_run w_webhooks _ _ _ _
                (enqueue_balance_creation_preserves w_webhooks o1' invoice
                   (fun _ _ => eq_refl)) H0) as B3.
  destruct (_on_order_updated_run o1' (order_status o0) wb) as (w' & E & Uw & Uj).
  rewrite E in H1. inversion H1; subst w'. clear H1.
  pose proof (preserves_run w_orders _ _ _ _
                (_on_order_updated_preserves w_orders o1' (order_status o0)
                   (fun _ _ => eq_refl) (fun _ _ => eq_refl)) E) as U1.
  rewrite U1, B1, Uw, Uj, B3, Bj.
  rewrite !(webhook_delivery_organizations o1' _ wa wb B2).
  assert (Es : balance_charge invoice wa = balance_charge invoice w0) by reflexivity.
  rewrite Es, <- app_assoc.
  split; [reflexivity |]. split; reflexivity.
Qed.

Lemma status_of_invoice_paid (invoice : Invoice) :
  status_of_invoice invoice = OrderStatus.paid <-> invoice_status invoice = Some "paid".
Proof.
  unfold status_of_invoice, option_eqb.
  destruct (invoice_status invoice) as [s |]; [| split; discriminate].
  destruct (String.eqb s "paid") eqn:E.
  - apply String.eqb_eq in E. subst s. split; reflexivity.
  - split; [discriminate |]. intros H. injection H as H. subst s. discriminate E.
Qed.

Lemma order_of_invoice_updated (id : string) (o0 : Order) (status : OrderStatus.t)
    (w w1 : World) :
  order_of_invoice id w = Some o0 ->
  w_orders w1 =
    replace_row (fun o => String.eqb (order_id o) (order_id (set_order_status status o0)))
      (set_order_status status o0) (w_orders w) ->
  order_of_invoice id w1 = Some (set_order_status status o0).
Proof.
  intros Hfind Ho. unfold order_of_invoice in *. rewrite Ho.
  apply (find_replace_row _ _ (set_order_status status o0) o0 (w_orders w) Hfind).
  - simpl. apply String.eqb_refl.
  - apply find_some in Hfind. destruct Hfind as [_ Hp]. exact Hp.
Qed.

(** X2.  The update path keeps the order in step with the invoice.  A successful
    [update_order_from_stripe] returns the order the invoice id designates
    with only its status changed: paid exactly when the status of the invoice
    is ["paid"], pending otherwise.  The order is written back in place: a
    query by the invoice id now finds the returned order, and no row is added
    or removed. *)
Theorem update_order_from_stripe_syncs_status
    (invoice : Invoice) (w w1 : World) (o1 : Order) :
  update_order_from_stripe invoice w = (Ok o1, w1) ->
  exists id o0,
    invoice_id invoice = Some id
    /\ order_of_invoice id w = Some o0
    /\ o1 = set_order_status (order_status o1) o0
    /\ (order_status o1 = OrderStatus.paid <-> invoice_status invoice = Some "paid")
    /\ (order_status o1 = OrderStatus.pending <-> invoice_status invoice <> Some "paid")
    /\ order_of_invoice id w1 = Some o1
    /\ List.length (w_orders w1) = List.length (w_orders w).
Proof.
  intros H.
  destruct (update_order_from_stripe_run invoice w w1 o1 H)
    as (id & o0 & Hid & Hfind & Ho1 & Horders & _ & _).
  exists id, o0. split; [exact Hid |]. split; [exact Hfind |].
  assert (Hst : order_status o1 = status_of_invoice invoice) by (rewrite Ho1; reflexivity).
  split; [rewrite Hst; exact Ho1 |].
  split; [rewrite Hst; apply status_of_invoice_paid |].
  split.
  - rewrite Hst. rewrite <- status_of_invoice_paid.
    destruct (status_of_invoice invoice); split; congruence.
  - split.
    + rewrite Ho1. apply (order_of_invoice_updated id o0 _ w w1 Hfind).
      rewrite <- Ho1. exact Horders.
    + rewrite Horders. unfold replace_row. apply length_map.
Qed.

(** The instance on the pending renewal order and the paid event of its
    invoice. *)
Lemma update_order_from_stripe_syncs_status_witness :
  exists id o0,
    invoice_id (Demo.invoice "in_1" "paid") = Some id
    /\ order_of_invoice id (Demo.world Demo.pending_order) = Some o0
    /\ Demo.paid_order = set_order_status (order_status Demo.paid_order) o0
    /\ (order_status Demo.paid_order = OrderStatus.paid <->
        invoice_status (Demo.invoice "in_1" "paid") = Some "paid")
    /\ (order_status Demo.paid_order = OrderStatus.pending <->
        invoice_status (Demo.invoice "in_1" "paid") <> Some "paid")
    /\ order_of_invoice id (snd (Demo.first_update Demo.pending_order)) =
       Some Demo.paid_order
    /\ List.length (w_orders (snd (Demo.first_update Demo.pending_order))) =
       List.length (w_orders (Demo.world Demo.pending_order)).
Proof.
  apply (update_order_from_stripe_syncs_status (Demo.invoice "in_1" "paid")
           (Demo.world Demo.pending_order) (snd (Demo.first_update Demo.pending_order))
           Demo.paid_order).
  vm_compute. reflexivity.
Defined.

Lemma balance_jobs_app (w : World) (jobs : list Job) (w' : World) :
  w_jobs w' = w_jobs w ++ jobs ->
  balance_jobs w' =
  balance_jobs w ++ filter (fun j => String.eqb (job_name j) "order.balance") jobs.
Proof. intros H. unfold balance_jobs. rewrite H. apply filter_app. Qed.

Lemma grant_cycle_job_not_balance (order : Order) :
  filter (fun j => String.eqb (job_name j) "order.balance") (grant_cycle_job order) = [].
Proof.
  unfold grant_cycle_job. destruct (order_subscription_id order); [| reflexivity].
  destruct (OrderBillingReason.eqb _ _); reflexivity.
Qed.

(** X3.  The balance job of the update path.  A successful
    [update_order_from_stripe] queues one ["order.balance"] job for the order
    when the invoice is paid and has a charge to settle, its own charge or
    else the latest charge of the payment intent its metadata names, with
    that charge as [charge_id]; it queues none when the invoice is not paid or
    has no such charge. *)
Theorem update_order_from_stripe_queues_balance
    (invoice : Invoice) (w w1 : World) (o1 : Order) :
  update_order_from_stripe invoice w = (Ok o1, w1) ->
  balance_jobs w1 =
  balance_jobs w
  ++ match invoice_status invoice, balance_charge invoice w with
     | Some status, Some charge =>
         if String.eqb status "paid" then [balance_job o1 charge] else []
     | _, _ => []
     end.
Proof.
  intros H.
  destruct (update_order_from_stripe_run invoice w w1 o1 H)
    as (id & o0 & _ & _ & Ho1 & _ & _ & Hjobs).
  rewrite (balance_jobs_app w _ w1 Hjobs). f_equal.
  rewrite filter_app.
  match goal with
  | |- context [filter ?p (if ?c then grant_cycle_job o1 else [])] =>
      replace (filter p (if c then grant_cycle_job o1 else [])) with (@nil Job)
        by (destruct c; [symmetry; apply grant_cycle_job_not_balance | reflexivity])
  end.
  rewrite app_nil_r.
  assert (Hp : order_paid o1 =
               match invoice_status invoice with
               | Some status => String.eqb status "paid"
               | None => false
               end).
  { rewrite Ho1. unfold order_paid, status_of_invoice, option_eqb. simpl.
    destruct (invoice_status invoice) as [s |]; [| reflexivity].
    destruct (String.eqb s "paid"); reflexivity. }
  rewrite Hp.
  destruct (invoice_status invoice) as [s |]; [| reflexivity].
  destruct (String.eqb s "paid"); destruct (balance_charge invoice w); reflexivity.
Qed.

(** The instance on the paid event of invoice [in_1], whose charge is
    [ch_1]: the job is queued for that charge. *)
Lemma update_order_from_stripe_queues_balance_witness :
  balance_jobs (snd (Demo.first_update Demo.pending_order)) =
  balance_jobs (Demo.world Demo.pending_order) ++ [balance_job Demo.paid_order "ch_1"].
Proof.
  apply (update_order_from_stripe_queues_balance (Demo.invoice "in_1" "paid")
           (Demo.world Demo.pending_order) (snd (Demo.first_update Demo.pending_order))
           Demo.paid_order).
  vm_compute. reflexivity.
Defined.

Lemma order_paid_webhooks_app (w w' : World) (sent : list Webhook) :
  w_webhooks w' = w_webhooks w ++ sent ->
  order_paid_webhooks w' =
  order_paid_webhooks w
  ++ filter (fun h => WebhookEventType.eqb (webhook_event_type h)
                        WebhookEventType.order_paid) sent.
Proof. intros H. unfold order_paid_webhooks. rewrite H. apply filter_app. Qed.

Lemma webhook_delivery_paid_filter (order : Order) (event_type : WebhookEventType.t)
    (w : World) :
  filter (fun h => WebhookEventType.eqb (webhook_event_type h) WebhookEventType.order_paid)
         (webhook_delivery order event_type w)
  = if WebhookEventType.eqb event_type WebhookEventType.order_paid
    then webhook_delivery order event_type w else [].
Proof.
  unfold webhook_delivery. destruct (find _ (w_organizations w)); simpl.
  - destruct event_type; reflexivity.
  - destruct event_type; reflexivity.
Qed.

Lemma grant_cycle_jobs_app (w w' : World) (jobs : list Job) :
  w_jobs w' = w_jobs w ++ jobs ->
  grant_cycle_jobs w' =
  grant_cycle_jobs w
  ++ filter (fun j => String.eqb (job_name j) "benefit.enqueue_benefit_grant_cycles") jobs.
Proof. intros H. unfold grant_cycle_jobs. rewrite H. apply filter_app. Qed.

(** X4.  A status regression makes the paid effects fire again.  An invoice
    event whose status is not ["paid"] leaves the order pending, whatever its
    status was, and sends no [order_paid] webhook and queues no balance or
    benefit-grant-cycle job.  The next paid event for the same invoice then
    finds the order not paid and runs the paid-transition effects, also for
    an order that had been paid before the regression. *)
Theorem update_order_from_stripe_regression_refires
    (invoice later : Invoice) (w w1 w2 : World) (o1 o2 : Order) :
  invoice_status invoice <> Some "paid" ->
  update_order_from_stripe invoice w = (Ok o1, w1) ->
  invoice_id later = invoice_id invoice ->
  invoice_status later = Some "paid" ->
  update_order_from_stripe later w1 = (Ok o2, w2) ->
  order_status o1 = OrderStatus.pending
  /\ order_paid_webhooks w1 = order_paid_webhooks w
  /\ grant_cycle_jobs w1 = grant_cycle_jobs w
  /\ balance_jobs w1 = balance_jobs w
  /\ order_status o2 = OrderStatus.paid
  /\ order_paid_webhooks w2 = order_paid_webhooks w1 ++ order_paid_webhook o2 w1
  /\ grant_cycle_jobs w2 = grant_cycle_jobs w1 ++ grant_cycle_job o2.
Proof.
  intros Hnot H1 Hid Hpaid H2.
  destruct (update_order_from_stripe_run invoice w w1 o1 H1)
    as (id & o0 & Hid1 & Hfind & Ho1 & Horders & Hwebhooks & Hjobs).
  assert (Hst : status_of_invoice invoice = OrderStatus.pending).
  { destruct (status_of_invoice invoice) eqn:E; [reflexivity |].
    apply status_of_invoice_paid in E. contradiction. }
  rewrite Hst in Ho1.
  assert (Hs1 : order_status o1 = OrderStatus.pending) by (rewrite Ho1; reflexivity).
  assert (Hp1 : order_paid o1 = false) by (unfold order_paid; rewrite Hs1; reflexivity).
  rewrite Hs1 in Hwebhooks, Hjobs. rewrite Hp1 in Hjobs. simpl in Hwebhooks, Hjobs.
  rewrite !app_nil_r in Hwebhooks, Hjobs.
  split; [exact Hs1 |].
  split.
  { rewrite (order_paid_webhooks_app w w1 _ Hwebhooks), webhook_delivery_paid_filter.
    simpl. apply app_nil_r. }
  split; [unfold grant_cycle_jobs; rewrite Hjobs; reflexivity |].
  split; [unfold balance_jobs; rewrite Hjobs; reflexivity |].
  destruct (update_order_from_stripe_paid later w1 w2 o2 Hpaid H2)
    as (id' & o0' & Hid2 & Hfind2 & Ho2 & _ & _ & Hw2 & Hj2).
  rewrite Hid, Hid1 in Hid2. injection Hid2 as Hid2. subst id'.
  assert (Hsame : o0' = o1).
  { pose proof (order_of_invoice_updated id o0 OrderStatus.pending w w1 Hfind) as Hu.
    rewrite <- Ho1 in Hu. specialize (Hu Horders).
    unfold order_of_invoice in Hu. rewrite Hu in Hfind2. congruence. }
  subst o0'. rewrite Hp1 in Hw2, Hj2.
  split; [rewrite Ho2; reflexivity |]. split; [exact Hw2 | exact Hj2].
Qed.

(** The instance on the paid renewal order: the open event of its invoice
    sets it back to pending, and the paid event that follows sends the
    [order_paid] webhook and queues the benefit-grant-cycle job anew. *)
Lemma update_order_from_stripe_regression_refires_witness :
  order_status Demo.pending_order = OrderStatus.pending
  /\ order_paid_webhooks
       (snd (update_order_from_stripe (Demo.invoice "in_1" "open")
               (Demo.world Demo.paid_order))) =
     order_paid_webhooks (Demo.world Demo.paid_order)
  /\ grant_cycle_jobs
       (snd (update_order_from_stripe (Demo.invoice "in_1" "open")
               (Demo.world Demo.paid_order))) =
     grant_cycle_jobs (Demo.world Demo.paid_order)
  /\ balance_jobs
       (snd (update_order_from_stripe (Demo.invoice "in_1" "open")
               (Demo.world Demo.paid_order))) =
     balance_jobs (Demo.world Demo.paid_order)
  /\ order_status Demo.paid_order = OrderStatus.paid
  /\ order_paid_webhooks
       (snd (update_order_from_stripe (Demo.invoice "in_1" "paid")
               (snd (update_order_from_stripe (Demo.invoice "in_1" "open")
                       (Demo.world Demo.paid_order))))) =
     order_paid_webhooks
       (snd (update_order_from_stripe (Demo.invoice "in_1" "open")
               (Demo.world Demo.paid_order)))
     ++ order_paid_webhook Demo.paid_order
          (snd (update_order_from_stripe (Demo.invoice "in_1" "open")
                  (Demo.world Demo.paid_order)))
  /\ grant_cycle_jobs
       (snd (update_order_from_stripe (Demo.invoice "in_1" "paid")
               (snd (update_order_from_stripe (Demo.invoice "in_1" "open")
                       (Demo.world Demo.paid_order))))) =
     grant_cycle_jobs
       (snd (update_order_from_stripe (Demo.invoice "in_1" "open")
               (Demo.world Demo.paid_order)))
     ++ grant_cycle_job Demo.paid_order.
Proof.
  apply (update_order_from_stripe_regression_refires
           (Demo.invoice "in_1" "open") (Demo.invoice "in_1" "paid")
           (Demo.world Demo.paid_order)).
  - discriminate.
  - vm_compute. reflexivity.
  - reflexivity.
  - reflexivity.
  - vm_compute. reflexivity.
Defined.

Lemma enqueue_balance_creation_Err (order : Order) (invoice : Invoice) (w w' : World)
    (e : Error) :
  enqueue_balance_creation order invoice w = (Err e, w') ->
  e = AssertionError /\ w' = w.
Proof.
  unfold enqueue_balance_creation, when, enqueue_job, gets, modify, ret, raise, bind.
  destruct (order_paid order); [| discriminate].
  destruct (truthy_str (invoice_charge invoice)).
  - destruct (invoice_charge invoice); discriminate.
  - destruct (_ && _); [| discriminate].
    destruct (dict_get _ _); [| discriminate].
    destruct (payment_intent_latest_charge _); [discriminate |].
    intros H. inversion H. auto.
Qed.

Lemma update_order_from_stripe_found (invoice : Invoice) (id : string) (o0 : Order)
    (w : World) :
  invoice_id invoice = Some id ->
  order_of_invoice id w = Some o0 ->
  update_order_from_stripe invoice w =
  (enqueue_balance_creation (set_order_status (status_of_invoice invoice) o0) invoice ;;;
   _on_order_updated (set_order_status (status_of_invoice invoice) o0) (order_status o0) ;;;
   ret (set_order_status (status_of_invoice invoice) o0))
    (upd_orders
       (replace_row
          (fun o => String.eqb (order_id o)
                      (order_id (set_order_status (status_of_invoice invoice) o0)))
          (set_order_status (status_of_invoice invoice) o0)) w).
Proof.
  intros Hid Hfind. unfold update_order_from_stripe. rewrite Hid.
  unfold OrderRepository.get_by_stripe_invoice_id, gets. unfold bind at 1.
  unfold order_of_invoice in Hfind. rewrite Hfind. reflexivity.
Qed.

Lemma update_order_from_stripe_missing (invoice : Invoice) (id : string) (w : World) :
  invoice_id invoice = Some id ->
  order_of_invoice id w = None ->
  update_order_from_stripe invoice w = (Err (OrderDoesNotExist id), w).
Proof.
  intros Hid Hfind. unfold update_order_from_stripe. rewrite Hid.
  unfold OrderRepository.get_by_stripe_invoice_id, gets. unfold bind at 1.
  unfold order_of_invoice in Hfind. rewrite Hfind. reflexivity.
Qed.

(** X5.  The only way [update_order_from_stripe] fails with [OrderDoesNotExist]
    is an invoice whose id no stored order carries; it then fails for that
    id and leaves the world as it was. *)
Theorem update_order_from_stripe_order_does_not_exist
    (invoice : Invoice) (w : World) :
  (forall id,
     fst (update_order_from_stripe invoice w) = Err (OrderDoesNotExist id) <->
     invoice_id invoice = Some id /\ order_of_invoice id w = None)
  /\ (forall id, fst (update_order_from_stripe invoice w) = Err (OrderDoesNotExist id) ->
      snd (update_order_from_stripe invoice w) = w).
Proof.
  assert (Hcases :
    (invoice_id invoice = None
     /\ update_order_from_stripe invoice w = (Err AssertionError, w))
    \/ (exists id, invoice_id invoice = Some id /\ order_of_invoice id w = None
        /\ update_order_from_stripe invoice w = (Err (OrderDoesNotExist id), w))
    \/ (exists id o0, invoice_id invoice = Some id /\ order_of_invoice id w = Some o0
        /\ (fst (update_order_from_stripe invoice w) = Err AssertionError
            \/ exists o1, fst (update_order_from_stripe invoice w) = Ok o1))).
  { destruct (invoice_id invoice) as [id |] eqn:Hid.
    2:{ left. split; [reflexivity |]. unfold update_order_from_stripe. rewrite Hid.
        reflexivity. }
    right. destruct (order_of_invoice id w) as [o0 |] eqn:Hfind.
    - right. exists id, o0. split; [reflexivity |]. split; [exact Hfind |].
      rewrite (update_order_from_stripe_found invoice id o0 w Hid Hfind).
      match goal with
      | |- context [bind (enqueue_balance_creation ?o invoice) _ ?wa] =>
          destruct (enqueue_balance_creation o invoice wa) as [[[] | e] wb] eqn:E
      end.
      + right. rewrite (bind_Ok _ _ _ _ _ E).
        match goal with
        | |- context [_on_order_updated ?o ?p] =>
            destruct (_on_order_updated_Ok o p wb) as [wc Ec]
        end.
        rewrite (bind_Ok _ _ _ _ _ Ec). eexists. reflexivity.
      + left. rewrite (bind_Err _ _ _ _ _ E).
        apply enqueue_balance_creation_Err in E. destruct E as [E _]. subst e.
        reflexivity.
    - left. exists id. split; [reflexivity |]. split; [exact Hfind |].
      apply update_order_from_stripe_missing; assumption. }
  split.
  - intros id. split.
    + intros H.
      destruct Hcases as [[_ E] | [(id' & Hid & Hnone & E) | (id' & o0 & _ & _ & E)]].
      * rewrite E in H. discriminate H.
      * rewrite E in H. injection H as H. subst id'. auto.
      * destruct E as [E | [o1 E]]; rewrite E in H; discriminate H.
    + intros [Hid Hnone].
      destruct Hcases as [[Hn _] | [(id' & Hid' & _ & E) | (id' & o0 & Hid' & Hsome & _)]].
      * congruence.
      * rewrite E. simpl. congruence.
      * congruence.
  - intros id H.
    destruct Hcases as [[_ E] | [(id' & _ & _ & E) | (id' & o0 & _ & _ & E)]].
    + rewrite E in H. discriminate H.
    + rewrite E. reflexivity.
    + destruct E as [E | [o1 E]]; rewrite E in H; discriminate H.
Qed.

(** X6.  A paid invoice settled out of band whose payment intent has no charge.
    When the invoice is paid, has no charge of its own and names in its
    metadata a payment intent without a latest charge,
    [update_order_from_stripe] fails on its assertion after the status was
    written: the stored order is paid, and no webhook was sent and no job
    queued. *)
Theorem update_order_from_stripe_payment_intent_without_charge
    (invoice : Invoice) (id : string) (o0 : Order) (metadata : metadata)
    (payment_intent_id : string) (w : World) :
  invoice_id invoice = Some id ->
  order_of_invoice id w = Some o0 ->
  invoice_status invoice = Some "paid" ->
  truthy_str (invoice_charge invoice) = false ->
  invoice_metadata invoice = Some metadata ->
  dict_get "payment_intent_id" metadata = Some payment_intent_id ->
  payment_intent_id <> "" ->
  payment_intent_latest_charge
    (stripe_get_payment_intent (w_stripe w) payment_intent_id) = None ->
  fst (update_order_from_stripe invoice w) = Err AssertionError
  /\ order_of_invoice id (snd (update_order_from_stripe invoice w)) =
     Some (set_order_status OrderStatus.paid o0)
  /\ w_webhooks (snd (update_order_from_stripe invoice w)) = w_webhooks w
  /\ w_jobs (snd (update_order_from_stripe invoice w)) = w_jobs w.
Proof.
  intros Hid Hfind Hpaid Hcharge Hmeta Hkey Hne Hlatest.
  assert (Hrun :
    update_order_from_stripe invoice w =
    (Err AssertionError,
     upd_orders
       (replace_row
          (fun o => String.eqb (order_id o)
                      (order_id (set_order_status OrderStatus.paid o0)))
          (set_order_status OrderStatus.paid o0)) w)).
  { rewrite (update_order_from_stripe_found invoice id o0 w Hid Hfind).
    assert (Hst : status_of_invoice invoice = OrderStatus.paid)
      by (apply status_of_invoice_paid; exact Hpaid).
    rewrite Hst.
    assert (Ht : truthy_dict (Some metadata) = true).
    { destruct metadata; [discriminate Hkey | reflexivity]. }
    assert (Hp : truthy_str (Some payment_intent_id) = true).
    { simpl. apply Bool.negb_true_iff. apply String.eqb_neq. exact Hne. }
    assert (E : forall wa,
      w_stripe wa = w_stripe w ->
      enqueue_balance_creation (set_order_status OrderStatus.paid o0) invoice wa =
      (Err AssertionError, wa)).
    { intros wa Hs. unfold enqueue_balance_creation, order_paid, when.
      rewrite Hcharge, Hmeta. change (or_empty (Some metadata)) with metadata.
      rewrite Hkey, Ht, Hp. simpl.
      unfold gets, bind. rewrite Hs, Hlatest. reflexivity. }
    match goal with
    | |- bind _ _ ?wa = _ => rewrite (bind_Err _ _ _ _ _ (E wa eq_refl))
    end.
    reflexivity. }
  rewrite Hrun. simpl. split; [reflexivity |]. split; [| auto].
  apply (order_of_invoice_updated id o0 OrderStatus.paid w _ Hfind). reflexivity.
Qed.

(** The instance on the pending renewal order and a payment intent that has
    no charge yet. *)
Lemma update_order_from_stripe_payment_intent_without_charge_witness :
  fst (update_order_from_stripe Demo.out_of_band_invoice
         (Demo.world_with_stripe Demo.stripe_without_charge Demo.pending_order)) =
    Err AssertionError
  /\ order_of_invoice "in_1"
       (snd (update_order_from_stripe Demo.out_of_band_invoice
               (Demo.world_with_stripe Demo.stripe_without_charge Demo.pending_order))) =
     Some (set_order_status OrderStatus.paid Demo.pending_order)
  /\ w_webhooks
       (snd (update_order_from_stripe Demo.out_of_band_invoice
               (Demo.world_with_stripe Demo.stripe_without_charge Demo.pending_order))) =
     w_webhooks (Demo.world_with_stripe Demo.stripe_without_charge Demo.pending_order)
  /\ w_jobs
       (snd (update_order_from_stripe Demo.out_of_band_invoice
               (Demo.world_with_stripe Demo.stripe_without_charge Demo.pending_order))) =
     w_jobs (Demo.world_with_stripe Demo.stripe_without_charge Demo.pending_order).
Proof.
  apply (update_order_from_stripe_payment_intent_without_charge
           Demo.out_of_band_invoice "in_1" Demo.pending_order
           [("payment_intent_id", "pi_1")] "pi_1"
           (Demo.world_with_stripe Demo.stripe_without_charge Demo.pending_order));
    try reflexivity.
  discriminate.
Defined.

(** ** Balance settlement: failures, the payout account path, the links *)

Lemma find_replace_row_None {A} (p same : A -> bool) (x : A) (l : list A) :
  find p l = None -> p x = false -> find p (replace_row same x l) = None.
Proof.
  intros Hf Hx. induction l as [| y l IH]; simpl in *; [reflexivity |].
  destruct (p y) eqn:Hy; [discriminate |].
  destruct (same y); [rewrite Hx | rewrite Hy]; apply IH; exact Hf.
Qed.

Lemma find_app_Some {A} (p : A -> bool) (l l' : list A) (x : A) :
  find p l = Some x -> find p (l ++ l') = Some x.
Proof.
  induction l as [| y l IH]; simpl; intros H; [discriminate |].
  destruct (p y); [exact H | apply IH; exact H].
Qed.

Lemma find_app_None_l {A} (p : A -> bool) (l l' : list A) :
  find p l = None -> find p (l ++ l') = find p l'.
Proof.
  induction l as [| y l IH]; simpl; intros H; [reflexivity |].
  destruct (p y); [discriminate | apply IH; exact H].
Qed.

Lemma replace_row_app {A} (same : A -> bool) (x : A) (l l' : list A) :
  replace_row same x (l ++ l') = replace_row same x l ++ replace_row same x l'.
Proof. unfold replace_row. apply map_app. Qed.

Section SettlementPaths.

Variable uuid4 : nat -> uuid.

(** A settlement that went through to a payout account. *)
Lemma create_order_balance_Ok_account (order : Order) (charge_id : string) (w w' : World)
    (account : Account) :
  account_of (organization_id (order_organization order)) w = Some account ->
  create_order_balance uuid4 order charge_id w = (Ok tt, w') ->
  exists pt outgoing incoming,
    payment_of_charge charge_id w = Some pt
    /\ find (fun t =>
               TransactionType.eqb (transaction_type t) TransactionType.balance
               && matches None (transaction_charge_id t)
               && matches (Some (transaction_id pt)) (transaction_payment_transaction_id t)
               && matches (Some (account_id account)) (transaction_account_id t))
            (replace_row (fun t' => String.eqb (transaction_id t') (transaction_id pt))
               (linked_to order pt) (w_transactions w)) = None
    /\ w_transactions w' =
       replace_row (fun t' => String.eqb (transaction_id t') (transaction_id pt))
         (linked_to order pt) (w_transactions w)
       ++ [outgoing; incoming]
    /\ transaction_id outgoing = uuid4 (w_next_uuid w)
    /\ transaction_id incoming = uuid4 (S (w_next_uuid w))
    /\ transaction_type outgoing = TransactionType.balance
    /\ transaction_type incoming = TransactionType.balance
    /\ transaction_account_id outgoing = None
    /\ transaction_account_id incoming = Some (account_id account)
    /\ transaction_payment_transaction_id incoming = Some (transaction_id pt)
    /\ w_fee_reversals w' =
       w_fee_reversals w ++ [(transaction_id outgoing, transaction_id incoming)]
    /\ w_notifications w' = w_notifications w
    /\ w_held_balances w' = w_held_balances w
    /\ w_accounts w' = w_accounts w.
Proof.
  intros Hacc H. unfold create_order_balance in H.
  rewrite (bind_Ok _ _ _ _ _ (get_by_organization_run _ w)) in H.
  unfold balance_transaction_service.get_by at 1 in H.
  unfold gets at 1 in H. unfold bind at 1 in H.
  unfold payment_of_charge.
  destruct (find _ (w_transactions w)) as [pt |] eqn:Hpt; [| discriminate H].
  exists pt.
  rewrite (bind_Ok _ _ _ _ _ (session_add_transaction_run _ w)) in H.
  fold (linked_to order pt) in H.
  set (w1 := upd_transactions _ w) in *.
  unfold account_of in Hacc. rewrite Hacc in H.
  unfold balance_transaction_service.get_by at 1 in H.
  unfold gets at 1 in H. unfold bind at 1 in H.
  destruct (find _ (w_transactions w1)) as [existing |] eqn:Hnone; [discriminate H |].
  bind_inv H. unfold create_balance_from_charge in H0.
  unfold balance_transaction_service.get_by, gets in H0. unfold bind at 1 in H0.
  match type of H0 with
  | context [find ?q (w_transactions w1)] =>
      destruct (find q (w_transactions w1)) as [pt' |] eqn:Hpt'; [| discriminate H0]
  end.
  assert (Hsame : pt' = linked_to order pt).
  { pose proof (payment_transaction_found_again order charge_id pt
                  (w_transactions w) Hpt) as Hagain.
    simpl in Hagain. unfold w1 in Hpt'. simpl in Hpt'. unfold linked_to in Hpt'.
    rewrite Hagain in Hpt'. inversion Hpt'. reflexivity. }
  subst pt'.
  unfold fresh_uuid, bind, modify, ret in H0. simpl in H0.
  inversion H0; subst; clear H0.
  unfold create_fees_reversal_balances, modify in H. inversion H; subst; clear H.
  eexists; eexists. split; [reflexivity |]. split; [exact Hnone |].
  simpl. repeat split; reflexivity.
Qed.

(** A settlement that was held for want of a payout account. *)
Lemma create_order_balance_Ok_held (order : Order) (charge_id : string) (w w' : World) :
  account_of (organization_id (order_organization order)) w = None ->
  create_order_balance uuid4 order charge_id w = (Ok tt, w') ->
  exists pt,
    payment_of_charge charge_id w = Some pt
    /\ w_transactions w' =
       replace_row (fun t' => String.eqb (transaction_id t') (transaction_id pt))
         (linked_to order pt) (w_transactions w)
    /\ w_fee_reversals w' = w_fee_reversals w
    /\ w_notifications w' =
       w_notifications w
       ++ [ {| notification_org_id := organization_id (order_organization order);
               notification_payload :=
                 MaintainerCreateAccountNotificationPayload
                   (organization_slug (order_organization order))
                   (organization_account_url (order_organization order)) |} ]
    /\ w_accounts w' = w_accounts w.
Proof.
  intros Hacc H. unfold create_order_balance in H.
  rewrite (bind_Ok _ _ _ _ _ (get_by_organization_run _ w)) in H.
  unfold balance_transaction_service.get_by at 1 in H.
  unfold gets at 1 in H. unfold bind at 1 in H.
  unfold payment_of_charge.
  destruct (find _ (w_transactions w)) as [pt |] eqn:Hpt; [| discriminate H].
  exists pt.
  rewrite (bind_Ok _ _ _ _ _ (session_add_transaction_run _ w)) in H.
  fold (linked_to order pt) in H.
  set (w1 := upd_transactions _ w) in *.
  unfold account_of in Hacc. rewrite Hacc in H.
  unfold held_balance_service.get_by, gets in H. unfold bind at 1 in H.
  destruct (find _ (w_held_balances w1)) as [existing |] eqn:Hheld; [discriminate H |].
  unfold held_balance_service.create, notifications_service.send_to_org_members,
    bind, modify in H.
  inversion H; subst; clear H. simpl.
  repeat split; reflexivity.
Qed.

Lemma find_replace_row_Some {A} (p same : A -> bool) (x y : A) (l : list A) :
  find p (replace_row same x l) = Some y -> p x = false ->
  exists z, find p l = Some z.
Proof.
  intros Hf Hx. induction l as [| a l IH]; simpl in *; [discriminate |].
  destruct (p a) eqn:Ha; [exists a; reflexivity |].
  destruct (same a); [rewrite Hx in Hf | rewrite Ha in Hf]; apply IH; exact Hf.
Qed.

(** How a settlement fails, and what the failed run leaves behind. *)
Lemma create_order_balance_Err (order : Order) (charge_id : string) (e : Error)
    (w w' : World) :
  create_order_balance uuid4 order charge_id w = (Err e, w') ->
  match payment_of_charge charge_id w with
  | None => e = PaymentTransactionForChargeDoesNotExist charge_id /\ w' = w
  | Some pt =>
      e = AlreadyBalancedOrder (order_id order) (transaction_id pt)
      /\ w' = upd_transactions
                (replace_row (fun t' => String.eqb (transaction_id t') (transaction_id pt))
                   (linked_to order pt)) w
      /\ match account_of (organization_id (order_organization order)) w with
         | None =>
             exists held,
               find (fun h =>
                       String.eqb (held_balance_payment_transaction_id h) (transaction_id pt)
                       && option_eqb String.eqb (held_balance_organization_id h)
                            (Some (organization_id (order_organization order))))
                    (w_held_balances w) = Some held
         | Some account =>
             exists balance,
               balance_of_payment (transaction_id pt) (account_id account) w = Some balance
         end
  end.
Proof.
  intros H. unfold create_order_balance in H.
  rewrite (bind_Ok _ _ _ _ _ (get_by_organization_run _ w)) in H.
  unfold balance_transaction_service.get_by at 1 in H.
  unfold gets at 1 in H. unfold bind at 1 in H.
  unfold payment_of_charge.
  destruct (find _ (w_transactions w)) as [pt |] eqn:Hpt.
  2:{ unfold raise in H. inversion H. split; reflexivity. }
  rewrite (bind_Ok _ _ _ _ _ (session_add_transaction_run _ w)) in H.
  fold (linked_to order pt) in H.
  set (w1 := upd_transactions _ w) in *.
  unfold account_of.
  destruct (find _ (w_accounts w)) as [account |] eqn:Hacc.
  - unfold balance_transaction_service.get_by at 1 in H.
    unfold gets at 1 in H. unfold bind at 1 in H.
    destruct (find _ (w_transactions w1)) as [existing |] eqn:Hex.
    + unfold raise in H. inversion H; subst. split; [reflexivity |].
      split; [reflexivity |].
      unfold balance_of_payment.
      apply (find_replace_row_Some _ _ _ _ _ Hex).
      destruct pt as [i ty c a acc o pc ptx].
      apply find_some in Hpt. destruct Hpt as [_ Hq]. simpl in Hq.
      destruct ty; simpl in Hq; try discriminate Hq. reflexivity.
    + exfalso.
      unfold create_balance_from_charge in H.
      unfold balance_transaction_service.get_by, gets in H.
      pose proof (payment_transaction_found_again order charge_id pt
                    (w_transactions w) Hpt) as Hagain.
      cbv zeta in Hagain. fold (linked_to order pt) in Hagain.
      unfold bind in H. cbv beta in H.
      match type of H with
      | context [find ?q (w_transactions w1)] =>
          replace (find q (w_transactions w1)) with (Some (linked_to order pt)) in H
            by (symmetry; exact Hagain)
      end.
      discriminate H.
  - unfold held_balance_service.get_by, gets in H. unfold bind at 1 in H.
    destruct (find _ (w_held_balances w1)) as [existing |] eqn:Hheld.
    + unfold raise in H. inversion H; subst.
      split; [reflexivity |]. split; [reflexivity |].
      exists existing. exact Hheld.
    + discriminate H.
Qed.

Lemma payment_of_charge_is_payment (charge_id : string) (w : World) (pt : Transaction) :
  payment_of_charge charge_id w = Some pt ->
  transaction_type pt = TransactionType.payment.
Proof.
  intros H. apply find_some in H. destruct H as [_ Hq].
  destruct (transaction_type pt); simpl in Hq; try discriminate Hq. reflexivity.
Qed.

(** X7.  A settlement has two ways to fail and no other.  Without a payment
    transaction on record for the charge it raises
    [PaymentTransactionForChargeDoesNotExist] and leaves every store as it
    was.  With one, it raises [AlreadyBalancedOrder] naming the order and that
    payment transaction, and then the payment was settled before: a held
    balance of the payment transaction stands for the organization when it has
    no payout account, a balance transaction of the payment transaction stands
    on the account when it has one.  A failed settlement adds no held balance,
    no transaction, no fee reversal and no notification. *)
Theorem create_order_balance_failure_modes
    (order : Order) (charge_id : string) (e : Error) (w w' : World) :
  create_order_balance uuid4 order charge_id w = (Err e, w') ->
  (w_held_balances w' = w_held_balances w
   /\ List.length (w_transactions w') = List.length (w_transactions w)
   /\ w_fee_reversals w' = w_fee_reversals w
   /\ w_notifications w' = w_notifications w)
  /\ ((payment_of_charge charge_id w = None
       /\ e = PaymentTransactionForChargeDoesNotExist charge_id
       /\ w' = w)
      \/ exists payment_transaction,
           payment_of_charge charge_id w = Some payment_transaction
           /\ e = AlreadyBalancedOrder (order_id order) (transaction_id payment_transaction)
           /\ match account_of (organization_id (order_organization order)) w with
              | None =>
                  held_balances_for (transaction_id payment_transaction)
                    (organization_id (order_organization order)) w <> []
              | Some account =>
                  balance_of_payment (transaction_id payment_transaction)
                    (account_id account) w <> None
              end).
Proof.
  intros H. apply create_order_balance_Err in H.
  destruct (payment_of_charge charge_id w) as [pt |] eqn:Hpt.
  - destruct H as (He & Hw & Hcase). subst w'. split.
    + simpl. unfold replace_row. rewrite length_map. repeat split; reflexivity.
    + right. exists pt. split; [reflexivity |]. split; [exact He |].
      destruct (account_of _ w) as [account |].
      * destruct Hcase as [balance Hb]. rewrite Hb. discriminate.
      * destruct Hcase as [held Hh]. unfold held_balances_for.
        apply find_some in Hh. destruct Hh as [Hin Hq].
        intros Hnil.
        assert (Hf : In held (filter (fun h =>
            String.eqb (held_balance_payment_transaction_id h) (transaction_id pt)
            && option_eqb String.eqb (held_balance_organization_id h)
                 (Some (organization_id (order_organization order))))
            (w_held_balances w))) by (apply filter_In; split; assumption).
        rewrite Hnil in Hf. destruct Hf.
  - destruct H as (He & Hw). subst w'. split; [repeat split; reflexivity |].
    left. repeat split; [exact He].
Qed.

(** X8.  With a payout account, a settlement that succeeded for a charge
    cannot be repeated, as long as the identifier drawn for the incoming
    balance transaction is not the one of the payment transaction: invoked
    again for the same charge it fails with [AlreadyBalancedOrder], and it
    adds no transaction, no fee reversal and no held balance. *)
Theorem create_order_balance_twice_with_account
    (order : Order) (charge_id : string) (w w1 : World) (account : Account) :
  account_of (organization_id (order_organization order)) w = Some account ->
  (forall payment_transaction,
     payment_of_charge charge_id w = Some payment_transaction ->
     uuid4 (S (w_next_uuid w)) <> transaction_id payment_transaction) ->
  create_order_balance uuid4 order charge_id w = (Ok tt, w1) ->
  exists payment_transaction,
    payment_of_charge charge_id w = Some payment_transaction
    /\ fst (create_order_balance uuid4 order charge_id w1) =
       Err (AlreadyBalancedOrder (order_id order) (transaction_id payment_transaction))
    /\ List.length (w_transactions (snd (create_order_balance uuid4 order charge_id w1))) =
       List.length (w_transactions w1)
    /\ w_fee_reversals (snd (create_order_balance uuid4 order charge_id w1)) =
       w_fee_reversals w1
    /\ w_held_balances (snd (create_order_balance uuid4 order charge_id w1)) =
       w_held_balances w1.
Proof.
  intros Hacc Hfresh H.
  destruct (create_order_balance_Ok_account order charge_id w w1 account Hacc H)
    as (pt & outgoing & incoming & Hpt & Hnone & Htx & Hido & Hidi & Hto & Hti
        & Hao & Hai & Hpi & _ & _ & _ & Haccs).
  exists pt. split; [exact Hpt |].
  specialize (Hfresh pt Hpt).
  pose proof (payment_of_charge_is_payment _ _ _ Hpt) as Htype.
  set (same := fun t' : Transaction => String.eqb (transaction_id t') (transaction_id pt))
    in *.
  assert (Hlinked :
    payment_of_charge charge_id w1 = Some (linked_to order pt)).
  { unfold payment_of_charge. rewrite Htx. apply find_app_Some.
    exact (payment_transaction_found_again order charge_id pt (w_transactions w) Hpt). }
  assert (Hbalance :
    find (fun t =>
            TransactionType.eqb (transaction_type t) TransactionType.balance
            && matches None (transaction_charge_id t)
            && matches (Some (transaction_id pt)) (transaction_payment_transaction_id t)
            && matches (Some (account_id account)) (transaction_account_id t))
         (replace_row same (linked_to order pt) (w_transactions w1)) = Some incoming).
  { rewrite Htx, replace_row_app, find_app_None_l.
    2:{ apply find_replace_row_None; [exact Hnone |].
        simpl. rewrite Htype. reflexivity. }
    match goal with |- find ?q0 _ = _ => set (q := q0) end.
    assert (Hqo : q (if same outgoing then linked_to order pt else outgoing) = false).
    { unfold q. destruct (same outgoing); simpl.
      - rewrite Htype. reflexivity.
      - rewrite Hao. simpl. apply andb_false_r. }
    assert (Hs : same incoming = false)
      by (unfold same; rewrite Hidi; apply String.eqb_neq; exact Hfresh).
    assert (Hqi : q incoming = true).
    { unfold q. rewrite Hti, Hpi, Hai. simpl. rewrite !String.eqb_refl. reflexivity. }
    unfold replace_row. cbn [map find]. rewrite Hs, Hqo, Hqi. reflexivity. }
  assert (Hrun :
    create_order_balance uuid4 order charge_id w1 =
    (Err (AlreadyBalancedOrder (order_id order) (transaction_id pt)),
     upd_transactions (replace_row same (linked_to order pt)) w1)).
  { unfold create_order_balance.
    rewrite (bind_Ok _ _ _ _ _ (get_by_organization_run _ w1)).
    rewrite Haccs. unfold account_of in Hacc. rewrite Hacc.
    unfold balance_transaction_service.get_by at 1.
    unfold gets at 1. unfold bind at 1.
    unfold payment_of_charge in Hlinked. rewrite Hlinked.
    rewrite (bind_Ok _ _ _ _ _ (session_add_transaction_run _ w1)).
    unfold balance_transaction_service.get_by at 1.
    unfold gets at 1. unfold bind at 1.
    match goal with
    | |- context [find ?q (w_transactions ?wa)] =>
        replace (find q (w_transactions wa)) with (Some incoming)
          by (symmetry; exact Hbalance)
    end.
    reflexivity. }
  rewrite Hrun. simpl. unfold replace_row. rewrite length_map.
  repeat split; reflexivity.
Qed.

(** X9.  A settlement that goes through ties the payment transaction of the
    charge to the order: afterwards the payment transaction found for the
    charge is the same row, of the same amount, carrying the identifier of
    the order and of its customer.  Without a payout account the members of
    the organization are told once to create one, and no fee is reversed;
    with a payout account nobody is notified, and the fees are reversed once,
    for the two balance transactions the transfer wrote. *)
Theorem create_order_balance_links_payment
    (order : Order) (charge_id : string) (w w' : World) :
  create_order_balance uuid4 order charge_id w = (Ok tt, w') ->
  exists before after,
    payment_of_charge charge_id w = Some before
    /\ payment_of_charge charge_id w' = Some after
    /\ transaction_id after = transaction_id before
    /\ transaction_amount after = transaction_amount before
    /\ transaction_order_id after = Some (order_id order)
    /\ transaction_payment_customer_id after = Some (customer_id (order_customer order))
    /\ match account_of (organization_id (order_organization order)) w with
       | None =>
           w_notifications w' =
             w_notifications w
             ++ [ {| notification_org_id := organization_id (order_organization order);
                     notification_payload :=
                       MaintainerCreateAccountNotificationPayload
                         (organization_slug (order_organization order))
                         (organization_account_url (order_organization order)) |} ]
           /\ w_fee_reversals w' = w_fee_reversals w
       | Some account =>
           w_notifications w' = w_notifications w
           /\ exists outgoing incoming,
                w_fee_reversals w' =
                  w_fee_reversals w ++ [(transaction_id outgoing, transaction_id incoming)]
                /\ In outgoing (w_transactions w')
                /\ In incoming (w_transactions w')
                /\ transaction_account_id outgoing = None
                /\ transaction_account_id incoming = Some (account_id account)
       end.
Proof.
  intros H.
  destruct (account_of (organization_id (order_organization order)) w)
    as [account |] eqn:Hacc.
  - destruct (create_order_balance_Ok_account order charge_id w w' account Hacc H)
      as (pt & outgoing & incoming & Hpt & _ & Htx & _ & _ & _ & _
          & Hao & Hai & _ & Hfees & Hnote & _ & _).
    exists pt, (linked_to order pt). split; [exact Hpt |].
    split.
    { unfold payment_of_charge. rewrite Htx. apply find_app_Some.
      exact (payment_transaction_found_again order charge_id pt (w_transactions w) Hpt). }
    repeat (split; [reflexivity |]).
    split; [exact Hnote |].
    exists outgoing, incoming. split; [exact Hfees |].
    rewrite Htx. repeat split; try assumption;
      apply in_or_app; right; simpl; auto.
  - destruct (create_order_balance_Ok_held order charge_id w w' Hacc H)
      as (pt & Hpt & Htx & Hfees & Hnote & _).
    exists pt, (linked_to order pt). split; [exact Hpt |].
    split.
    { unfold payment_of_charge. rewrite Htx.
      exact (payment_transaction_found_again order charge_id pt (w_transactions w) Hpt). }
    repeat (split; [reflexivity |]).
    split; [exact Hnote | exact Hfees].
Qed.

End SettlementPaths.

(** The instance on the order of the demonstration, settled a second time
    without a payout account: the failure is [AlreadyBalancedOrder], and the
    held balance of the first settlement is what stands in its way. *)
Lemma create_order_balance_failure_modes_witness :
  fst (create_order_balance Demo.uuid4 Demo.pending_order "ch_1" (snd (Demo.settlement [])))
  = Err (AlreadyBalancedOrder (order_id Demo.pending_order)
           (transaction_id Demo.payment_transaction))
  /\ w_held_balances
       (snd (create_order_balance Demo.uuid4 Demo.pending_order "ch_1"
               (snd (Demo.settlement []))))
     = w_held_balances (snd (Demo.settlement []))
  /\ w_notifications
       (snd (create_order_balance Demo.uuid4 Demo.pending_order "ch_1"
               (snd (Demo.settlement []))))
     = w_notifications (snd (Demo.settlement [])).
Proof.
  split; [vm_compute; reflexivity |].
  pose proof (create_order_balance_failure_modes Demo.uuid4 Demo.pending_order "ch_1"
                (AlreadyBalancedOrder (order_id Demo.pending_order)
                   (transaction_id Demo.payment_transaction))
                (snd (Demo.settlement []))
                (snd (create_order_balance Demo.uuid4 Demo.pending_order "ch_1"
                        (snd (Demo.settlement []))))) as T.
  match type of T with
  | ?P -> _ => assert (H : P) by (vm_compute; reflexivity)
  end.
  destruct (T H) as [(Hheld & _ & _ & Hnote) _].
  split; [exact Hheld | exact Hnote].
Defined.

(** The instance on the order of the demonstration, whose organization has
    the payout account [acct]: the identifiers drawn are [a] and [b], the
    payment transaction is [tx]. *)
Lemma create_order_balance_twice_with_account_witness :
  exists payment_transaction,
    payment_of_charge "ch_1" (Demo.world_of [Demo.account] Demo.pending_order) =
      Some payment_transaction
    /\ fst (create_order_balance Demo.uuid4 Demo.pending_order "ch_1"
              (snd (Demo.settlement [Demo.account]))) =
       Err (AlreadyBalancedOrder (order_id Demo.pending_order)
              (transaction_id payment_transaction))
    /\ List.length
         (w_transactions
            (snd (create_order_balance Demo.uuid4 Demo.pending_order "ch_1"
                    (snd (Demo.settlement [Demo.account]))))) =
       List.length (w_transactions (snd (Demo.settlement [Demo.account])))
    /\ w_fee_reversals
         (snd (create_order_balance Demo.uuid4 Demo.pending_order "ch_1"
                 (snd (Demo.settlement [Demo.account])))) =
       w_fee_reversals (snd (Demo.settlement [Demo.account]))
    /\ w_held_balances
         (snd (create_order_balance Demo.uuid4 Demo.pending_order "ch_1"
                 (snd (Demo.settlement [Demo.account])))) =
       w_held_balances (snd (Demo.settlement [Demo.account])).
Proof.
  apply (create_order_balance_twice_with_account Demo.uuid4 Demo.pending_order "ch_1"
           (Demo.world_of [Demo.account] Demo.pending_order)
           (snd (Demo.settlement [Demo.account])) Demo.account).
  - reflexivity.
  - intros payment_transaction Hpt. vm_compute in Hpt.
    injection Hpt as Hpt. subst payment_transaction. vm_compute. discriminate.
  - vm_compute. reflexivity.
Defined.

(** The instance on the order of the demonstration, settled on the payout
    account [acct]. *)
Lemma create_order_balance_links_payment_witness :
  exists after,
    payment_of_charge "ch_1" (snd (Demo.settlement [Demo.account])) = Some after
    /\ transaction_amount after = 1500
    /\ transaction_order_id after = Some (order_id Demo.pending_order)
    /\ transaction_payment_customer_id after = Some (customer_id Demo.customer).
Proof.
  pose proof (create_order_balance_links_payment Demo.uuid4 Demo.pending_order "ch_1"
                (Demo.world_of [Demo.account] Demo.pending_order)
                (snd (Demo.settlement [Demo.account]))) as T.
  match type of T with
  | ?P -> _ => assert (H : P) by (vm_compute; reflexivity)
  end.
  destruct (T H) as (before & after & Hb & Ha & _ & Hamount & Ho & Hc & _).
  exists after. split; [exact Ha |].
  vm_compute in Hb. injection Hb as Hb. subst before.
  split; [exact Hamount |]. split; [exact Ho | exact Hc].
Defined.

(** ** The checkout path *)

Lemma replace_row_organization_ids (same : Organization -> bool) (advanced : Organization)
    (l : list Organization) :
  (forall o, same o = true -> organization_id advanced = organization_id o) ->
  map organization_id (replace_row same advanced l) = map organization_id l.
Proof.
  intros H. unfold replace_row. rewrite map_map. apply map_ext_in. intros o _.
  destruct (same o) eqn:Hs; [apply H; exact Hs | reflexivity].
Qed.

Lemma find_organization_ids (id : uuid) (l l' : list Organization) :
  map organization_id l' = map organization_id l ->
  option_map organization_id (find (fun g => String.eqb (organization_id g) id) l')
  = option_map organization_id (find (fun g => String.eqb (organization_id g) id) l).
Proof.
  revert l'. induction l as [| o l IH]; intros [| o' l'] H; try discriminate H;
    [reflexivity |].
  simpl in H. injection H as Ho Hl. simpl. rewrite Ho.
  destruct (String.eqb (organization_id o) id); [simpl; congruence | apply IH; exact Hl].
Qed.

(** The delivery of a webhook looks at the identifiers of the organizations
    on record, and at nothing else of them. *)
Lemma webhook_delivery_ids (order : Order) (event_type : WebhookEventType.t)
    (w w' : World) :
  map organization_id (w_organizations w') = map organization_id (w_organizations w) ->
  webhook_delivery order event_type w' = webhook_delivery order event_type w.
Proof.
  intros H. unfold webhook_delivery.
  pose proof (find_organization_ids (product_organization_id (order_product order))
                _ _ H) as E.
  destruct (find _ (w_organizations w')) as [g' |];
    destruct (find _ (w_organizations w)) as [g |]; simpl in E;
    try discriminate E; [| reflexivity].
  injection E as E. rewrite E. reflexivity.
Qed.

Lemma get_next_invoice_number_run (organization : Organization) (w : World) :
  exists number same advanced,
    get_next_invoice_number organization w =
      (Ok number, upd_organizations (replace_row same advanced) w)
    /\ forall o, same o = true -> organization_id advanced = organization_id o.
Proof.
  unfold get_next_invoice_number, OrganizationRepository.get_by_id, gets, bind, modify, ret.
  eexists; eexists; eexists. split; [reflexivity |].
  intros o Ho. simpl. apply String.eqb_eq in Ho. symmetry. exact Ho.
Qed.

(** Splits a successful run at its first bind, naming the parts. *)
Ltac bind_inv_as H a w H' :=
  apply bind_Ok_inv in H; destruct H as (a & w & H' & H).

Section CheckoutPaths.

Variable uuid4 : nat -> uuid.
Variable TaxabilityReason_from_stripe : option string -> Z -> option TaxabilityReason.
Variable from_stripe_tax_rate_details : StripeTaxRateDetails -> option TaxRate.
Variable get_discount_amount : Discount -> Z -> Z.
Variable price_label : ProductPrice -> string.

#[local] Arguments _on_order_created : simpl never.

(** The tax data of a checkout: the checks it passed, and the log line that
    is all it may write. *)
Lemma checkout_tax_data_Ok (checkout : Checkout) (tax_amount : Z) (w w0 : World)
    (tax_data : option TaxabilityReason * option TaxRate) :
  checkout_tax_data TaxabilityReason_from_stripe from_stripe_tax_rate_details
    checkout tax_amount w = (Ok tax_data, w0) ->
  (w0 = w
   \/ w0 = upd_log (fun l => l ++ ["Multiple tax breakdowns found for checkout"]) w)
  /\ match checkout_tax_processor_id checkout with
     | None => True
     | Some tax_processor_id =>
         tax_amount =
           tax_calculation_tax_amount_exclusive
             (stripe_get_tax_calculation (w_stripe w) tax_processor_id)
         /\ tax_calculation_tax_breakdown
              (stripe_get_tax_calculation (w_stripe w) tax_processor_id) <> []
     end.
Proof.
  unfold checkout_tax_data. intros H.
  destruct (checkout_tax_processor_id checkout) as [tp |].
  - unfold gets at 1 in H. unfold bind at 1 in H.
    unfold assert in H. unfold bind at 1 in H.
    destruct (tax_amount =? _) eqn:Ht; [| discriminate H].
    apply Z.eqb_eq in Ht.
    unfold ret at 1 in H.
    destruct (tax_calculation_tax_breakdown _) as [| breakdown more] eqn:Hb;
      [discriminate H |].
    split; [| split; [exact Ht | discriminate]].
    unfold when, log_message, modify, bind, ret in H.
    destruct (isSome (hd_error more)); injection H as _ Hw; subst w0; auto.
  - unfold ret in H. injection H as _ Hw. subst w0. auto.
Qed.

(** What a conversion that went through returned and handed over. *)
Lemma create_from_checkout_Ok (checkout : Checkout) (payment : option Payment)
    (w w' : World) (order : Order) :
  create_from_checkout uuid4 TaxabilityReason_from_stripe from_stripe_tax_rate_details
    get_discount_amount price_label checkout payment w = (Ok order, w') ->
  exists customer,
    product_is_recurring (checkout_product checkout) = false
    /\ checkout_customer checkout = Some customer
    /\ (order_id order = uuid4 (w_next_uuid w)
        /\ order_status order = OrderStatus.paid
        /\ order_billing_reason order = OrderBillingReason.purchase
        /\ order_subtotal_amount order = checkout_amount checkout
        /\ order_discount_amount order = checkout_discount_amount get_discount_amount checkout
        /\ order_tax_amount order =
           match checkout_tax_amount checkout with Some a => a | None => 0 end
        /\ order_customer order = customer
        /\ order_product order = checkout_product checkout
        /\ order_subscription order = None
        /\ order_checkout order = Some checkout
        /\ order_items order =
           map (fun price =>
                  if is_custom_price price
                  then OrderItem_from_price price_label price 0
                         (Some (checkout_amount checkout))
                  else OrderItem_from_price price_label price 0 None)
               (product_prices (checkout_product checkout)))
    /\ match payment with
       | Some payment =>
           payment_amount payment = order_total_amount order
           /\ w_payments w' =
              replace_row (fun p => String.eqb (payment_id p) (payment_id payment))
                {| payment_id := payment_id payment;
                   payment_amount := payment_amount payment;
                   payment_processor_id := payment_processor_id payment;
                   payment_order_id := Some (order_id order) |}
                (w_payments w)
       | None => w_payments w' = w_payments w
       end
    /\ match checkout_tax_processor_id checkout with
       | Some tax_processor_id =>
           order_tax_amount order =
             tax_calculation_tax_amount_exclusive
               (stripe_get_tax_calculation (w_stripe w) tax_processor_id)
           /\ w_stripe_calls w' =
              w_stripe_calls w ++ [create_tax_transaction tax_processor_id (order_id order)]
           /\ order_tax_transaction_processor_id order =
              Some (stripe_tax_transaction_id (w_stripe w) tax_processor_id (order_id order))
       | None =>
           w_stripe_calls w' = w_stripe_calls w
           /\ order_tax_transaction_processor_id order = None
       end
    /\ w_jobs w' =
       w_jobs w
       ++ match payment with
          | Some payment => [balance_job order (payment_processor_id payment)]
          | None => []
          end
       ++ [ {| job_name := "benefit.enqueue_benefits_grants";
               job_kwargs := [("task", "grant"); ("customer_id", customer_id customer);
                              ("product_id", product_id (checkout_product checkout));
                              ("order_id", order_id order)] |};
            {| job_name := "order.discord_notification";
               job_kwargs := [("order_id", order_id order)] |} ]
    /\ w_webhooks w' =
       w_webhooks w
       ++ webhook_delivery order WebhookEventType.order_created w
       ++ webhook_delivery order WebhookEventType.order_paid w
    /\ w_notifications w' =
       w_notifications w
       ++ [ {| notification_org_id := product_organization_id (checkout_product checkout);
               notification_payload :=
                 MaintainerNewProductSaleNotificationPayload
                   (customer_email customer)
                   (product_name (checkout_product checkout))
                   (order_net_amount order)
                   (organization_slug (checkout_organization checkout)) |} ]
    /\ (exists email,
          w_emails w' = w_emails w ++ [email]
          /\ email_to_email_addr email = customer_email customer)
    /\ w_checkout_events w' =
       w_checkout_events w
       ++ [(checkout_client_secret checkout, CheckoutEvent.order_created)]
    /\ In order (w_orders w').
Proof.
  intros H. unfold create_from_checkout in H.
  destruct (product_is_recurring (checkout_product checkout)) eqn:Hrec; [discriminate H |].
  destruct (checkout_customer checkout) as [customer |] eqn:Hcust; [| discriminate H].
  exists customer. split; [reflexivity |]. split; [reflexivity |].
  bind_inv_as H tax_data w0 Htax.
  bind_inv_as H number w1 Hnumber.
  bind_inv_as H created w2 Hcreate.
  bind_inv_as H paid w3 Hpay.
  bind_inv_as H recorded w4 Htaxtx.
  bind_inv_as H granted w5 Hgrants.
  bind_inv_as H notified w6 Hadmin.
  bind_inv_as H mailed w7 Hemail.
  bind_inv_as H announced w8 Hcreated.
  unfold ret in H. injection H as Ho Hw. subst recorded w'.
  destruct (_on_order_created_run order w7) as (w8' & E & Hwebhooks & Hjobs & Hevents).
  rewrite E in Hcreated. injection Hcreated as _ Hw. subst w8'.
  pose proof (preserves_run w_orders _ _ _ _
                (_on_order_created_preserves w_orders order
                   (fun _ _ => eq_refl) (fun _ _ => eq_refl) (fun _ _ => eq_refl)) E)
    as Horders.
  pose proof (preserves_run w_payments _ _ _ _
                (_on_order_created_preserves w_payments order
                   (fun _ _ => eq_refl) (fun _ _ => eq_refl) (fun _ _ => eq_refl)) E)
    as Hpayments.
  pose proof (preserves_run w_stripe_calls _ _ _ _
                (_on_order_created_preserves w_stripe_calls order
                   (fun _ _ => eq_refl) (fun _ _ => eq_refl) (fun _ _ => eq_refl)) E)
    as Hcalls.
  pose proof (preserves_run w_notifications _ _ _ _
                (_on_order_created_preserves w_notifications order
                   (fun _ _ => eq_refl) (fun _ _ => eq_refl) (fun _ _ => eq_refl)) E)
    as Hnotes.
  pose proof (preserves_run w_emails _ _ _ _
                (_on_order_created_preserves w_emails order
                   (fun _ _ => eq_refl) (fun _ _ => eq_refl) (fun _ _ => eq_refl)) E)
    as Hemails.
  clear E.
  unfold send_confirmation_email, fresh_uuid, bind, modify in Hemail.
  injection Hemail as _ Hw. subst w7.
  unfold send_admin_notification, notifications_service.send_to_org_members, modify
    in Hadmin.
  injection Hadmin as _ Hw. subst w6.
  unfold enqueue_job, modify in Hgrants. injection Hgrants as _ Hw. subst w5.
  destruct (checkout_tax_data_Ok _ _ _ _ _ Htax) as [Hw0 Hchecked]. clear Htax.
  assert (Hframe :
    w_next_uuid w0 = w_next_uuid w /\ w_payments w0 = w_payments w
    /\ w_stripe_calls w0 = w_stripe_calls w /\ w_stripe w0 = w_stripe w
    /\ w_jobs w0 = w_jobs w /\ w_webhooks w0 = w_webhooks w
    /\ w_notifications w0 = w_notifications w /\ w_emails w0 = w_emails w
    /\ w_checkout_events w0 = w_checkout_events w
    /\ w_organizations w0 = w_organizations w)
    by (destruct Hw0 as [Hw0 | Hw0]; subst w0; repeat split; reflexivity).
  destruct Hframe as (Fuuid & Fpayments & Fcalls & Fstripe & Fjobs & Fwebhooks & Fnotes
                      & Femails & Fevents & Forgs).
  clear Hw0.
  destruct (get_next_invoice_number_run (checkout_organization checkout) w0)
    as (number' & same & advanced & En & Hids).
  rewrite En in Hnumber. injection Hnumber as Ha' Hw. subst number' w1. clear En.
  unfold OrderRepository_create, fresh_uuid, bind, modify, ret in Hcreate.
  match type of Hcreate with
  | context [set_order_id ?i ?d] => set (draft := d) in *
  end.
  injection Hcreate as Ha Hw. rewrite Ha in Hw. subst w2.
  simpl in Ha. rewrite Fuuid in Ha.
  assert (Hshape :
    order_id created = uuid4 (w_next_uuid w)
    /\ order_status created = OrderStatus.paid
    /\ order_billing_reason created = OrderBillingReason.purchase
    /\ order_subtotal_amount created = checkout_amount checkout
    /\ order_discount_amount created = checkout_discount_amount get_discount_amount checkout
    /\ order_tax_amount created =
       match checkout_tax_amount checkout with Some a => a | None => 0 end
    /\ order_customer created = customer
    /\ order_product created = checkout_product checkout
    /\ order_subscription created = None
    /\ order_checkout created = Some checkout
    /\ order_items created =
       map (fun price =>
              if is_custom_price price
              then OrderItem_from_price price_label price 0
                     (Some (checkout_amount checkout))
              else OrderItem_from_price price_label price 0 None)
           (product_prices (checkout_product checkout))
    /\ order_tax_transaction_processor_id created = None)
    by (subst created; repeat split; reflexivity).
  clear Ha. clearbody draft. clear draft.
  destruct Hshape as (Sid & Sstatus & Sreason & Ssub & Sdisc & Stax & Scust & Sprod
                      & Ssubscription & Scheckout & Sitems & Stx).
  assert (Hpaid :
    match payment with
    | Some p => payment_amount p = order_total_amount created
    | None => True
    end
    /\ w3 = match payment with
            | Some p =>
                upd_jobs (fun js => js ++ [balance_job created (payment_processor_id p)])
                  (upd_payments
                     (replace_row (fun p0 => String.eqb (payment_id p0) (payment_id p))
                        {| payment_id := payment_id p;
                           payment_amount := payment_amount p;
                           payment_processor_id := payment_processor_id p;
                           payment_order_id := Some (order_id created) |})
                     (upd_orders (fun l => l ++ [created])
                        (upd_next_uuid S
                           (upd_organizations (replace_row same advanced) w0))))
            | None =>
                upd_orders (fun l => l ++ [created])
                  (upd_next_uuid S (upd_organizations (replace_row same advanced) w0))
            end).
  { destruct payment as [p |].
    - unfold assert, PaymentRepository_update_order, enqueue_job, bind, modify, ret, raise
        in Hpay.
      destruct (payment_amount p =? order_total_amount created) eqn:Hamount;
        [| discriminate Hpay].
      apply Z.eqb_eq in Hamount. injection Hpay as _ Hw. subst w3.
      split; [exact Hamount | reflexivity].
    - unfold ret in Hpay. injection Hpay as _ Hw. subst w3. split; [exact I | reflexivity]. }
  clear Hpay. destruct Hpaid as [Hamount Hw3].
  assert (Hrecorded :
    match checkout_tax_processor_id checkout with
    | Some tp =>
        order = set_order_tax_transaction_processor_id
                  (Some (stripe_tax_transaction_id (w_stripe w3) tp (order_id created)))
                  created
        /\ w4 = upd_orders
                  (replace_row (fun o => String.eqb (order_id o) (order_id created)) order)
                  (upd_stripe_calls
                     (fun l => l ++ [create_tax_transaction tp (order_id created)]) w3)
    | None => order = created /\ w4 = w3
    end).
  { destruct (checkout_tax_processor_id checkout) as [tp |].
    - unfold stripe_create_tax_transaction, OrderRepository.update, bind, modify, gets, ret
        in Htaxtx.
      injection Htaxtx as Ho Hw. subst w4. split; [symmetry; exact Ho |].
      rewrite Ho. reflexivity.
    - unfold ret in Htaxtx. injection Htaxtx as Ho Hw. split; congruence. }
  clear Htaxtx.
  assert (Horder :
    order_id order = order_id created
    /\ order_status order = order_status created
    /\ order_billing_reason order = order_billing_reason created
    /\ order_subtotal_amount order = order_subtotal_amount created
    /\ order_discount_amount order = order_discount_amount created
    /\ order_tax_amount order = order_tax_amount created
    /\ order_customer order = order_customer created
    /\ order_product order = order_product created
    /\ order_subscription order = order_subscription created
    /\ order_checkout order = order_checkout created
    /\ order_items order = order_items created).
  { destruct (checkout_tax_processor_id checkout); destruct Hrecorded as [Ho _];
      subst order; repeat split; reflexivity. }
  destruct Horder as (Oid & Ostatus & Oreason & Osub & Odisc & Otax & Ocust & Oprod
                      & Osubscription & Ocheckout & Oitems).
  assert (Ototal : order_total_amount order = order_total_amount created)
    by (unfold order_total_amount, order_net_amount; congruence).
  assert (Onet : order_net_amount order = order_net_amount created)
    by (unfold order_net_amount; congruence).
  assert (Opaid : order_paid order = true)
    by (unfold order_paid; rewrite Ostatus, Sstatus; reflexivity).
  assert (Ocycle : grant_cycle_job order = [])
    by (unfold grant_cycle_job, order_subscription_id;
        rewrite Osubscription, Ssubscription; reflexivity).
  rewrite Opaid, Ocycle in Hjobs. rewrite Opaid in Hwebhooks. rewrite Ocheckout, Scheckout in Hevents.
  assert (Hdelivery : forall event_type world,
            w_organizations world = replace_row same advanced (w_organizations w0) ->
            webhook_delivery order event_type world
            = webhook_delivery order event_type w).
  { intros event_type world Hworld. apply webhook_delivery_ids. rewrite Hworld.
    rewrite (replace_row_organization_ids _ _ _ Hids). rewrite Forgs. reflexivity. }
  rewrite (Hdelivery WebhookEventType.order_created),
    (Hdelivery WebhookEventType.order_paid) in Hwebhooks
    by (destruct payment; destruct (checkout_tax_processor_id checkout);
        destruct Hrecorded as [_ Hw4]; subst w4 w3; reflexivity).
  split.
  { rewrite Oid, Ostatus, Oreason, Osub, Odisc, Otax, Ocust, Oprod, Osubscription,
      Ocheckout, Oitems.
    repeat split; assumption. }
  rewrite Ocust, Oprod, Scust, Sprod, Onet, Oid in *.
  unfold balance_job. rewrite Ototal, Oid, Otax.
  rewrite Hpayments, Hcalls, Hjobs, Hwebhooks, Hnotes, Hevents.
  assert (Hstripe : w_stripe w3 = w_stripe w)
    by (destruct payment; subst w3; simpl; exact Fstripe).
  assert (Hin : In order (w_orders w8)).
  { rewrite Horders.
    destruct payment; destruct (checkout_tax_processor_id checkout);
      destruct Hrecorded as [Ho Hw4]; subst w4 w3; simpl;
      try (unfold replace_row; rewrite map_app; simpl; rewrite String.eqb_refl);
      try rewrite Ho; apply in_or_app; right; left; reflexivity. }
  assert (Hmail : exists email,
            w_emails w8 = w_emails w ++ [email]
            /\ email_to_email_addr email = customer_email customer).
  { rewrite Hemails. eexists. split.
    - destruct payment; destruct (checkout_tax_processor_id checkout);
        destruct Hrecorded as [Ho Hw4]; subst w4 w3; simpl; rewrite Femails; reflexivity.
    - reflexivity. }
  clear Hemails Horders Hpayments Hcalls Hjobs Hwebhooks Hnotes Hevents.
  split.
  { destruct payment as [p |]; [split; [exact Hamount |] |];
      destruct (checkout_tax_processor_id checkout);
      destruct Hrecorded as [Ho Hw4]; subst w4 w3; simpl; rewrite Fpayments; reflexivity. }
  split.
  { destruct (checkout_tax_processor_id checkout) as [tp |];
      destruct Hrecorded as [Ho Hw4].
    - split; [rewrite Stax; apply Hchecked |].
      split.
      + destruct payment; subst w4 w3; simpl; rewrite Fcalls; reflexivity.
      + rewrite Ho. simpl. rewrite Hstripe. reflexivity.
    - split; [destruct payment; subst w4 w3; simpl; exact Fcalls |].
      rewrite Ho. exact Stx. }
  split.
  { destruct payment; destruct (checkout_tax_processor_id checkout);
      destruct Hrecorded as [Ho Hw4]; subst w4 w3; simpl; rewrite Fjobs;
      rewrite <- !app_assoc; reflexivity. }
  split.
  { destruct payment; destruct (checkout_tax_processor_id checkout);
      destruct Hrecorded as [Ho Hw4]; subst w4 w3; simpl; rewrite Fwebhooks;
      reflexivity. }
  split.
  { destruct payment; destruct (checkout_tax_processor_id checkout);
      destruct Hrecorded as [Ho Hw4]; subst w4 w3; simpl; rewrite Fnotes;
      reflexivity. }
  split; [exact Hmail |].
  split; [| exact Hin].
  destruct payment; destruct (checkout_tax_processor_id checkout);
    destruct Hrecorded as [Ho Hw4]; subst w4 w3; simpl; rewrite Fevents;
    reflexivity.
Qed.
(** X10.  What a checkout order sets in motion.  A conversion that goes
    through queues, in this order, the ["order.balance"] job of the order for
    the processor id of the payment as charge, when a payment is given and
    only then, the benefit grants of the customer for the product, and the
    discord notification; it never queues the benefit-grant cycle, which is
    for renewals.  Since the order is created paid, it sends the
    [order_created] and then the [order_paid] webhook, each delivered when
    the organization of the product is on record.  The members of that
    organization are notified of the sale at its net amount, the customer is
    sent one confirmation at the address on record, and the checkout is told
    that its order exists. *)
Theorem create_from_checkout_outbox
    (checkout : Checkout) (payment : option Payment) (w w' : World) (order : Order) :
  create_from_checkout uuid4 TaxabilityReason_from_stripe from_stripe_tax_rate_details
    get_discount_amount price_label checkout payment w = (Ok order, w') ->
  exists customer email,
    checkout_customer checkout = Some customer
    /\ w_jobs w' =
       w_jobs w
       ++ match payment with
          | Some payment => [balance_job order (payment_processor_id payment)]
          | None => []
          end
       ++ [ {| job_name := "benefit.enqueue_benefits_grants";
               job_kwargs := [("task", "grant"); ("customer_id", customer_id customer);
                              ("product_id", product_id (checkout_product checkout));
                              ("order_id", order_id order)] |};
            {| job_name := "order.discord_notification";
               job_kwargs := [("order_id", order_id order)] |} ]
    /\ grant_cycle_jobs w' = grant_cycle_jobs w
    /\ w_webhooks w' =
       w_webhooks w
       ++ webhook_delivery order WebhookEventType.order_created w
       ++ webhook_delivery order WebhookEventType.order_paid w
    /\ w_notifications w' =
       w_notifications w
       ++ [ {| notification_org_id := product_organization_id (checkout_product checkout);
               notification_payload :=
                 MaintainerNewProductSaleNotificationPayload
                   (customer_email customer)
                   (product_name (checkout_product checkout))
                   (order_subtotal_amount order - order_discount_amount order)
                   (organization_slug (checkout_organization checkout)) |} ]
    /\ w_emails w' = w_emails w ++ [email]
    /\ email_to_email_addr email = customer_email customer
    /\ w_checkout_events w' =
       w_checkout_events w
       ++ [(checkout_client_secret checkout, CheckoutEvent.order_created)].
Proof.
  intros H.
  destruct (create_from_checkout_Ok _ _ _ _ _ H)
    as (customer & _ & Hcust & _ & _ & _ & Hjobs & Hwebhooks & Hnotes
        & (email & Hemails & Hto) & Hevents & _).
  exists customer, email.
  split; [exact Hcust |]. split; [exact Hjobs |].
  split.
  { unfold grant_cycle_jobs. rewrite Hjobs, !filter_app.
    destruct payment; simpl; rewrite app_nil_r; reflexivity. }
  split; [exact Hwebhooks |]. split; [exact Hnotes |].
  split; [exact Hemails |]. split; [exact Hto | exact Hevents].
Qed.

(** X11.  The order a checkout becomes.  A conversion that goes through
    returns a paid order of billing reason purchase, for the customer and the
    product of the checkout, tied to the checkout and to no subscription,
    under a freshly drawn identifier, and the order is on record.  Its
    subtotal is the amount of the checkout, so its total is that amount less
    the discount plus the tax recorded on the checkout.  It has one item per
    price of the product, in their order, and the item of a custom price
    carries the amount of the checkout.  A payment that was given is of
    exactly the total of the order and is now linked to it.  With a tax
    processor id, the tax of the order is the one the processor calculated,
    and one tax transaction was recorded at the processor under the
    identifier of the order, whose reference the order keeps; without one,
    the processor is not called. *)
Theorem create_from_checkout_order
    (checkout : Checkout) (payment : option Payment) (w w' : World) (order : Order) :
  create_from_checkout uuid4 TaxabilityReason_from_stripe from_stripe_tax_rate_details
    get_discount_amount price_label checkout payment w = (Ok order, w') ->
  order_status order = OrderStatus.paid
  /\ order_billing_reason order = OrderBillingReason.purchase
  /\ checkout_customer checkout = Some (order_customer order)
  /\ order_product order = checkout_product checkout
  /\ order_checkout order = Some checkout
  /\ order_subscription order = None
  /\ order_id order = uuid4 (w_next_uuid w)
  /\ In order (w_orders w')
  /\ order_total_amount order =
     checkout_amount checkout
     - checkout_discount_amount get_discount_amount checkout
     + match checkout_tax_amount checkout with Some a => a | None => 0 end
  /\ Forall2 (fun price item =>
                order_item_product_price item = Some price
                /\ (is_custom_price price = true ->
                    order_item_amount item = checkout_amount checkout))
       (product_prices (checkout_product checkout)) (order_items order)
  /\ (forall p, payment = Some p ->
        payment_amount p = order_total_amount order
        /\ forall row, In row (w_payments w') ->
             payment_id row = payment_id p -> payment_order_id row = Some (order_id order))
  /\ match checkout_tax_processor_id checkout with
     | Some tax_processor_id =>
         order_tax_amount order =
           tax_calculation_tax_amount_exclusive
             (stripe_get_tax_calculation (w_stripe w) tax_processor_id)
         /\ w_stripe_calls w' =
            w_stripe_calls w ++ [create_tax_transaction tax_processor_id (order_id order)]
         /\ order_tax_transaction_processor_id order =
            Some (stripe_tax_transaction_id (w_stripe w) tax_processor_id (order_id order))
     | None =>
         w_stripe_calls w' = w_stripe_calls w
         /\ order_tax_transaction_processor_id order = None
     end.
Proof.
  intros H.
  destruct (create_from_checkout_Ok _ _ _ _ _ H)
    as (customer & _ & Hcust
        & (Sid & Sstatus & Sreason & Ssub & Sdisc & Stax & Scust & Sprod & Ssubscription
           & Scheckout & Sitems)
        & Hpay & Htax & _ & _ & _ & _ & _ & Hin).
  split; [exact Sstatus |]. split; [exact Sreason |].
  split; [rewrite Scust; exact Hcust |]. split; [exact Sprod |].
  split; [exact Scheckout |]. split; [exact Ssubscription |].
  split; [exact Sid |]. split; [exact Hin |].
  split; [unfold order_total_amount, order_net_amount; rewrite Ssub, Sdisc, Stax;
          reflexivity |].
  split.
  { rewrite Sitems.
    clear. generalize (product_prices (checkout_product checkout)) as prices.
    induction prices as [| price prices IH]; simpl; [constructor |].
    constructor; [| exact IH].
    unfold is_custom_price, OrderItem_from_price.
    destruct (product_price_amount_type price); simpl; split;
      first [reflexivity | intros Hc; discriminate Hc]. }
  split; [| exact Htax].
  intros p Hp. subst payment. destruct Hpay as [Hamount Hrows].
  split; [exact Hamount |].
  intros row Hrow Hid. rewrite Hrows in Hrow. unfold replace_row in Hrow.
  apply in_map_iff in Hrow. destruct Hrow as (row0 & Hrow0 & _).
  destruct (String.eqb (payment_id row0) (payment_id p)) eqn:Hsame.
  - subst row. reflexivity.
  - subst row. apply String.eqb_neq in Hsame. contradiction.
Qed.

Lemma bind_Err_inv {A B} (m : M A) (k : A -> M B) (w w2 : World) (e : Error) :
  bind m k w = (Err e, w2) ->
  m w = (Err e, w2) \/ exists a w1, m w = (Ok a, w1) /\ k a w1 = (Err e, w2).
Proof.
  unfold bind. destruct (m w) as [[a | e'] w1]; intros H.
  - right. exists a, w1. split; [reflexivity | exact H].
  - left. injection H as He Hw. subst. reflexivity.
Qed.

Lemma checkout_tax_data_Err (checkout : Checkout) (tax_amount : Z) (w w0 : World)
    (e : Error) :
  checkout_tax_data TaxabilityReason_from_stripe from_stripe_tax_rate_details
    checkout tax_amount w = (Err e, w0) ->
  e = AssertionError /\ w0 = w
  /\ exists tax_processor_id,
       checkout_tax_processor_id checkout = Some tax_processor_id
       /\ (tax_amount <>
             tax_calculation_tax_amount_exclusive
               (stripe_get_tax_calculation (w_stripe w) tax_processor_id)
           \/ tax_calculation_tax_breakdown
                (stripe_get_tax_calculation (w_stripe w) tax_processor_id) = []).
Proof.
  unfold checkout_tax_data. intros H.
  destruct (checkout_tax_processor_id checkout) as [tp |]; [| discriminate H].
  unfold gets at 1 in H. unfold bind at 1 in H.
  unfold assert in H. unfold bind at 1 in H.
  destruct (tax_amount =? _) eqn:Ht.
  - unfold ret at 1 in H.
    destruct (tax_calculation_tax_breakdown _) as [| breakdown more] eqn:Hb.
    + unfold raise in H. injection H as He Hw. subst.
      split; [reflexivity |]. split; [reflexivity |].
      exists tp. split; [reflexivity | right; exact Hb].
    + unfold when, log_message, modify, bind, ret in H.
      destruct (isSome (hd_error more)); discriminate H.
  - unfold raise in H. injection H as He Hw. subst.
    split; [reflexivity |]. split; [reflexivity |].
    exists tp. split; [reflexivity |]. left. apply Z.eqb_neq. exact Ht.
Qed.

(** The steps of a conversion that follow the payment never fail, and the
    order they return is the one created, with the reference of the tax
    transaction when there is a tax processor id. *)
Lemma checkout_tail_run (checkout : Checkout) (customer : Customer) (created : Order)
    (w : World) :
  exists w',
    (order <-
       match checkout_tax_processor_id checkout with
       | Some tax_processor_id =>
           transaction <- stripe_create_tax_transaction tax_processor_id (order_id created) ;;
           OrderRepository.update created
             (set_order_tax_transaction_processor_id (Some transaction))
       | None => ret created
       end ;;
     enqueue_job "benefit.enqueue_benefits_grants"
       [("task", "grant"); ("customer_id", customer_id customer);
        ("product_id", product_id (checkout_product checkout));
        ("order_id", order_id order)] ;;;
     send_admin_notification (checkout_organization checkout) order ;;;
     send_confirmation_email uuid4 (checkout_organization checkout) order ;;;
     _on_order_created order ;;;
     ret order) w
    = (Ok match checkout_tax_processor_id checkout with
          | Some tax_processor_id =>
              set_order_tax_transaction_processor_id
                (Some (stripe_tax_transaction_id (w_stripe w) tax_processor_id
                         (order_id created)))
                created
          | None => created
          end, w').
Proof.
  destruct (checkout_tax_processor_id checkout) as [tp |];
    unfold stripe_create_tax_transaction, OrderRepository.update, enqueue_job,
      send_admin_notification, send_confirmation_email, fresh_uuid,
      notifications_service.send_to_org_members, bind, modify, gets, ret;
    match goal with
    | |- context [_on_order_created ?o ?wx] =>
        destruct (_on_order_created_Ok o wx) as [w' E]; rewrite E
    end;
    exists w'; reflexivity.
Qed.

Lemma OrderRepository_create_run (order : Order) (w : World) :
  OrderRepository_create uuid4 order w =
  (Ok (set_order_id (uuid4 (w_next_uuid w)) order),
   upd_orders (fun l => l ++ [set_order_id (uuid4 (w_next_uuid w)) order])
     (upd_next_uuid S w)).
Proof. reflexivity. Qed.

(** The failing runs of [create_from_checkout], with the payment processor
    answering every call: the two refusals and the two assertions. *)
Lemma create_from_checkout_Err
    (checkout : Checkout) (payment : option Payment) (w w' : World) (e : Error) :
  create_from_checkout uuid4 TaxabilityReason_from_stripe from_stripe_tax_rate_details
    get_discount_amount price_label checkout payment w = (Err e, w') ->
  (product_is_recurring (checkout_product checkout) = true
   /\ e = RecurringProduct (checkout_id checkout) (product_id (checkout_product checkout))
   /\ w' = w)
  \/ (product_is_recurring (checkout_product checkout) = false
      /\ checkout_customer checkout = None
      /\ e = MissingCheckoutCustomer (checkout_id checkout)
      /\ w' = w)
  \/ (e = AssertionError
      /\ w' = w
      /\ exists tax_processor_id,
           checkout_tax_processor_id checkout = Some tax_processor_id
           /\ (match checkout_tax_amount checkout with Some a => a | None => 0 end <>
                 tax_calculation_tax_amount_exclusive
                   (stripe_get_tax_calculation (w_stripe w) tax_processor_id)
               \/ tax_calculation_tax_breakdown
                    (stripe_get_tax_calculation (w_stripe w) tax_processor_id) = []))
  \/ (e = AssertionError
      /\ (exists p,
            payment = Some p
            /\ payment_amount p <>
               checkout_amount checkout
               - checkout_discount_amount get_discount_amount checkout
               + match checkout_tax_amount checkout with Some a => a | None => 0 end)
      /\ w_payments w' = w_payments w
      /\ w_jobs w' = w_jobs w
      /\ w_webhooks w' = w_webhooks w
      /\ w_notifications w' = w_notifications w
      /\ w_emails w' = w_emails w
      /\ w_stripe_calls w' = w_stripe_calls w).
Proof.
  intros H. unfold create_from_checkout in H.
  destruct (product_is_recurring (checkout_product checkout)) eqn:Hrec.
  { left. unfold raise in H. injection H as He Hw. subst. auto. }
  destruct (checkout_customer checkout) as [customer |] eqn:Hcust.
  2:{ right. left. unfold raise in H. injection H as He Hw. subst. auto. }
  right. right.
  apply bind_Err_inv in H. destruct H as [Htax | (tax_data & w0 & Htax & H)].
  { left. apply checkout_tax_data_Err in Htax. exact Htax. }
  right.
  destruct (checkout_tax_data_Ok _ _ _ _ _ Htax) as [Hw0 _]. clear Htax.
  destruct (get_next_invoice_number_run (checkout_organization checkout) w0)
    as (number & same & advanced & En & _).
  rewrite (bind_Ok _ _ _ _ _ En) in H. clear En.
  rewrite (bind_Ok _ _ _ _ _ (OrderRepository_create_run _ _)) in H.
  match type of H with
  | context [set_order_id ?i ?d] => set (created := set_order_id i d) in *
  end.
  apply bind_Err_inv in H. destruct H as [Hpay | (paid & w3 & Hpay & H)].
  - destruct payment as [p |]; [| discriminate Hpay].
    unfold assert, PaymentRepository_update_order, enqueue_job, bind, modify, ret, raise
      in Hpay.
    destruct (payment_amount p =? order_total_amount created) eqn:Hamount;
      [discriminate Hpay |].
    injection Hpay as He Hw. subst e w'.
    split; [reflexivity |].
    split; [exists p; split; [reflexivity | apply Z.eqb_neq; exact Hamount] |].
    destruct Hw0 as [Hw0 | Hw0]; subst w0; repeat split; reflexivity.
  - exfalso.
    destruct (checkout_tail_run checkout customer created w3) as [w9 E].
    pose proof (eq_trans (eq_sym E) H) as Hno. discriminate Hno.
Qed.

(** X12.  The refusals and the assertions of a conversion.  A checkout of a
    recurring product is refused with [RecurringProduct], whatever else
    holds of it; a checkout of a one-time product without a customer is
    refused with [MissingCheckoutCustomer]; in both cases nothing is
    written, and the two errors arise in no other way.  When a conversion
    fails on an assertion, one of two things holds.  Either the checkout has
    a tax processor id and its tax is not the one the processor calculated,
    or the calculation has no breakdown: this is found before anything is
    written.  Or a payment was passed whose amount is not the total of the
    order, amount less discount plus tax: this is found before the payment
    is linked and before any job, webhook, notification or mail goes out,
    and no tax transaction has been created at the processor. *)
Theorem create_from_checkout_failure_modes
    (checkout : Checkout) (payment : option Payment) (w : World) :
  (product_is_recurring (checkout_product checkout) = true ->
   create_from_checkout uuid4 TaxabilityReason_from_stripe from_stripe_tax_rate_details
     get_discount_amount price_label checkout payment w =
   (Err (RecurringProduct (checkout_id checkout) (product_id (checkout_product checkout))),
    w))
  /\ (product_is_recurring (checkout_product checkout) = false ->
      checkout_customer checkout = None ->
      create_from_checkout uuid4 TaxabilityReason_from_stripe from_stripe_tax_rate_details
        get_discount_amount price_label checkout payment w =
      (Err (MissingCheckoutCustomer (checkout_id checkout)), w))
  /\ (forall e w',
      create_from_checkout uuid4 TaxabilityReason_from_stripe from_stripe_tax_rate_details
        get_discount_amount price_label checkout payment w = (Err e, w') ->
      ((exists c p, e = RecurringProduct c p) ->
       product_is_recurring (checkout_product checkout) = true)
      /\ ((exists c, e = MissingCheckoutCustomer c) ->
          product_is_recurring (checkout_product checkout) = false
          /\ checkout_customer checkout = None)
      /\ (e = AssertionError ->
          (w' = w
           /\ exists tax_processor_id,
                checkout_tax_processor_id checkout = Some tax_processor_id
                /\ (match checkout_tax_amount checkout with Some a => a | None => 0 end <>
                      tax_calculation_tax_amount_exclusive
                        (stripe_get_tax_calculation (w_stripe w) tax_processor_id)
                    \/ tax_calculation_tax_breakdown
                         (stripe_get_tax_calculation (w_stripe w) tax_processor_id) = []))
          \/ ((exists p,
                 payment = Some p
                 /\ payment_amount p <>
                    checkout_amount checkout
                    - checkout_discount_amount get_discount_amount checkout
                    + match checkout_tax_amount checkout with Some a => a | None => 0 end)
              /\ w_payments w' = w_payments w
              /\ w_jobs w' = w_jobs w
              /\ w_webhooks w' = w_webhooks w
              /\ w_notifications w' = w_notifications w
              /\ w_emails w' = w_emails w
              /\ (forall tax_processor_id reference,
                    In (create_tax_transaction tax_processor_id reference)
                       (w_stripe_calls w') ->
                    In (create_tax_transaction tax_processor_id reference)
                       (w_stripe_calls w))))).
Proof.
  split; [| split].
  - intros Hrec. unfold create_from_checkout. rewrite Hrec. reflexivity.
  - intros Hrec Hcust. unfold create_from_checkout. rewrite Hrec, Hcust. reflexivity.
  - intros e w' H.
    destruct (create_from_checkout_Err checkout payment w w' e H)
      as [(Hrec & He & Hw) | [(Hrec & Hcust & He & Hw) | [(He & Hw & Htax) | (He & Hp)]]].
    + split; [intros _; exact Hrec |].
      split; [intros [c Hc]; rewrite Hc in He; discriminate He |].
      intros Ha. rewrite Ha in He. discriminate He.
    + split; [intros (c & p & Hc); rewrite Hc in He; discriminate He |].
      split; [intros _; split; assumption |].
      intros Ha. rewrite Ha in He. discriminate He.
    + split; [intros (c & p & Hc); rewrite Hc in He; discriminate He |].
      split; [intros [c Hc]; rewrite Hc in He; discriminate He |].
      intros _. left. split; assumption.
    + split; [intros (c & p & Hc); rewrite Hc in He; discriminate He |].
      split; [intros [c Hc]; rewrite Hc in He; discriminate He |].
      intros _. right.
      destruct Hp as (Hpay & Hpayments & Hjobs & Hwebhooks & Hnotes & Hemails & Hcalls).
      split; [exact Hpay |]. split; [exact Hpayments |]. split; [exact Hjobs |].
      split; [exact Hwebhooks |]. split; [exact Hnotes |]. split; [exact Hemails |].
      intros tp reference Hin. rewrite Hcalls in Hin. exact Hin.
Qed.

(** X13.  The payment is checked against the order and decides nothing
    else.  When a checkout converts without a payment, it converts with a
    payment of the total of that order too, to the very same order; and with
    a payment of any other amount it fails on its assertion, having linked no
    payment, queued no job, and sent no webhook, notification or mail. *)
Theorem create_from_checkout_payment_checked
    (checkout : Checkout) (p : Payment) (w w1 : World) (order : Order) :
  create_from_checkout uuid4 TaxabilityReason_from_stripe from_stripe_tax_rate_details
    get_discount_amount price_label checkout None w = (Ok order, w1) ->
  exists r w2,
    create_from_checkout uuid4 TaxabilityReason_from_stripe from_stripe_tax_rate_details
      get_discount_amount price_label checkout (Some p) w = (r, w2)
    /\ (payment_amount p = order_total_amount order -> r = Ok order)
    /\ (payment_amount p <> order_total_amount order ->
        r = Err AssertionError
        /\ w_payments w2 = w_payments w
        /\ w_jobs w2 = w_jobs w
        /\ w_webhooks w2 = w_webhooks w
        /\ w_notifications w2 = w_notifications w
        /\ w_emails w2 = w_emails w).
Proof.
  intros H. unfold create_from_checkout in H |- *.
  destruct (product_is_recurring (checkout_product checkout)); [discriminate H |].
  destruct (checkout_customer checkout) as [customer |]; [| discriminate H].
  bind_inv_as H tax_data w0 Htax.
  rewrite (bind_Ok _ _ _ _ _ Htax).
  destruct (checkout_tax_data_Ok _ _ _ _ _ Htax) as [Hw0 _]. clear Htax.
  destruct (get_next_invoice_number_run (checkout_organization checkout) w0)
    as (number & same & advanced & En & _).
  rewrite (bind_Ok _ _ _ _ _ En) in H. rewrite (bind_Ok _ _ _ _ _ En). clear En.
  rewrite (bind_Ok _ _ _ _ _ (OrderRepository_create_run _ _)) in H.
  rewrite (bind_Ok _ _ _ _ _ (OrderRepository_create_run _ _)).
  match type of H with
  | context [set_order_id ?i ?d] => set (created := set_order_id i d) in *
  end.
  match type of H with
  | bind _ _ ?wc = _ => set (w2 := wc) in *
  end.
  rewrite (bind_Ok _ _ _ _ _ (eq_refl : ret tt w2 = (Ok tt, w2))) in H.
  destruct (checkout_tail_run checkout customer created w2) as [w9 E].
  pose proof (eq_trans (eq_sym E) H) as Hsame. injection Hsame as Ho Hw. clear E H.
  assert (Htotal : order_total_amount order = order_total_amount created)
    by (rewrite <- Ho; destruct (checkout_tax_processor_id checkout); reflexivity).
  rewrite Htotal.
  assert (Hcases : (payment_amount p =? order_total_amount created) = true
                   \/ (payment_amount p =? order_total_amount created) = false)
    by (destruct (payment_amount p =? order_total_amount created); auto).
  destruct Hcases as [Hamount | Hamount].
  - match goal with
    | |- exists r wz, bind ?m ?k ?wx = _ /\ _ =>
        assert (Epay : exists w3, m wx = (Ok tt, w3) /\ w_stripe w3 = w_stripe wx)
          by (unfold assert; rewrite Hamount; eexists; split; reflexivity)
    end.
    destruct Epay as (w3 & Epay & Hstripe).
    rewrite (bind_Ok _ _ _ _ _ Epay).
    destruct (checkout_tail_run checkout customer created w3) as [w10 E].
    eexists; eexists. split; [exact E |].
    split.
    + intros _. rewrite <- Ho, Hstripe. reflexivity.
    + intros Hne. apply Z.eqb_eq in Hamount. contradiction.
  - match goal with
    | |- exists r wz, bind ?m ?k ?wx = _ /\ _ =>
        assert (Epay : m wx = (Err AssertionError, wx))
          by (unfold assert; rewrite Hamount; reflexivity)
    end.
    rewrite (bind_Err _ _ _ _ _ Epay).
    eexists; eexists. split; [reflexivity |].
    split.
    + intros Heq. apply Z.eqb_neq in Hamount. contradiction.
    + intros _. split; [reflexivity |].
      unfold w2. destruct Hw0 as [Hw0 | Hw0]; subst w0; repeat split; reflexivity.
Qed.

End CheckoutPaths.

(** The instance on the checkout of the tip jar, paid with a payment of its
    amount. *)
Lemma create_from_checkout_outbox_witness :
  exists email,
    w_emails (snd (Demo.conversion (Some (Demo.payment 10000)))) =
      w_emails Demo.checkout_world ++ [email]
    /\ email_to_email_addr email = customer_email Demo.customer
    /\ grant_cycle_jobs (snd (Demo.conversion (Some (Demo.payment 10000)))) =
       grant_cycle_jobs Demo.checkout_world.
Proof.
  pose proof (create_from_checkout_outbox Demo.uuid4 Demo.TaxabilityReason_from_stripe
                Demo.from_stripe_tax_rate_details Demo.get_discount_amount Demo.price_label
                (Demo.checkout None) (Some (Demo.payment 10000)) Demo.checkout_world
                (snd (Demo.conversion (Some (Demo.payment 10000))))
                Demo.converted_order) as T.
  match type of T with
  | ?P -> _ => assert (H : P) by (vm_compute; reflexivity)
  end.
  destruct (T H) as (customer & email & Hc & _ & Hg & _ & _ & He & Ht & _).
  exists email. vm_compute in Hc. injection Hc as Hc. subst customer.
  split; [exact He |]. split; [exact Ht | exact Hg].
Defined.

(** The instance on the checkout of the tip jar: the order is of 10000 and
    is on record. *)
Lemma create_from_checkout_order_witness :
  order_total_amount Demo.converted_order = 10000
  /\ order_status Demo.converted_order = OrderStatus.paid
  /\ In Demo.converted_order (w_orders (snd (Demo.conversion None))).
Proof.
  pose proof (create_from_checkout_order Demo.uuid4 Demo.TaxabilityReason_from_stripe
                Demo.from_stripe_tax_rate_details Demo.get_discount_amount Demo.price_label
                (Demo.checkout None) None Demo.checkout_world
                (snd (Demo.conversion None)) Demo.converted_order) as T.
  match type of T with
  | ?P -> _ => assert (H : P) by (vm_compute; reflexivity)
  end.
  destruct (T H) as (Hs & _ & _ & _ & _ & _ & _ & Hin & Htotal & _).
  split; [exact Htotal |]. split; [exact Hs | exact Hin].
Defined.

(** The instance on the checkout of the tip jar with a payment of 9999: the
    failed conversion queued nothing. *)
Lemma create_from_checkout_failure_modes_witness :
  fst (Demo.conversion (Some (Demo.payment 9999))) = Err AssertionError
  /\ w_jobs (snd (Demo.conversion (Some (Demo.payment 9999)))) = w_jobs Demo.checkout_world.
Proof.
  split; [vm_compute; reflexivity |].
  pose proof (proj2 (proj2 (create_from_checkout_failure_modes Demo.uuid4
                Demo.TaxabilityReason_from_stripe Demo.from_stripe_tax_rate_details
                Demo.get_discount_amount Demo.price_label
                (Demo.checkout None) (Some (Demo.payment 9999)) Demo.checkout_world))
                AssertionError
                (snd (Demo.conversion (Some (Demo.payment 9999))))) as T.
  match type of T with
  | ?P -> _ => assert (H : P) by (vm_compute; reflexivity)
  end.
  destruct (T H) as (_ & _ & Hassert).
  destruct (Hassert eq_refl) as [(_ & tp & Htp & _) | Hp].
  - vm_compute in Htp. discriminate Htp.
  - destruct Hp as (_ & _ & Hj & _). exact Hj.
Defined.

(** The instance on the checkout of the tip jar: a payment of 10000 yields
    the order of the conversion without payment, a payment of 9999 fails. *)
Lemma create_from_checkout_payment_checked_witness :
  exists r w2,
    create_from_checkout Demo.uuid4 Demo.TaxabilityReason_from_stripe
      Demo.from_stripe_tax_rate_details Demo.get_discount_amount Demo.price_label
      (Demo.checkout None) (Some (Demo.payment 9999)) Demo.checkout_world = (r, w2)
    /\ r = Err AssertionError
    /\ w_jobs w2 = w_jobs Demo.checkout_world.
Proof.
  pose proof (create_from_checkout_payment_checked Demo.uuid4
                Demo.TaxabilityReason_from_stripe Demo.from_stripe_tax_rate_details
                Demo.get_discount_amount Demo.price_label
                (Demo.checkout None) (Demo.payment 9999) Demo.checkout_world
                (snd (Demo.conversion None)) Demo.converted_order) as T.
  match type of T with
  | ?P -> _ => assert (H : P) by (vm_compute; reflexivity)
  end.
  destruct (T H) as (r & w2 & E & _ & Hne).
  exists r, w2. split; [exact E |].
  assert (Hdiff : payment_amount (Demo.payment 9999)
                  <> order_total_amount Demo.converted_order)
    by (vm_compute; discriminate).
  destruct (Hne Hdiff) as (Hr & _ & Hj & _).
  split; [exact Hr | exact Hj].
Defined.

(** ** The creation path *)

Ltac stage_head t :=
  lazymatch t with
  | ?f _ => stage_head f
  | _ => t
  end.

(** Splits a stage of a path along its definition. *)
Ltac frame_tac :=
  repeat first [ apply preserves_fresh_uuid; intros; reflexivity
               | preserves_step
               | match goal with
                 | |- preserves _ ?m => let h := stage_head m in unfold h
                 end ].

(** The part of the world a stage left alone, read off its run. *)
Ltac stage_frame part H E :=
  match type of H with
  | ?m ?w = (?r, ?w') =>
      assert (E : part w' = part w)
        by (apply (preserves_run part m w w' r); [frame_tac | exact H])
  end.

Section StripePaths.

Variable uuid4 : nat -> uuid.
Variable UUID : string -> option uuid.
Variable TaxabilityReason_from_stripe : option string -> Z -> option TaxabilityReason.
Variable from_stripe_tax_rate : StripeTaxRate -> option TaxRate.
Variable stripe_descriptor_suffix_max_length : nat.

#[local] Arguments _on_order_created : simpl never.

Lemma get_discount_read_only (invoice : Invoice) (id : string) :
  preserves (fun w => w) (get_discount UUID invoice id).
Proof. frame_tac. Qed.

Lemma get_checkout_read_only (invoice : Invoice) (id : string) :
  preserves (fun w => w) (get_checkout UUID invoice id).
Proof. frame_tac. Qed.

Lemma order_items_read_only (lines : list InvoiceLine) :
  preserves (fun w => w) (map_m (order_item_of_line UUID) lines).
Proof. frame_tac. Qed.

(** A draft invoice is replaced by its reloaded state when pending entries
    were added; any other invoice goes through as it is. *)
Lemma handle_draft_Ok (customer : Customer) (subscription : Subscription)
    (invoice : Invoice) (id : string) (items : list OrderItem) (w w' : World)
    (drafted : list OrderItem * Invoice) :
  handle_draft stripe_descriptor_suffix_max_length customer subscription invoice id items w
    = (Ok drafted, w') ->
  (invoice_status invoice <> Some "draft" -> drafted = (items, invoice) /\ w' = w)
  /\ (snd drafted = invoice
      \/ (invoice_status invoice = Some "draft"
          /\ snd drafted = stripe_get_invoice (w_stripe w) id))
  /\ (exists pending_items, fst drafted = items ++ pending_items)
  /\ (invoice_status invoice = Some "draft" ->
      exists final_id,
        invoice_id (snd drafted) = Some final_id
        /\ w_stripe_calls w' =
           w_stripe_calls w
           ++ [update_invoice final_id
                 (str_take stripe_descriptor_suffix_max_length
                    (organization_name (subscription_organization subscription)))]
        /\ (forall s,
              w_pending_entries w' s =
              if String.eqb s (subscription_id subscription) then []
              else w_pending_entries w s)
        /\ fst drafted = items ++ w_pending_entries w (subscription_id subscription)).
Proof.
  unfold handle_draft. intros H.
  destruct (option_eqb String.eqb (invoice_status invoice) (Some "draft")) eqn:Hdraft.
  - assert (Hstatus : invoice_status invoice = Some "draft").
    { destruct (invoice_status invoice) as [s |]; [| discriminate Hdraft].
      simpl in Hdraft. apply String.eqb_eq in Hdraft. subst s. reflexivity. }
    split; [intros Hne; contradiction |].
    destruct (customer_stripe_customer_id customer) as [stripe_customer_id |];
      [| discriminate H].
    unfold create_order_items_from_pending in H.
    unfold gets, modify, bind, ret, raise in H.
    destruct (w_pending_entries w (subscription_id subscription))
      as [| entry pending] eqn:Hentries; simpl in H.
    + destruct (invoice_id invoice) as [final_id |] eqn:Hid; [| discriminate H].
      injection H as Hd Hw. subst drafted w'. simpl.
      split; [left; reflexivity |].
      split; [exists []; reflexivity |].
      intros _. exists final_id. repeat split; [exact Hid].
    + destruct (invoice_id (stripe_get_invoice (w_stripe w) id)) as [final_id |] eqn:Hid;
        [| discriminate H].
      injection H as Hd Hw. subst drafted w'. simpl.
      split; [right; split; [exact Hstatus | reflexivity] |].
      split; [exists (entry :: pending); reflexivity |].
      intros _. exists final_id. repeat split; [exact Hid].
  - unfold ret in H. injection H as Hd Hw. subst drafted w'. simpl.
    split; [intros _; split; reflexivity |].
    split; [left; reflexivity |].
    split; [exists []; symmetry; apply app_nil_r |].
    intros Hstatus. rewrite Hstatus in Hdraft. discriminate Hdraft.
Qed.

Lemma determine_billing_reason_Ok (invoice : Invoice) (w w' : World)
    (billing_reason : OrderBillingReason.t) :
  determine_billing_reason invoice w = (Ok billing_reason, w') ->
  billing_reason =
  match invoice_billing_reason invoice with
  | None => OrderBillingReason.subscription_cycle
  | Some reason =>
      match OrderBillingReason.of_value reason with
      | Some known => known
      | None => OrderBillingReason.subscription_cycle
      end
  end.
Proof.
  unfold determine_billing_reason. intros H.
  destruct (invoice_billing_reason invoice) as [reason |].
  - destruct (OrderBillingReason.of_value reason).
    + unfold ret in H. injection H as Hb _. symmetry. exact Hb.
    + unfold log_message, modify, bind, ret in H. injection H as Hb _.
      symmetry. exact Hb.
  - unfold ret in H. injection H as Hb _. symmetry. exact Hb.
Qed.

(** What a creation that went through returned and handed over. *)
Lemma create_order_from_stripe_run (invoice : Invoice) (w w' : World) (order : Order) :
  create_order_from_stripe uuid4 UUID TaxabilityReason_from_stripe from_stripe_tax_rate
    stripe_descriptor_suffix_max_length invoice w = (Ok order, w') ->
  exists id subscription final,
    invoice_id invoice = Some id
    /\ get_subscription invoice id w = (Ok subscription, w)
    /\ (invoice_status invoice <> Some "draft" -> final = invoice)
    /\ (final = invoice
        \/ (invoice_status invoice = Some "draft"
            /\ final = stripe_get_invoice (w_stripe w) id))
    /\ (order_id order = uuid4 (w_next_uuid w)
        /\ order_status order = status_of_invoice final
        /\ order_stripe_invoice_id order = invoice_id final
        /\ order_subtotal_amount order = invoice_subtotal final
        /\ order_discount_amount order = calculate_discount_amount final
        /\ order_tax_amount order =
           match invoice_tax final with Some t => t | None => 0 end
        /\ order_currency order = invoice_currency final
        /\ order_billing_reason order =
           match invoice_billing_reason final with
           | None => OrderBillingReason.subscription_cycle
           | Some reason =>
               match OrderBillingReason.of_value reason with
               | Some known => known
               | None => OrderBillingReason.subscription_cycle
               end
           end
        /\ order_customer order = subscription_customer subscription
        /\ order_product order = subscription_product subscription
        /\ order_subscription order = Some subscription
        /\ order_billing_name order =
           customer_billing_name (subscription_customer subscription)
        /\ order_user_metadata order =
           match order_checkout order with
           | Some checkout => checkout_user_metadata checkout
           | None => subscription_user_metadata subscription
           end
        /\ order_custom_field_data order =
           match order_checkout order with
           | Some checkout => checkout_custom_field_data checkout
           | None => subscription_custom_field_data subscription
           end
        /\ order_invoice_path order = None)
    /\ retrieve_billing_address (subscription_customer subscription) invoice w =
       (Ok (order_billing_address order), w)
    /\ get_discount UUID invoice id w = (Ok (order_discount order), w)
    /\ get_checkout UUID invoice id w = (Ok (order_checkout order), w)
    /\ (exists items pending_items,
          map_m (order_item_of_line UUID) (invoice_lines invoice) w = (Ok items, w)
          /\ order_items order = items ++ pending_items
          /\ (invoice_status invoice <> Some "draft" -> pending_items = []))
    /\ w_orders w' = w_orders w ++ [order]
    /\ w_webhooks w' =
       w_webhooks w
       ++ webhook_delivery order WebhookEventType.order_created w
       ++ (if order_paid order
           then webhook_delivery order WebhookEventType.order_paid w else [])
    /\ w_jobs w' =
       w_jobs w
       ++ {| job_name := "order.discord_notification";
             job_kwargs := [("order_id", order_id order)] |}
          :: (if order_paid order then grant_cycle_job order else [])
    /\ map organization_id (w_organizations w') = map organization_id (w_organizations w)
    /\ (invoice_status invoice <> Some "draft" ->
        w_stripe_calls w' = w_stripe_calls w
        /\ w_pending_entries w' = w_pending_entries w)
    /\ (invoice_status invoice = Some "draft" ->
        exists final_id items,
          invoice_id final = Some final_id
          /\ map_m (order_item_of_line UUID) (invoice_lines invoice) w = (Ok items, w)
          /\ order_items order =
             items ++ w_pending_entries w (subscription_id subscription)
          /\ w_stripe_calls w' =
             w_stripe_calls w
             ++ [update_invoice final_id
                   (str_take stripe_descriptor_suffix_max_length
                      (organization_name (subscription_organization subscription)))]
          /\ forall s,
               w_pending_entries w' s =
               if String.eqb s (subscription_id subscription) then []
               else w_pending_entries w s)
    /\ (order_taxability_reason order, order_tax_rate order) =
       retrieve_tax_data TaxabilityReason_from_stripe from_stripe_tax_rate (w_stripe w)
         match invoice_tax final with Some t => t | None => 0 end
         (invoice_total_tax_amounts final) None
    /\ order_created_at order = Some (invoice_created final).
Proof.
  intros H. unfold create_order_from_stripe in H.
  destruct (invoice_id invoice) as [id |]; [| discriminate H].
  bind_inv_as H subscription w1 Hsub.
  bind_inv_as H billing_address w2 Haddr.
  bind_inv_as H discount w3 Hdisc.
  bind_inv_as H checkout w4 Hcheckout.
  bind_inv_as H items w5 Hitems.
  bind_inv_as H drafted w6 Hdraft.
  bind_inv_as H billing_reason w7 Hreason.
  bind_inv_as H tax_data w8 Htax.
  bind_inv_as H number w9 Hnumber.
  bind_inv_as H created_at w9' Hstamp.
  bind_inv_as H created w10 Hcreate.
  bind_inv_as H reset w11 Hreset.
  bind_inv_as H announced w12 Hcreated.
  unfold ret in H. injection H as Ho Hw. subst created w12.
  pose proof (read_only_run _ _ _ _ (get_subscription_read_only invoice id) Hsub). subst w1.
  pose proof (read_only_run _ _ _ _
                (retrieve_billing_address_read_only _ invoice) Haddr). subst w2.
  pose proof (read_only_run _ _ _ _ (get_discount_read_only invoice id) Hdisc). subst w3.
  pose proof (read_only_run _ _ _ _ (get_checkout_read_only invoice id) Hcheckout).
  subst w4.
  pose proof (read_only_run _ _ _ _ (order_items_read_only _) Hitems). subst w5.
  stage_frame before_creation Hdraft F6.
  stage_frame before_creation Hreason F7.
  stage_frame (fun w => (w_stripe_calls w, w_pending_entries w)) Hreason D7.
  unfold gets in Htax. injection Htax as Htax Hw. subst w8.
  destruct (handle_draft_Ok _ _ _ _ _ _ _ _ Hdraft)
    as (Hplain & Hfinal & (pending & Hpending) & Hdrafted).
  apply determine_billing_reason_Ok in Hreason.
  destruct (get_next_invoice_number_run (subscription_organization subscription) w7)
    as (number' & same & advanced & En & Hids).
  rewrite En in Hnumber. injection Hnumber as Hn Hw. subst number' w9. clear En.
  unfold fromtimestamp in Hstamp.
  destruct ((-62135596800 <=? invoice_created (snd drafted))
            && (invoice_created (snd drafted) <=? 253402300799)); [| discriminate Hstamp].
  unfold ret in Hstamp. injection Hstamp as Hs Hw. subst created_at w9'.
  unfold OrderRepository_create, fresh_uuid, bind, modify, ret in Hcreate.
  injection Hcreate as Ho Hw. rewrite Ho in Hw. subst w10.
  destruct (reset_meters_run subscription (subscription_meters subscription)
              (upd_orders (fun l => l ++ [order])
                 (upd_next_uuid S (upd_organizations (replace_row same advanced) w7))))
    as (w11' & Erun & _ & _).
  assert (Freset : before_creation w11 =
                   before_creation
                     (upd_events (fun _ => w_events w11)
                        (upd_orders (fun l => l ++ [order])
                           (upd_next_uuid S
                              (upd_organizations (replace_row same advanced) w7))))).
  { stage_frame w_orders Hreset Eo. stage_frame w_webhooks Hreset Ew.
    stage_frame w_jobs Hreset Ej. stage_frame w_organizations Hreset Eg.
    stage_frame w_next_uuid Hreset Eu. stage_frame w_stripe Hreset Es.
    stage_frame w_rollover_units Hreset Er. stage_frame w_checkout_events Hreset Ec.
    unfold before_creation. simpl in *.
    rewrite Eo, Ew, Ej, Eg, Eu, Es, Er, Ec. reflexivity. }
  stage_frame (fun w => (w_stripe_calls w, w_pending_entries w)) Hreset D11.
  simpl in D11.
  clear Erun w11' Hreset.
  destruct (_on_order_created_run order w11) as (w12 & E & Hwebhooks & Hjobs & _).
  rewrite E in Hcreated. injection Hcreated as _ Hw. subst w12.
  pose proof (preserves_run w_orders _ _ _ _
                (_on_order_created_preserves w_orders order
                   (fun _ _ => eq_refl) (fun _ _ => eq_refl) (fun _ _ => eq_refl)) E)
    as Horders.
  pose proof (preserves_run w_organizations _ _ _ _
                (_on_order_created_preserves w_organizations order
                   (fun _ _ => eq_refl) (fun _ _ => eq_refl) (fun _ _ => eq_refl)) E)
    as Horgs.
  pose proof (preserves_run (fun w => (w_stripe_calls w, w_pending_entries w)) _ _ _ _
                (_on_order_created_preserves
                   (fun w => (w_stripe_calls w, w_pending_entries w)) order
                   (fun _ _ => eq_refl) (fun _ _ => eq_refl) (fun _ _ => eq_refl)) E)
    as D12.
  clear E.
  assert (Hdraft_frame : w_stripe_calls w' = w_stripe_calls w6
                         /\ w_pending_entries w' = w_pending_entries w6).
  { injection D12 as A1 A2. injection D11 as B1 B2. injection D7 as C1 C2.
    split; congruence. }
  destruct Hdraft_frame as [Hcalls Hentries].
  unfold before_creation in F6, F7, Freset. simpl in Freset.
  injection F6 as F6o F6w F6j F6e F6g F6u F6s F6r F6c.
  injection F7 as F7o F7w F7j F7e F7g F7u F7s F7r F7c.
  injection Freset as Ro Rw Rj Rg Ru Rs Rr Rc.
  exists id, subscription, (snd drafted).
  split; [reflexivity |]. split; [exact Hsub |].
  split; [intros Hne; destruct (Hplain Hne) as [Hd _]; rewrite Hd; reflexivity |].
  split; [exact Hfinal |].
  assert (Hdelivery : forall event_type,
            webhook_delivery order event_type w11 = webhook_delivery order event_type w).
  { intros event_type. apply webhook_delivery_ids. rewrite Rg.
    rewrite (replace_row_organization_ids _ _ _ Hids). congruence. }
  rewrite !Hdelivery in Hwebhooks.
  split.
  { rewrite <- Ho. simpl. rewrite F7u, F6u, <- Hreason.
    repeat split; reflexivity. }
  split; [rewrite <- Ho; exact Haddr |].
  split; [rewrite <- Ho; exact Hdisc |].
  split; [rewrite <- Ho; exact Hcheckout |].
  split.
  { exists items, pending. split; [exact Hitems |].
    split; [rewrite <- Ho; exact Hpending |].
    intros Hne. destruct (Hplain Hne) as [Hd _]. rewrite Hd in Hpending. simpl in Hpending.
    apply (app_inv_head items). rewrite app_nil_r. symmetry. exact Hpending. }
  split; [rewrite Horders, Ro, F7o, F6o; reflexivity |].
  split; [rewrite Hwebhooks, Rw, F7w, F6w; reflexivity |].
  split; [rewrite Hjobs, Rj, F7j, F6j; reflexivity |].
  split.
  { rewrite Horgs, Rg, (replace_row_organization_ids _ _ _ Hids). congruence. }
  split.
  { intros Hne. destruct (Hplain Hne) as [_ Hw6]. rewrite Hcalls, Hentries, Hw6.
    split; reflexivity. }
  split.
  { intros Hstatus.
    destruct (Hdrafted Hstatus) as (final_id & Hid & Hcall & Hcleared & Hall).
    exists final_id, items. split; [exact Hid |]. split; [exact Hitems |].
    split; [rewrite <- Ho; exact Hall |].
    split; [rewrite Hcalls; exact Hcall |].
    intros s. rewrite Hentries. apply Hcleared. }
  split.
  { rewrite <- Ho. simpl. rewrite <- Htax, F7s, F6s.
    symmetry. apply surjective_pairing. }
  rewrite <- Ho. reflexivity.
Qed.

(** The items of the lines of an invoice: one per line, in their order. *)
Lemma order_items_of_lines (lines : list InvoiceLine) (w w' : World)
    (items : list OrderItem) :
  map_m (order_item_of_line UUID) lines w = (Ok items, w') ->
  Forall2 (fun line item =>
             order_item_amount item = line_amount line
             /\ order_item_tax_amount item = fold_left Z.add (line_tax_amounts line) 0
             /\ order_item_proration item = line_proration line
             /\ order_item_label item =
                match line_description line with Some d => d | None => "" end)
    lines items.
Proof.
  revert w w' items. induction lines as [| line lines IH]; intros w w' items H; simpl in H.
  - unfold ret in H. injection H as Hi _. subst items. constructor.
  - bind_inv_as H item w1 Hitem. bind_inv_as H rest w2 Hrest.
    unfold ret in H. injection H as Hi _. subst items.
    constructor; [| exact (IH _ _ _ Hrest)].
    unfold order_item_of_line in Hitem.
    bind_inv_as Hitem price w0 Hprice.
    unfold ret in Hitem. injection Hitem as Hi _. subst item. simpl.
    repeat split; reflexivity.
Qed.

Lemma str_take_code_points_le (n : nat) (s : string) :
  (code_points (str_take n s) <= n)%nat.
Proof.
  revert n. induction s as [| c s IH]; intros n; simpl; [lia |].
  destruct (is_continuation c) eqn:Hc; simpl.
  - rewrite Hc. apply IH.
  - destruct n as [| n]; simpl; [lia |].
    rewrite Hc. specialize (IH n). lia.
Qed.

Lemma str_take_prefix (n : nat) (s : string) :
  exists rest, s = (str_take n s ++ rest)%string.
Proof.
  revert n. induction s as [| c s IH]; intros n; simpl.
  - exists EmptyString. reflexivity.
  - destruct (is_continuation c).
    + destruct (IH n) as [rest E]. exists rest. simpl. rewrite <- E. reflexivity.
    + destruct n as [| n].
      * exists (String c s). reflexivity.
      * destruct (IH n) as [rest E]. exists rest. simpl. rewrite <- E. reflexivity.
Qed.

Lemma str_take_all (n : nat) (s : string) :
  (code_points s <= n)%nat -> str_take n s = s.
Proof.
  revert n. induction s as [| c s IH]; intros n Hn; simpl in *; [reflexivity |].
  destruct (is_continuation c).
  - rewrite (IH n Hn). reflexivity.
  - destruct n as [| n]; [lia |].
    rewrite (IH n); [reflexivity | lia].
Qed.

(** A name of three code points in six bytes, cut to two code points, keeps
    the five bytes of the first two. *)
Lemma str_take_whole_code_points :
  let name :=
    String (ascii_of_nat 195) (String (ascii_of_nat 169)
      (String (ascii_of_nat 226) (String (ascii_of_nat 130) (String (ascii_of_nat 172)
        "x")))) in
  code_points name = 3%nat
  /\ str_take 2 name =
     String (ascii_of_nat 195) (String (ascii_of_nat 169)
       (String (ascii_of_nat 226) (String (ascii_of_nat 130) (String (ascii_of_nat 172)
         EmptyString)))).
Proof.
  vm_compute. split; reflexivity.
Qed.

Lemma grant_cycle_job_filter (order : Order) :
  filter (fun j => String.eqb (job_name j) "benefit.enqueue_benefit_grant_cycles")
         (grant_cycle_job order) = grant_cycle_job order.
Proof.
  unfold grant_cycle_job. destruct (order_subscription_id order); [| reflexivity].
  destruct (OrderBillingReason.eqb _ _); reflexivity.
Qed.

(** X14.  The order of an invoice mirrors the invoice.  When
    [create_order_from_stripe] creates an order from an invoice that is not a
    draft, the order carries the id of the invoice, is paid exactly when the
    status of the invoice is ["paid"] and pending otherwise, and takes its
    subtotal, its discount (the sum of the discount amounts), its tax (0 when
    the invoice has none) and its currency from the invoice.  Its billing
    reason is the one the invoice names, and [subscription_cycle] when the
    invoice names none or one that is not known.  It belongs to the
    subscription on record under the subscription id of the invoice, and to
    the customer and product of that subscription.  Its metadata and custom
    field data are those of the checkout the invoice refers to, and those of
    the subscription when it refers to none.  It has one item per line of the
    invoice, in their order, with the amount, the summed taxes, the proration
    flag and the description of the line.  It is added to the orders on
    record under a freshly drawn identifier, without an invoice document, and
    nothing is changed at the payment processor: no invoice is updated there
    and no tax transaction is created.  (The processor is read on the way,
    for the charge behind the billing address and for the tax rates.) *)
Theorem create_order_from_stripe_mirrors_invoice
    (invoice : Invoice) (w w' : World) (order : Order) :
  invoice_status invoice <> Some "draft" ->
  create_order_from_stripe uuid4 UUID TaxabilityReason_from_stripe from_stripe_tax_rate
    stripe_descriptor_suffix_max_length invoice w = (Ok order, w') ->
  order_stripe_invoice_id order = invoice_id invoice
  /\ (order_status order = OrderStatus.paid <-> invoice_status invoice = Some "paid")
  /\ (order_status order = OrderStatus.pending <-> invoice_status invoice <> Some "paid")
  /\ order_subtotal_amount order = invoice_subtotal invoice
  /\ order_discount_amount order =
     fold_left Z.add (or_default_amounts (invoice_total_discount_amounts invoice)) 0
  /\ order_tax_amount order = match invoice_tax invoice with Some t => t | None => 0 end
  /\ order_currency order = invoice_currency invoice
  /\ order_billing_reason order =
     match invoice_billing_reason invoice with
     | None => OrderBillingReason.subscription_cycle
     | Some reason =>
         match OrderBillingReason.of_value reason with
         | Some known => known
         | None => OrderBillingReason.subscription_cycle
         end
     end
  /\ (exists subscription,
        order_subscription order = Some subscription
        /\ In subscription (w_subscriptions w)
        /\ subscription_stripe_subscription_id subscription = invoice_subscription invoice
        /\ order_customer order = subscription_customer subscription
        /\ order_product order = subscription_product subscription
        /\ order_user_metadata order =
           match order_checkout order with
           | Some checkout => checkout_user_metadata checkout
           | None => subscription_user_metadata subscription
           end
        /\ order_custom_field_data order =
           match order_checkout order with
           | Some checkout => checkout_custom_field_data checkout
           | None => subscription_custom_field_data subscription
           end)
  /\ Forall2 (fun line item =>
                order_item_amount item = line_amount line
                /\ order_item_tax_amount item = fold_left Z.add (line_tax_amounts line) 0
                /\ order_item_proration item = line_proration line
                /\ order_item_label item =
                   match line_description line with Some d => d | None => "" end)
       (invoice_lines invoice) (order_items order)
  /\ w_orders w' = w_orders w ++ [order]
  /\ order_id order = uuid4 (w_next_uuid w)
  /\ order_invoice_path order = None
  /\ w_stripe_calls w' = w_stripe_calls w.
Proof.
  intros Hplain H.
  destruct (create_order_from_stripe_run invoice w w' order H)
    as (id & subscription & final & Hid & Hsub & Hfinal & _
        & (Sid & Sstatus & Sinvoice & Ssub & Sdisc & Stax & Scur & Sreason & Scust & Sprod
           & Ssubscription & _ & Smeta & Sdata & Spath)
        & _ & _ & _ & (items & pending & Hitems & Hall & Hnone)
        & Horders & _ & _ & _ & Hcalls & _).
  rewrite (Hfinal Hplain) in *. clear Hfinal final.
  split; [exact Sinvoice |].
  split; [rewrite Sstatus; apply status_of_invoice_paid |].
  split.
  { rewrite Sstatus. rewrite <- status_of_invoice_paid.
    destruct (status_of_invoice invoice); split; congruence. }
  split; [exact Ssub |].
  split.
  { rewrite Sdisc. unfold calculate_discount_amount, or_default_amounts.
    destruct (invoice_total_discount_amounts invoice); reflexivity. }
  split; [exact Stax |]. split; [exact Scur |]. split; [exact Sreason |].
  split.
  { exists subscription. split; [exact Ssubscription |].
    unfold get_subscription in Hsub.
    destruct (truthy_dict (invoice_metadata invoice) && _); [discriminate Hsub |].
    destruct (invoice_subscription invoice) as [sid |]; [| discriminate Hsub].
    unfold gets, bind in Hsub.
    destruct (find _ (w_subscriptions w)) as [found |] eqn:Hfound; [| discriminate Hsub].
    unfold ret in Hsub. injection Hsub as Hs. subst found.
    apply find_some in Hfound. destruct Hfound as [Hin Hmatch].
    split; [exact Hin |].
    split.
    { destruct (subscription_stripe_subscription_id subscription) as [s |];
        [| discriminate Hmatch].
      simpl in Hmatch. apply String.eqb_eq in Hmatch. subst s. reflexivity. }
    repeat split; assumption. }
  split.
  { rewrite Hall, (Hnone Hplain), app_nil_r. exact (order_items_of_lines _ _ _ _ Hitems). }
  split; [exact Horders |]. split; [exact Sid |]. split; [exact Spath |].
  apply (Hcalls Hplain).
Qed.

(** X15.  What a draft invoice adds.  When [create_order_from_stripe]
    creates an order from a draft invoice, the pending billing entries of the
    subscription become items of the order, after the items of the lines of
    the invoice, and are pending no longer, while the pending entries of the
    other subscriptions stay.  The service changes one thing at the payment
    processor: it sets the statement descriptor of the invoice the order
    carries the id of.  The descriptor is the beginning of the name of the
    organization, cut after the maximal number of code points, so it never
    has more code points than that.  (The processor is also read on the way:
    the invoice is loaded again when entries were added.) *)
Theorem create_order_from_stripe_draft
    (invoice : Invoice) (w w' : World) (order : Order) :
  invoice_status invoice = Some "draft" ->
  create_order_from_stripe uuid4 UUID TaxabilityReason_from_stripe from_stripe_tax_rate
    stripe_descriptor_suffix_max_length invoice w = (Ok order, w') ->
  exists subscription final_id descriptor items,
    order_subscription order = Some subscription
    /\ order_stripe_invoice_id order = Some final_id
    /\ w_stripe_calls w' = w_stripe_calls w ++ [update_invoice final_id descriptor]
    /\ descriptor =
       str_take stripe_descriptor_suffix_max_length
         (organization_name (subscription_organization subscription))
    /\ (code_points descriptor <= stripe_descriptor_suffix_max_length)%nat
    /\ (exists rest,
          organization_name (subscription_organization subscription)
          = (descriptor ++ rest)%string)
    /\ Forall2 (fun line item =>
                  order_item_amount item = line_amount line
                  /\ order_item_tax_amount item = fold_left Z.add (line_tax_amounts line) 0
                  /\ order_item_proration item = line_proration line
                  /\ order_item_label item =
                     match line_description line with Some d => d | None => "" end)
         (invoice_lines invoice) items
    /\ order_items order = items ++ w_pending_entries w (subscription_id subscription)
    /\ w_pending_entries w' (subscription_id subscription) = []
    /\ (forall s, s <> subscription_id subscription ->
        w_pending_entries w' s = w_pending_entries w s).
Proof.
  intros Hdraft H.
  destruct (create_order_from_stripe_run invoice w w' order H)
    as (id & subscription & final & _ & _ & _ & _
        & (_ & _ & Sinvoice & _ & _ & _ & _ & _ & _ & _ & Ssubscription & _)
        & _ & _ & _ & _ & _ & _ & _ & _ & _ & Hdrafted & _).
  destruct (Hdrafted Hdraft) as (final_id & items & Hid & Hitems & Hall & Hcall & Hcleared).
  exists subscription, final_id,
    (str_take stripe_descriptor_suffix_max_length
       (organization_name (subscription_organization subscription))), items.
  split; [exact Ssubscription |].
  split; [rewrite Sinvoice; exact Hid |].
  split; [exact Hcall |]. split; [reflexivity |].
  split; [apply str_take_code_points_le |].
  split; [apply str_take_prefix |].
  split; [exact (order_items_of_lines _ _ _ _ Hitems) |].
  split; [exact Hall |].
  split.
  - rewrite Hcleared, String.eqb_refl. reflexivity.
  - intros s Hs. rewrite Hcleared. apply String.eqb_neq in Hs. rewrite Hs. reflexivity.
Qed.

(** X16.  From the creation of an order to its payment, the paid effects
    happen once.  Take an order that [create_order_from_stripe] creates for
    an invoice id no earlier order carries, and the first paid event of that
    invoice that [update_order_from_stripe] then applies.  The update finds
    that order and returns it as paid.  Over the two steps one [order_paid]
    webhook is handed over, delivered when the organization of the product is
    on record, and the benefit-grant cycle is queued once for a renewal and
    not at all for another order: at the creation when the order is created
    paid, and at the update when it is created pending. *)
Theorem order_paid_once_from_creation_to_payment
    (invoice later : Invoice) (id : string) (w w1 w2 : World) (order o2 : Order) :
  create_order_from_stripe uuid4 UUID TaxabilityReason_from_stripe from_stripe_tax_rate
    stripe_descriptor_suffix_max_length invoice w = (Ok order, w1) ->
  order_stripe_invoice_id order = Some id ->
  order_of_invoice id w = None ->
  invoice_id later = Some id ->
  invoice_status later = Some "paid" ->
  update_order_from_stripe later w1 = (Ok o2, w2) ->
  o2 = set_order_status OrderStatus.paid order
  /\ order_paid_webhooks w2 =
     order_paid_webhooks w
     ++ order_paid_webhook (if order_paid order then order else o2) w
  /\ grant_cycle_jobs w2 = grant_cycle_jobs w ++ grant_cycle_job order.
Proof.
  intros H Hcarries Hnone Hid Hpaid H2.
  destruct (create_order_from_stripe_run invoice w w1 order H)
    as (id0 & subscription & final & _ & _ & _ & _ & _ & _ & _ & _ & _
        & Horders & Hwebhooks & Hjobs & Horgs & _).
  destruct (update_order_from_stripe_paid later w1 w2 o2 Hpaid H2)
    as (id' & o0 & Hid' & Hfind & Ho2 & _ & _ & Hw2 & Hj2).
  rewrite Hid in Hid'. injection Hid' as Hid'. subst id'.
  assert (Hfound : o0 = order).
  { rewrite Horders in Hfind. unfold order_of_invoice in Hnone.
    rewrite (find_app_None_l _ _ _ Hnone) in Hfind. simpl in Hfind.
    rewrite Hcarries in Hfind. simpl in Hfind. rewrite String.eqb_refl in Hfind.
    injection Hfind as Hfind. symmetry. exact Hfind. }
  subst o0.
  split; [exact Ho2 |].
  assert (Hcycle : grant_cycle_job o2 = grant_cycle_job order)
    by (rewrite Ho2; reflexivity).
  assert (Hdelivery : order_paid_webhook o2 w1 = order_paid_webhook o2 w)
    by (apply (webhook_delivery_ids o2 WebhookEventType.order_paid w w1 Horgs)).
  rewrite Hw2, Hj2, Hcycle, Hdelivery.
  rewrite (order_paid_webhooks_app w w1 _ Hwebhooks).
  rewrite (grant_cycle_jobs_app w w1 _ Hjobs).
  rewrite filter_app,
    (webhook_delivery_paid_filter order WebhookEventType.order_created).
  destruct (order_paid order); simpl.
  - rewrite (webhook_delivery_paid_filter order WebhookEventType.order_paid).
    simpl. rewrite !app_nil_r, grant_cycle_job_filter. split; reflexivity.
  - rewrite !app_nil_r. split; reflexivity.
Qed.


(** X19.  Where the billing address of the order comes from.  On an order
    that [create_order_from_stripe] creates, the billing address is the one
    of the customer when the customer has one.  Otherwise it is the customer
    address of the invoice when that names a country.  Otherwise, when the
    invoice has a charge paid by card, it is the country of the card alone,
    and the card then has a country, for the creation fails on a card without
    one.  In every other case the order has no billing address. *)
Theorem create_order_from_stripe_billing_address
    (invoice : Invoice) (w w' : World) (order : Order) :
  create_order_from_stripe uuid4 UUID TaxabilityReason_from_stripe from_stripe_tax_rate
    stripe_descriptor_suffix_max_length invoice w = (Ok order, w') ->
  (forall address,
     customer_billing_address (order_customer order) = Some address ->
     order_billing_address order = Some address)
  /\ (customer_billing_address (order_customer order) = None ->
      forall customer_address country,
        invoice_customer_address invoice = Some customer_address ->
        customer_address_country customer_address = Some country ->
        order_billing_address order =
        Some {| address_line1 := customer_address_line1 customer_address;
                address_postal_code := customer_address_postal_code customer_address;
                address_city := customer_address_city customer_address;
                address_country := country |})
  /\ (customer_billing_address (order_customer order) = None ->
      _is_empty_customer_address (invoice_customer_address invoice) = true ->
      match invoice_charge invoice with
      | Some charge_id =>
          match charge_payment_method_details
                  (stripe_get_charge (w_stripe w) charge_id) with
          | Some payment_method_details =>
              match payment_method_details_card payment_method_details with
              | Some card =>
                  exists country,
                    card_country card = Some country
                    /\ order_billing_address order =
                       Some {| address_line1 := None;
                               address_postal_code := None;
                               address_city := None;
                               address_country := country |}
              | None => order_billing_address order = None
              end
          | None => order_billing_address order = None
          end
      | None => order_billing_address order = None
      end).
Proof.
  intros H.
  destruct (create_order_from_stripe_run invoice w w' order H)
    as (id & subscription & final & _ & _ & _ & _
        & (_ & _ & _ & _ & _ & _ & _ & _ & Scust & _)
        & Haddr & _).
  rewrite Scust. unfold retrieve_billing_address in Haddr.
  destruct (customer_billing_address (subscription_customer subscription))
    as [address |].
  { unfold ret in Haddr. injection Haddr as Ha.
    split; [intros a Hs; rewrite <- Ha; exact Hs |].
    split; intros Hnone; discriminate Hnone. }
  split; [intros a Hs; discriminate Hs |].
  split.
  - intros _ customer_address country Hd Hc.
    rewrite Hd in Haddr. unfold _is_empty_customer_address, isNone, isSome in Haddr.
    rewrite Hc in Haddr. simpl in Haddr.
    unfold Address_model_validate in Haddr. rewrite Hc in Haddr.
    unfold bind, ret in Haddr. injection Haddr as Ha. symmetry. exact Ha.
  - intros _ Hempty. rewrite Hempty in Haddr. simpl in Haddr.
    destruct (invoice_charge invoice) as [charge_id |].
    + unfold gets in Haddr. unfold bind at 1 in Haddr.
      destruct (charge_payment_method_details _) as [details |].
      * destruct (payment_method_details_card details) as [card |].
        -- unfold Address_model_validate in Haddr. simpl in Haddr.
           destruct (card_country card) as [country |]; [| discriminate Haddr].
           unfold bind, ret in Haddr. injection Haddr as Ha.
           exists country. split; [reflexivity | symmetry; exact Ha].
        -- unfold ret in Haddr. injection Haddr as Ha. symmetry. exact Ha.
      * unfold ret in Haddr. injection Haddr as Ha. symmetry. exact Ha.
    + unfold ret in Haddr. injection Haddr as Ha. symmetry. exact Ha.
Qed.

Lemma last_cons_default {A} (x : A) (l : list A) (d d' : A) :
  last (x :: l) d = last (x :: l) d'.
Proof.
  revert x. induction l as [| y l IH]; intros x; [reflexivity |].
  change (last (y :: l) d = last (y :: l) d'). apply IH.
Qed.

(** The loop over the tax amounts stops at the first rate that converts;
    when none does, it has gone through them all. *)
Lemma retrieve_tax_data_first (stripe : StripeService) (tax_amount : Z)
    (total_tax_amounts : list TotalTaxAmount) (reason : option TaxabilityReason) :
  retrieve_tax_data TaxabilityReason_from_stripe from_stripe_tax_rate stripe tax_amount
    total_tax_amounts reason =
  match find (fun t => isSome (from_stripe_tax_rate
                                 (stripe_get_tax_rate stripe (total_tax_amount_tax_rate t))))
             total_tax_amounts with
  | Some t =>
      (TaxabilityReason_from_stripe (total_tax_amount_taxability_reason t) tax_amount,
       from_stripe_tax_rate (stripe_get_tax_rate stripe (total_tax_amount_tax_rate t)))
  | None =>
      (last (map (fun t => TaxabilityReason_from_stripe
                             (total_tax_amount_taxability_reason t) tax_amount)
                 total_tax_amounts) reason,
       None)
  end.
Proof.
  revert reason. induction total_tax_amounts as [| t rest IH]; intros reason; simpl.
  - reflexivity.
  - destruct (from_stripe_tax_rate (stripe_get_tax_rate stripe (total_tax_amount_tax_rate t)))
      as [tax_rate |] eqn:Hrate; simpl.
    + rewrite Hrate. reflexivity.
    + rewrite IH.
      destruct (find _ rest); [reflexivity |]. f_equal.
      destruct rest as [| t0 rest]; [reflexivity |].
      cbn [map]. apply last_cons_default.
Qed.

(** X20.  The tax rate of the order is the first that converts.  On an
    order that [create_order_from_stripe] creates from an invoice that is not
    a draft, the tax rate is the conversion of the first tax amount of the
    invoice whose rate at the payment processor converts, and the taxability
    reason is the one of that tax amount.  When no rate converts, the order
    has no tax rate, and its taxability reason is the one of the last tax
    amount of the invoice, none when the invoice has no tax amounts. *)
Theorem create_order_from_stripe_tax_rate
    (invoice : Invoice) (w w' : World) (order : Order) :
  invoice_status invoice <> Some "draft" ->
  create_order_from_stripe uuid4 UUID TaxabilityReason_from_stripe from_stripe_tax_rate
    stripe_descriptor_suffix_max_length invoice w = (Ok order, w') ->
  match find (fun t => isSome (from_stripe_tax_rate
                                 (stripe_get_tax_rate (w_stripe w)
                                    (total_tax_amount_tax_rate t))))
             (invoice_total_tax_amounts invoice) with
  | Some t =>
      order_tax_rate order =
        from_stripe_tax_rate (stripe_get_tax_rate (w_stripe w) (total_tax_amount_tax_rate t))
      /\ order_tax_rate order <> None
      /\ order_taxability_reason order =
         TaxabilityReason_from_stripe (total_tax_amount_taxability_reason t)
           (order_tax_amount order)
  | None =>
      order_tax_rate order = None
      /\ order_taxability_reason order =
         last (map (fun t => TaxabilityReason_from_stripe
                               (total_tax_amount_taxability_reason t)
                               (order_tax_amount order))
                 (invoice_total_tax_amounts invoice)) None
  end.
Proof.
  intros Hplain H.
  destruct (create_order_from_stripe_run invoice w w' order H)
    as (id & subscription & final & _ & _ & Hfinal & _
        & (_ & _ & _ & _ & _ & Stax & _)
        & _ & _ & _ & _ & _ & _ & _ & _ & _ & _ & Htax & _).
  rewrite (Hfinal Hplain) in *. rewrite <- Stax in Htax.
  rewrite retrieve_tax_data_first in Htax.
  destruct (find _ (invoice_total_tax_amounts invoice)) as [t |] eqn:Hfind.
  - injection Htax as Hreason Hrate.
    split; [exact Hrate |]. split; [| exact Hreason].
    apply find_some in Hfind. destruct Hfind as [_ Hsome]. rewrite Hrate.
    destruct (from_stripe_tax_rate _); [discriminate | discriminate Hsome].
  - injection Htax as Hreason Hrate. split; [exact Hrate | exact Hreason].
Qed.

End StripePaths.

(** The instance on the paid renewal invoice [in_2] of the subscription. *)
Lemma create_order_from_stripe_mirrors_invoice_witness :
  order_stripe_invoice_id Demo.created_order = Some "in_2"
  /\ order_subtotal_amount Demo.created_order = 2000
  /\ w_orders (snd Demo.creation) =
     w_orders (Demo.world Demo.pending_order) ++ [Demo.created_order].
Proof.
  pose proof (create_order_from_stripe_mirrors_invoice Demo.uuid4 Demo.UUID
                Demo.TaxabilityReason_from_stripe Demo.from_stripe_tax_rate 22%nat
                (Demo.invoice "in_2" "paid") (Demo.world Demo.pending_order)
                (snd Demo.creation) Demo.created_order) as T.
  assert (Hplain : invoice_status (Demo.invoice "in_2" "paid") <> Some "draft")
    by (simpl; discriminate).
  specialize (T Hplain).
  match type of T with
  | ?P -> _ => assert (H : P) by (vm_compute; reflexivity)
  end.
  destruct (T H) as (Hid & _ & _ & Hsub & _ & _ & _ & _ & _ & _ & Horders & _).
  split; [exact Hid |]. split; [exact Hsub | exact Horders].
Defined.

(** The instance on the draft invoice [in_5], with one pending entry and a
    maximal length of 3: the descriptor is the first three letters of the
    name of the organization. *)
Lemma create_order_from_stripe_draft_witness :
  exists items,
    w_stripe_calls (snd Demo.draft_creation) =
      w_stripe_calls Demo.draft_world ++ [update_invoice "in_5" "Acm"]
    /\ order_items Demo.drafted_order = items ++ [Demo.metered_usage]
    /\ w_pending_entries (snd Demo.draft_creation) "sub" = [].
Proof.
  pose proof (create_order_from_stripe_draft Demo.uuid4 Demo.UUID
                Demo.TaxabilityReason_from_stripe Demo.from_stripe_tax_rate 3%nat
                (Demo.invoice "in_5" "draft") Demo.draft_world
                (snd Demo.draft_creation) Demo.drafted_order eq_refl) as T.
  match type of T with
  | ?P -> _ => assert (H : P) by (vm_compute; reflexivity)
  end.
  destruct (T H) as (subscription & final_id & descriptor & items & Hsub & Hid & Hcalls
                     & Hdesc & _ & _ & _ & Hitems & Hcleared & _).
  vm_compute in Hsub. injection Hsub as Hsub. subst subscription.
  vm_compute in Hid. injection Hid as Hid. subst final_id.
  vm_compute in Hdesc. subst descriptor.
  exists items. split; [exact Hcalls |]. split; [exact Hitems | exact Hcleared].
Defined.

(** The instance on the open invoice [in_6] and its paid event: the
    [order_paid] webhook goes out at the update, and once. *)
Lemma order_paid_once_from_creation_to_payment_witness :
  order_paid Demo.opened_order = false
  /\ List.length (order_paid_webhooks (snd Demo.payment_of_opened)) =
     S (List.length (order_paid_webhooks (Demo.world Demo.pending_order))).
Proof.
  split; [vm_compute; reflexivity |].
  pose proof (order_paid_once_from_creation_to_payment Demo.uuid4 Demo.UUID
                Demo.TaxabilityReason_from_stripe Demo.from_stripe_tax_rate 22%nat
                (Demo.invoice "in_6" "open") (Demo.invoice "in_6" "paid") "in_6"
                (Demo.world Demo.pending_order) (snd Demo.open_creation)
                (snd Demo.payment_of_opened) Demo.opened_order
                (set_order_status OrderStatus.paid Demo.opened_order)) as T.
  match type of T with
  | ?P -> _ => assert (H : P) by (vm_compute; reflexivity)
  end.
  specialize (T H eq_refl eq_refl eq_refl eq_refl).
  match type of T with
  | ?P -> _ => assert (H2 : P) by (vm_compute; reflexivity)
  end.
  destruct (T H2) as (_ & Hwebhooks & _).
  rewrite Hwebhooks, length_app. vm_compute. reflexivity.
Defined.


(** ** The invoice document *)

Section DocumentPaths.

Variable create_order_invoice : Order -> M string.
Variable eventstream_publish : string -> list (string * string) -> uuid -> uuid -> M unit.
Variable get_order_invoice_url : Order -> M (string * Z).

(** The document generator and the event stream keep to their own stores:
    they leave the orders, the webhooks and the organizations alone. *)
Hypothesis create_order_invoice_frame :
  forall order,
    preserves (fun w => (w_orders w, w_webhooks w, w_organizations w))
      (create_order_invoice order).
Hypothesis eventstream_publish_frame :
  forall event payload customer organization,
    preserves (fun w => (w_orders w, w_webhooks w, w_organizations w))
      (eventstream_publish event payload customer organization).

(** X18.  Generating the invoice seals the order.  When [generate_invoice]
    goes through, the order it returns is the order it was given with the
    path of the generated document and nothing else changed; it is written
    back in place of the order, and one [order_updated] webhook goes out for
    it, delivered when the organization of the product is on record.  From
    then on a request to generate the invoice is refused with
    [InvoiceAlreadyExists], whatever the state of the order, every update
    that changes the billing name or the billing address is rejected with a
    validation error and writes nothing, and [get_order_invoice] no longer
    fails for want of a document: it returns the URL the invoice service
    gives.  Before, on an order without a document, [get_order_invoice]
    fails with [InvoiceDoesNotExist] without asking the invoice service. *)
Theorem generate_invoice_seals_order (order order' : Order) (w w' : World) :
  generate_invoice create_order_invoice eventstream_publish order w = (Ok order', w') ->
  exists invoice_path w0,
    create_order_invoice order w = (Ok invoice_path, w0)
    /\ order' = set_order_invoice_path (Some invoice_path) order
    /\ w_orders w' =
       replace_row (fun o => String.eqb (order_id o) (order_id order)) order' (w_orders w)
    /\ w_webhooks w' =
       w_webhooks w ++ webhook_delivery order' WebhookEventType.order_updated w
    /\ (forall w2,
          trigger_invoice_generation order' w2 =
          (Err (InvoiceAlreadyExists (order_id order)), w2))
    /\ (forall u w2,
          changes_billing_name order' u \/ changes_billing_address order' u ->
          exists errors,
            errors <> []
            /\ update order' u w2 = (Err (PolarRequestValidationError errors), w2))
    /\ (forall w2 url expiry w3,
          get_order_invoice_url order' w2 = (Ok (url, expiry), w3) ->
          get_order_invoice get_order_invoice_url order' w2 = (Ok url, w3))
    /\ (forall w2 e w3,
          get_order_invoice_url order' w2 = (Err e, w3) ->
          get_order_invoice get_order_invoice_url order' w2 = (Err e, w3))
    /\ (order_invoice_path order = None ->
        forall w2,
          get_order_invoice get_order_invoice_url order w2 =
          (Err (InvoiceDoesNotExist (order_id order)), w2)).
Proof.
  intros H. unfold generate_invoice in H.
  bind_inv_as H invoice_path w0 Hpath.
  bind_inv_as H updated w1 Hupdated.
  bind_inv_as H published w2 Hpublished.
  bind_inv_as H sent w3 Hsent.
  unfold ret in H. injection H as Ho Hw. subst updated w3.
  unfold OrderRepository.update, modify, bind, ret in Hupdated.
  injection Hupdated as Ho Hw. subst w1.
  pose proof (preserves_run _ _ _ _ _ (create_order_invoice_frame order) Hpath) as F0.
  pose proof (preserves_run _ _ _ _ _ (eventstream_publish_frame _ _ _ _) Hpublished)
    as F2.
  simpl in F0, F2. injection F0 as F0o F0w F0g. injection F2 as F2o F2w F2g.
  destruct (send_webhook_outbox order' WebhookEventType.order_updated w2)
    as (_ & Hwebhooks & _ & _).
  pose proof (preserves_run w_orders _ _ _ _
                (send_webhook_preserves w_orders order' WebhookEventType.order_updated
                   (fun _ _ => eq_refl)) Hsent) as Horders.
  rewrite Hsent in Hwebhooks. simpl in Hwebhooks.
  exists invoice_path, w0. split; [exact Hpath |]. split; [symmetry; exact Ho |].
  split.
  { rewrite Horders, F2o, F0o, <- Ho. reflexivity. }
  split.
  { rewrite Hwebhooks, F2w, F0w.
    rewrite (webhook_delivery_organizations order' WebhookEventType.order_updated w w2)
      by congruence.
    reflexivity. }
  assert (Hsealed : order_invoice_path order' = Some invoice_path)
    by (rewrite <- Ho; reflexivity).
  assert (Hsame : order_id order' = order_id order) by (rewrite <- Ho; reflexivity).
  split.
  { intros wx. unfold trigger_invoice_generation. rewrite Hsealed, Hsame. reflexivity. }
  split.
  { intros u wx Hchanges. exists (invoice_lock_errors order' u).
    assert (Hne : invoice_lock_errors order' u <> [])
      by (apply (invoice_lock_errors_nonempty order' u invoice_path Hsealed);
          exact Hchanges).
    split; [exact Hne | apply update_rejected; exact Hne]. }
  split.
  { intros wx url expiry wy Hurl. unfold get_order_invoice. rewrite Hsealed.
    rewrite (bind_Ok _ _ _ _ _ Hurl). reflexivity. }
  split.
  { intros wx e wy Hurl. unfold get_order_invoice. rewrite Hsealed.
    rewrite (bind_Err _ _ _ _ _ Hurl). reflexivity. }
  intros Hnone wx. unfold get_order_invoice. rewrite Hnone. reflexivity.
Qed.

End DocumentPaths.

(** The instance on the paid order of the demonstration, with a document
    generator that stores the invoice under the id of the order. *)
Lemma generate_invoice_seals_order_witness :
  exists order',
    fst Demo.generation = Ok order'
    /\ order_invoice_path order' = Some "invoices/order"
    /\ forall w2,
         trigger_invoice_generation order' w2 =
         (Err (InvoiceAlreadyExists (order_id Demo.paid_order)), w2).
Proof.
  assert (Hframe : forall A (a : A),
            preserves (fun w => (w_orders w, w_webhooks w, w_organizations w)) (ret a))
    by (intros A a w; reflexivity).
  pose proof (generate_invoice_seals_order Demo.create_order_invoice
                Demo.eventstream_publish (fun _ => ret ("https://invoices/order", 3600))
                (fun order => Hframe _ _) (fun _ _ _ _ => Hframe _ _)
                Demo.paid_order
                (set_order_invoice_path (Some "invoices/order") Demo.paid_order)
                (Demo.world Demo.paid_order) (snd Demo.generation)) as T.
  match type of T with
  | ?P -> _ => assert (H : P) by (vm_compute; reflexivity)
  end.
  destruct (T H) as (invoice_path & w0 & _ & _ & _ & _ & Htrigger & _).
  exists (set_order_invoice_path (Some "invoices/order") Demo.paid_order).
  split; [vm_compute; reflexivity |].
  split; [reflexivity | exact Htrigger].
Defined.

(** The instance on the renewal invoice [in_2]: the customer has no billing
    address, the invoice has no customer address, and its charge was not paid
    by card, so the order has none. *)
Lemma create_order_from_stripe_billing_address_witness :
  order_billing_address Demo.created_order = None.
Proof.
  pose proof (create_order_from_stripe_billing_address Demo.uuid4 Demo.UUID
                Demo.TaxabilityReason_from_stripe Demo.from_stripe_tax_rate 22%nat
                (Demo.invoice "in_2" "paid") (Demo.world Demo.pending_order)
                (snd Demo.creation) Demo.created_order) as T.
  match type of T with
  | ?P -> _ => assert (H : P) by (vm_compute; reflexivity)
  end.
  destruct (T H) as (_ & _ & Hcard).
  exact (Hcard eq_refl eq_refl).
Defined.

(** The instance on the renewal invoice [in_8].  With three tax amounts of
    which the first has a rate that does not convert and the two others
    have one that does, the order takes the rate and the reason of the
    second.  With two tax amounts whose rates do not convert, the order has
    no tax rate and the reason of the last. *)
Lemma create_order_from_stripe_tax_rate_witness :
  (order_tax_rate (Demo.taxed_order Demo.three_tax_amounts) =
     Some {| tax_rate_display_name := "VAT"; tax_rate_basis_points := None;
             tax_rate_country := Some "FR"; tax_rate_state := None |}
   /\ order_taxability_reason (Demo.taxed_order Demo.three_tax_amounts) =
      Some "standard_rated")
  /\ (order_tax_rate (Demo.taxed_order Demo.two_tax_amounts) = None
      /\ order_taxability_reason (Demo.taxed_order Demo.two_tax_amounts) =
         Some "not_subject_to_tax").
Proof.
  split.
  - pose proof (create_order_from_stripe_tax_rate Demo.uuid4 Demo.UUID
                  Demo.taxability_reason_of Demo.convert_tax_rate 22%nat
                  (Demo.taxed_invoice Demo.three_tax_amounts)
                  (Demo.world_with_stripe Demo.taxing_stripe Demo.pending_order)
                  (snd (Demo.taxed_creation Demo.three_tax_amounts))
                  (Demo.taxed_order Demo.three_tax_amounts)) as T.
    assert (Hplain : invoice_status (Demo.taxed_invoice Demo.three_tax_amounts)
                     <> Some "draft")
      by (simpl; discriminate).
    specialize (T Hplain).
    match type of T with
    | ?P -> _ => assert (H : P) by (vm_compute; reflexivity)
    end.
    specialize (T H). clear H.
    change (find _ (invoice_total_tax_amounts (Demo.taxed_invoice Demo.three_tax_amounts)))
      with (Some {| total_tax_amount_taxability_reason := Some "standard_rated";
                    total_tax_amount_tax_rate := "txr_2" |}) in T.
    destruct T as (Hrate & _ & Hreason).
    split; [exact Hrate | exact Hreason].
  - pose proof (create_order_from_stripe_tax_rate Demo.uuid4 Demo.UUID
                  Demo.taxability_reason_of Demo.convert_tax_rate 22%nat
                  (Demo.taxed_invoice Demo.two_tax_amounts)
                  (Demo.world_with_stripe Demo.taxing_stripe Demo.pending_order)
                  (snd (Demo.taxed_creation Demo.two_tax_amounts))
                  (Demo.taxed_order Demo.two_tax_amounts)) as T.
    assert (Hplain : invoice_status (Demo.taxed_invoice Demo.two_tax_amounts)
                     <> Some "draft")
      by (simpl; discriminate).
    specialize (T Hplain).
    match type of T with
    | ?P -> _ => assert (H : P) by (vm_compute; reflexivity)
    end.
    specialize (T H). clear H.
    change (find _ (invoice_total_tax_amounts (Demo.taxed_invoice Demo.two_tax_amounts)))
      with (@None TotalTaxAmount) in T.
    destruct T as (Hrate & Hreason).
    split; [exact Hrate | exact Hreason].
Defined.
